(** * Text transform runner: a verified model of
      [templates/python/text_transform/main.py]

    The script reads one command-line argument, decodes it with
    [json.loads], reads the fields [text] and [operation], applies
    [str.upper], [str.lower], the slice [[::-1]] or nothing, and prints
    the result with [json.dumps].

    The model follows the script statement by statement.  The library
    functions the script calls are modelled from CPython 3.11: a Python
    [str] is a sequence of Unicode code points, [json.loads] is the
    scanner of [json/decoder.py] and [json/scanner.py] with the details of
    its C version [Modules/_json.c], [json.dumps] the encoder of
    [json/encoder.py] with its default settings, and the case conversions
    use the full case mappings of the Unicode database (14.0.0).
    Resource limits of the interpreter (recursion depth, the cap on the
    number of digits of an [int] literal) are not modelled. *)

From Stdlib Require Import String Ascii DecimalString.
From Stdlib Require Import ZArith List Bool Lia.
From Stdlib Require Decimal DecimalFacts DecimalPos DecimalN DecimalZ.
Import ListNotations.
Open Scope Z_scope.
Set Warnings "-register-all".

(** ** Python strings *)

(** A [str] is a sequence of code points; indexing, slicing and case
    conversion all work on code points, never on bytes. *)
Definition codepoint := Z.
Definition str := list codepoint.

(** String literals of the script, as code point sequences. *)
Definition lit (s : string) : str :=
  List.map (fun a => Z.of_N (N_of_ascii a)) (list_ascii_of_string s).

Fixpoint str_eqb (a b : str) : bool :=
  match a, b with
  | [], [] => true
  | x :: a', y :: b' => (x =? y) && str_eqb a' b'
  | _, _ => false
  end.

(** ** Unicode case data *)

Module Unicode.

(** Code points whose full uppercase mapping differs from the code point
    itself, with that mapping (Unicode 14.0.0, the database of CPython 3.11). *)
Definition upper_table : list (Z * list Z) :=
  [(97, [65]); (98, [66]); (99, [67]); (100, [68]); (101, [69]); (102, [70]); (103, [71]);
   (104, [72]); (105, [73]); (106, [74]); (107, [75]); (108, [76]); (109, [77]); (110, [78]);
   (111, [79]); (112, [80]); (113, [81]); (114, [82]); (115, [83]); (116, [84]); (117, [85]);
   (118, [86]); (119, [87]); (120, [88]); (121, [89]); (122, [90]); (181, [924]);
   (223, [83; 83]); (224, [192]); (225, [193]); (226, [194]); (227, [195]); (228, [196]);
   (229, [197]); (230, [198]); (231, [199]); (232, [200]); (233, [201]); (234, [202]);
   (235, [203]); (236, [204]); (237, [205]); (238, [206]); (239, [207]); (240, [208]);
   (241, [209]); (242, [210]); (243, [211]); (244, [212]); (245, [213]); (246, [214]);
   (248, [216]); (249, [217]); (250, [218]); (251, [219]); (252, [220]); (253, [221]);
   (254, [222]); (255, [376]); (257, [256]); (259, [258]); (261, [260]); (263, [262]);
   (265, [264]); (267, [266]); (269, [268]); (271, [270]); (273, [272]); (275, [274]);
   (277, [276]); (279, [278]); (281, [280]); (283, [282]); (285, [284]); (287, [286]);
   (289, [288]); (291, [290]); (293, [292]); (295, [294]); (297, [296]); (299, [298]);
   (301, [300]); (303, [302]); (305, [73]); (307, [306]); (309, [308]); (311, [310]);
   (314, [313]); (316, [315]); (318, [317]); (320, [319]); (322, [321]); (324, [323]);
   (326, [325]); (328, [327]); (329, [700; 78]); (331, [330]); (333, [332]); (335, [334]);
   (337, [336]); (339, [338]); (341, [340]); (343, [342]); (345, [344]); (347, [346]);
   (349, [348]); (351, [350]); (353, [352]); (355, [354]); (357, [356]); (359, [358]);
   (361, [360]); (363, [362]); (365, [364]); (367, [366]); (369, [368]); (371, [370]);
   (373, [372]); (375, [374]); (378, [377]); (380, [379]); (382, [381]); (383, [83]);
   (384, [579]); (387, [386]); (389, [388]); (392, [391]); (396, [395]); (402, [401]);
   (405, [502]); (409, [408]); (410, [573]); (414, [544]); (417, [416]); (419, [418]);
   (421, [420]); (424, [423]); (429, [428]); (432, [431]); (436, [435]); (438, [437]);
   (441, [440]); (445, [444]); (447, [503]); (453, [452]); (454, [452]); (456, [455]);
   (457, [455]); (459, [458]); (460, [458]); (462, [461]); (464, [463]); (466, [465]);
   (468, [467]); (470, [469]); (472, [471]); (474, [473]); (476, [475]); (477, [398]);
   (479, [478]); (481, [480]); (483, [482]); (485, [484]); (487, [486]); (489, [488]);
   (491, [490]); (493, [492]); (495, [494]); (496, [74; 780]); (498, [497]); (499, [497]);
   (501, [500]); (505, [504]); (507, [506]); (509, [508]); (511, [510]); (513, [512]);
   (515, [514]); (517, [516]); (519, [518]); (521, [520]); (523, [522]); (525, [524]);
   (527, [526]); (529, [528]); (531, [530]); (533, [532]); (535, [534]); (537, [536]);
   (539, [538]); (541, [540]); (543, [542]); (547, [546]); (549, [548]); (551, [550]);
   (553, [552]); (555, [554]); (557, [556]); (559, [558]); (561, [560]); (563, [562]);
   (572, [571]); (575, [11390]); (576, [11391]); (578, [577]); (583, [582]); (585, [584]);
   (587, [586]); (589, [588]); (591, [590]); (592, [11375]); (593, [11373]); (594, [11376]);
   (595, [385]); (596, [390]); (598, [393]); (599, [394]); (601, [399]); (603, [400]);
   (604, [42923]); (608, [403]); (609, [42924]); (611, [404]); (613, [42893]); (614, [42922]);
   (616, [407]); (617, [406]); (618, [42926]); (619, [11362]); (620, [42925]); (623, [412]);
   (625, [11374]); (626, [413]); (629, [415]); (637, [11364]); (640, [422]); (642, [42949]);
   (643, [425]); (647, [42929]); (648, [430]); (649, [580]); (650, [433]); (651, [434]);
   (652, [581]); (658, [439]); (669, [42930]); (670, [42928]); (837, [921]); (881, [880]);
   (883, [882]); (887, [886]); (891, [1021]); (892, [1022]); (893, [1023]);
   (912, [921; 776; 769]); (940, [902]); (941, [904]); (942, [905]); (943, [906]);
   (944, [933; 776; 769]); (945, [913]); (946, [914]); (947, [915]); (948, [916]);
   (949, [917]); (950, [918]); (951, [919]); (952, [920]); (953, [921]); (954, [922]);
   (955, [923]); (956, [924]); (957, [925]); (958, [926]); (959, [927]); (960, [928]);
   (961, [929]); (962, [931]); (963, [931]); (964, [932]); (965, [933]); (966, [934]);
   (967, [935]); (968, [936]); (969, [937]); (970, [938]); (971, [939]); (972, [908]);
   (973, [910]); (974, [911]); (976, [914]); (977, [920]); (981, [934]); (982, [928]);
   (983, [975]); (985, [984]); (987, [986]); (989, [988]); (991, [990]); (993, [992]);
   (995, [994]); (997, [996]); (999, [998]); (1001, [1000]); (1003, [1002]); (1005, [1004]);
   (1007, [1006]); (1008, [922]); (1009, [929]); (1010, [1017]); (1011, [895]); (1013, [917]);
   (1016, [1015]); (1019, [1018]); (1072, [1040]); (1073, [1041]); (1074, [1042]);
   (1075, [1043]); (1076, [1044]); (1077, [1045]); (1078, [1046]); (1079, [1047]);
   (1080, [1048]); (1081, [1049]); (1082, [1050]); (1083, [1051]); (1084, [1052]);
   (1085, [1053]); (1086, [1054]); (1087, [1055]); (1088, [1056]); (1089, [1057]);
   (1090, [1058]); (1091, [1059]); (1092, [1060]); (1093, [1061]); (1094, [1062]);
   (1095, [1063]); (1096, [1064]); (1097, [1065]); (1098, [1066]); (1099, [1067]);
   (1100, [1068]); (1101, [1069]); (1102, [1070]); (1103, [1071]); (1104, [1024]);
   (1105, [1025]); (1106, [1026]); (1107, [1027]); (1108, [1028]); (1109, [1029]);
   (1110, [1030]); (1111, [1031]); (1112, [1032]); (1113, [1033]); (1114, [1034]);
   (1115, [1035]); (1116, [1036]); (1117, [1037]); (1118, [1038]); (1119, [1039]);
   (1121, [1120]); (1123, [1122]); (1125, [1124]); (1127, [1126]); (1129, [1128]);
   (1131, [1130]); (1133, [1132]); (1135, [1134]); (1137, [1136]); (1139, [1138]);
   (1141, [1140]); (1143, [1142]); (1145, [1144]); (1147, [1146]); (1149, [1148]);
   (1151, [1150]); (1153, [1152]); (1163, [1162]); (1165, [1164]); (1167, [1166]);
   (1169, [1168]); (1171, [1170]); (1173, [1172]); (1175, [1174]); (1177, [1176]);
   (1179, [1178]); (1181, [1180]); (1183, [1182]); (1185, [1184]); (1187, [1186]);
   (1189, [1188]); (1191, [1190]); (1193, [1192]); (1195, [1194]); (1197, [1196]);
   (1199, [1198]); (1201, [1200]); (1203, [1202]); (1205, [1204]); (1207, [1206]);
   (1209, [1208]); (1211, [1210]); (1213, [1212]); (1215, [1214]); (1218, [1217]);
   (1220, [1219]); (1222, [1221]); (1224, [1223]); (1226, [1225]); (1228, [1227]);
   (1230, [1229]); (1231, [1216]); (1233, [1232]); (1235, [1234]); (1237, [1236]);
   (1239, [1238]); (1241, [1240]); (1243, [1242]); (1245, [1244]); (1247, [1246]);
   (1249, [1248]); (1251, [1250]); (1253, [1252]); (1255, [1254]); (1257, [1256]);
   (1259, [1258]); (1261, [1260]); (1263, [1262]); (1265, [1264]); (1267, [1266]);
   (1269, [1268]); (1271, [1270]); (1273, [1272]); (1275, [1274]); (1277, [1276]);
   (1279, [1278]); (1281, [1280]); (1283, [1282]); (1285, [1284]); (1287, [1286]);
   (1289, [1288]); (1291, [1290]); (1293, [1292]); (1295, [1294]); (1297, [1296]);
   (1299, [1298]); (1301, [1300]); (1303, [1302]); (1305, [1304]); (1307, [1306]);
   (1309, [1308]); (1311, [1310]); (1313, [1312]); (1315, [1314]); (1317, [1316]);
   (1319, [1318]); (1321, [1320]); (1323, [1322]); (1325, [1324]); (1327, [1326]);
   (1377, [1329]); (1378, [1330]); (1379, [1331]); (1380, [1332]); (1381, [1333]);
   (1382, [1334]); (1383, [1335]); (1384, [1336]); (1385, [1337]); (1386, [1338]);
   (1387, [1339]); (1388, [1340]); (1389, [1341]); (1390, [1342]); (1391, [1343]);
   (1392, [1344]); (1393, [1345]); (1394, [1346]); (1395, [1347]); (1396, [1348]);
   (1397, [1349]); (1398, [1350]); (1399, [1351]); (1400, [1352]); (1401, [1353]);
   (1402, [1354]); (1403, [1355]); (1404, [1356]); (1405, [1357]); (1406, [1358]);
   (1407, [1359]); (1408, [1360]); (1409, [1361]); (1410, [1362]); (1411, [1363]);
   (1412, [1364]); (1413, [1365]); (1414, [1366]); (1415, [1333; 1362]); (4304, [7312]);
   (4305, [7313]); (4306, [7314]); (4307, [7315]); (4308, [7316]); (4309, [7317]);
   (4310, [7318]); (4311, [7319]); (4312, [7320]); (4313, [7321]); (4314, [7322]);
   (4315, [7323]); (4316, [7324]); (4317, [7325]); (4318, [7326]); (4319, [7327]);
   (4320, [7328]); (4321, [7329]); (4322, [7330]); (4323, [7331]); (4324, [7332]);
   (4325, [7333]); (4326, [7334]); (4327, [7335]); (4328, [7336]); (4329, [7337]);
   (4330, [7338]); (4331, [7339]); (4332, [7340]); (4333, [7341]); (4334, [7342]);
   (4335, [7343]); (4336, [7344]); (4337, [7345]); (4338, [7346]); (4339, [7347]);
   (4340, [7348]); (4341, [7349]); (4342, [7350]); (4343, [7351]); (4344, [7352]);
   (4345, [7353]); (4346, [7354]); (4349, [7357]); (4350, [7358]); (4351, [7359]);
   (5112, [5104]); (5113, [5105]); (5114, [5106]); (5115, [5107]); (5116, [5108]);
   (5117, [5109]); (7296, [1042]); (7297, [1044]); (7298, [1054]); (7299, [1057]);
   (7300, [1058]); (7301, [1058]); (7302, [1066]); (7303, [1122]); (7304, [42570]);
   (7545, [42877]); (7549, [11363]); (7566, [42950]); (7681, [7680]); (7683, [7682]);
   (7685, [7684]); (7687, [7686]); (7689, [7688]); (7691, [7690]); (7693, [7692]);
   (7695, [7694]); (7697, [7696]); (7699, [7698]); (7701, [7700]); (7703, [7702]);
   (7705, [7704]); (7707, [7706]); (7709, [7708]); (7711, [7710]); (7713, [7712]);
   (7715, [7714]); (7717, [7716]); (7719, [7718]); (7721, [7720]); (7723, [7722]);
   (7725, [7724]); (7727, [7726]); (7729, [7728]); (7731, [7730]); (7733, [7732]);
   (7735, [7734]); (7737, [7736]); (7739, [7738]); (7741, [7740]); (7743, [7742]);
   (7745, [7744]); (7747, [7746]); (7749, [7748]); (7751, [7750]); (7753, [7752]);
   (7755, [7754]); (7757, [7756]); (7759, [7758]); (7761, [7760]); (7763, [7762]);
   (7765, [7764]); (7767, [7766]); (7769, [7768]); (7771, [7770]); (7773, [7772]);
   (7775, [7774]); (7777, [7776]); (7779, [7778]); (7781, [7780]); (7783, [7782]);
   (7785, [7784]); (7787, [7786]); (7789, [7788]); (7791, [7790]); (7793, [7792]);
   (7795, [7794]); (7797, [7796]); (7799, [7798]); (7801, [7800]); (7803, [7802]);
   (7805, [7804]); (7807, [7806]); (7809, [7808]); (7811, [7810]); (7813, [7812]);
   (7815, [7814]); (7817, [7816]); (7819, [7818]); (7821, [7820]); (7823, [7822]);
   (7825, [7824]); (7827, [7826]); (7829, [7828]); (7830, [72; 817]); (7831, [84; 776]);
   (7832, [87; 778]); (7833, [89; 778]); (7834, [65; 702]); (7835, [7776]); (7841, [7840]);
   (7843, [7842]); (7845, [7844]); (7847, [7846]); (7849, [7848]); (7851, [7850]);
   (7853, [7852]); (7855, [7854]); (7857, [7856]); (7859, [7858]); (7861, [7860]);
   (7863, [7862]); (7865, [7864]); (7867, [7866]); (7869, [7868]); (7871, [7870]);
   (7873, [7872]); (7875, [7874]); (7877, [7876]); (7879, [7878]); (7881, [7880]);
   (7883, [7882]); (7885, [7884]); (7887, [7886]); (7889, [7888]); (7891, [7890]);
   (7893, [7892]); (7895, [7894]); (7897, [7896]); (7899, [7898]); (7901, [7900]);
   (7903, [7902]); (7905, [7904]); (7907, [7906]); (7909, [7908]); (7911, [7910]);
   (7913, [7912]); (7915, [7914]); (7917, [7916]); (7919, [7918]); (7921, [7920]);
   (7923, [7922]); (7925, [7924]); (7927, [7926]); (7929, [7928]); (7931, [7930]);
   (7933, [7932]); (7935, [7934]); (7936, [7944]); (7937, [7945]); (7938, [7946]);
   (7939, [7947]); (7940, [7948]); (7941, [7949]); (7942, [7950]); (7943, [7951]);
   (7952, [7960]); (7953, [7961]); (7954, [7962]); (7955, [7963]); (7956, [7964]);
   (7957, [7965]); (7968, [7976]); (7969, [7977]); (7970, [7978]); (7971, [7979]);
   (7972, [7980]); (7973, [7981]); (7974, [7982]); (7975, [7983]); (7984, [7992]);
   (7985, [7993]); (7986, [7994]); (7987, [7995]); (7988, [7996]); (7989, [7997]);
   (7990, [7998]); (7991, [7999]); (8000, [8008]); (8001, [8009]); (8002, [8010]);
   (8003, [8011]); (8004, [8012]); (8005, [8013]); (8016, [933; 787]); (8017, [8025]);
   (8018, [933; 787; 768]); (8019, [8027]); (8020, [933; 787; 769]); (8021, [8029]);
   (8022, [933; 787; 834]); (8023, [8031]); (8032, [8040]); (8033, [8041]); (8034, [8042]);
   (8035, [8043]); (8036, [8044]); (8037, [8045]); (8038, [8046]); (8039, [8047]);
   (8048, [8122]); (8049, [8123]); (8050, [8136]); (8051, [8137]); (8052, [8138]);
   (8053, [8139]); (8054, [8154]); (8055, [8155]); (8056, [8184]); (8057, [8185]);
   (8058, [8170]); (8059, [8171]); (8060, [8186]); (8061, [8187]); (8064, [7944; 921]);
   (8065, [7945; 921]); (8066, [7946; 921]); (8067, [7947; 921]); (8068, [7948; 921]);
   (8069, [7949; 921]); (8070, [7950; 921]); (8071, [7951; 921]); (8072, [7944; 921]);
   (8073, [7945; 921]); (8074, [7946; 921]); (8075, [7947; 921]); (8076, [7948; 921]);
   (8077, [7949; 921]); (8078, [7950; 921]); (8079, [7951; 921]); (8080, [7976; 921]);
   (8081, [7977; 921]); (8082, [7978; 921]); (8083, [7979; 921]); (8084, [7980; 921]);
   (8085, [7981; 921]); (8086, [7982; 921]); (8087, [7983; 921]); (8088, [7976; 921]);
   (8089, [7977; 921]); (8090, [7978; 921]); (8091, [7979; 921]); (8092, [7980; 921]);
   (8093, [7981; 921]); (8094, [7982; 921]); (8095, [7983; 921]); (8096, [8040; 921]);
   (8097, [8041; 921]); (8098, [8042; 921]); (8099, [8043; 921]); (8100, [8044; 921]);
   (8101, [8045; 921]); (8102, [8046; 921]); (8103, [8047; 921]); (8104, [8040; 921]);
   (8105, [8041; 921]); (8106, [8042; 921]); (8107, [8043; 921]); (8108, [8044; 921]);
   (8109, [8045; 921]); (8110, [8046; 921]); (8111, [8047; 921]); (8112, [8120]);
   (8113, [8121]); (8114, [8122; 921]); (8115, [913; 921]); (8116, [902; 921]);
   (8118, [913; 834]); (8119, [913; 834; 921]); (8124, [913; 921]); (8126, [921]);
   (8130, [8138; 921]); (8131, [919; 921]); (8132, [905; 921]); (8134, [919; 834]);
   (8135, [919; 834; 921]); (8140, [919; 921]); (8144, [8152]); (8145, [8153]);
   (8146, [921; 776; 768]); (8147, [921; 776; 769]); (8150, [921; 834]);
   (8151, [921; 776; 834]); (8160, [8168]); (8161, [8169]); (8162, [933; 776; 768]);
   (8163, [933; 776; 769]); (8164, [929; 787]); (8165, [8172]); (8166, [933; 834]);
   (8167, [933; 776; 834]); (8178, [8186; 921]); (8179, [937; 921]); (8180, [911; 921]);
   (8182, [937; 834]); (8183, [937; 834; 921]); (8188, [937; 921]); (8526, [8498]);
   (8560, [8544]); (8561, [8545]); (8562, [8546]); (8563, [8547]); (8564, [8548]);
   (8565, [8549]); (8566, [8550]); (8567, [8551]); (8568, [8552]); (8569, [8553]);
   (8570, [8554]); (8571, [8555]); (8572, [8556]); (8573, [8557]); (8574, [8558]);
   (8575, [8559]); (8580, [8579]); (9424, [9398]); (9425, [9399]); (9426, [9400]);
   (9427, [9401]); (9428, [9402]); (9429, [9403]); (9430, [9404]); (9431, [9405]);
   (9432, [9406]); (9433, [9407]); (9434, [9408]); (9435, [9409]); (9436, [9410]);
   (9437, [9411]); (9438, [9412]); (9439, [9413]); (9440, [9414]); (9441, [9415]);
   (9442, [9416]); (9443, [9417]); (9444, [9418]); (9445, [9419]); (9446, [9420]);
   (9447, [9421]); (9448, [9422]); (9449, [9423]); (11312, [11264]); (11313, [11265]);
   (11314, [11266]); (11315, [11267]); (11316, [11268]); (11317, [11269]); (11318, [11270]);
   (11319, [11271]); (11320, [11272]); (11321, [11273]); (11322, [11274]); (11323, [11275]);
   (11324, [11276]); (11325, [11277]); (11326, [11278]); (11327, [11279]); (11328, [11280]);
   (11329, [11281]); (11330, [11282]); (11331, [11283]); (11332, [11284]); (11333, [11285]);
   (11334, [11286]); (11335, [11287]); (11336, [11288]); (11337, [11289]); (11338, [11290]);
   (11339, [11291]); (11340, [11292]); (11341, [11293]); (11342, [11294]); (11343, [11295]);
   (11344, [11296]); (11345, [11297]); (11346, [11298]); (11347, [11299]); (11348, [11300]);
   (11349, [11301]); (11350, [11302]); (11351, [11303]); (11352, [11304]); (11353, [11305]);
   (11354, [11306]); (11355, [11307]); (11356, [11308]); (11357, [11309]); (11358, [11310]);
   (11359, [11311]); (11361, [11360]); (11365, [570]); (11366, [574]); (11368, [11367]);
   (11370, [11369]); (11372, [11371]); (11379, [11378]); (11382, [11381]); (11393, [11392]);
   (11395, [11394]); (11397, [11396]); (11399, [11398]); (11401, [11400]); (11403, [11402]);
   (11405, [11404]); (11407, [11406]); (11409, [11408]); (11411, [11410]); (11413, [11412]);
   (11415, [11414]); (11417, [11416]); (11419, [11418]); (11421, [11420]); (11423, [11422]);
   (11425, [11424]); (11427, [11426]); (11429, [11428]); (11431, [11430]); (11433, [11432]);
   (11435, [11434]); (11437, [11436]); (11439, [11438]); (11441, [11440]); (11443, [11442]);
   (11445, [11444]); (11447, [11446]); (11449, [11448]); (11451, [11450]); (11453, [11452]);
   (11455, [11454]); (11457, [11456]); (11459, [11458]); (11461, [11460]); (11463, [11462]);
   (11465, [11464]); (11467, [11466]); (11469, [11468]); (11471, [11470]); (11473, [11472]);
   (11475, [11474]); (11477, [11476]); (11479, [11478]); (11481, [11480]); (11483, [11482]);
   (11485, [11484]); (11487, [11486]); (11489, [11488]); (11491, [11490]); (11500, [11499]);
   (11502, [11501]); (11507, [11506]); (11520, [4256]); (11521, [4257]); (11522, [4258]);
   (11523, [4259]); (11524, [4260]); (11525, [4261]); (11526, [4262]); (11527, [4263]);
   (11528, [4264]); (11529, [4265]); (11530, [4266]); (11531, [4267]); (11532, [4268]);
   (11533, [4269]); (11534, [4270]); (11535, [4271]); (11536, [4272]); (11537, [4273]);
   (11538, [4274]); (11539, [4275]); (11540, [4276]); (11541, [4277]); (11542, [4278]);
   (11543, [4279]); (11544, [4280]); (11545, [4281]); (11546, [4282]); (11547, [4283]);
   (11548, [4284]); (11549, [4285]); (11550, [4286]); (11551, [4287]); (11552, [4288]);
   (11553, [4289]); (11554, [4290]); (11555, [4291]); (11556, [4292]); (11557, [4293]);
   (11559, [4295]); (11565, [4301]); (42561, [42560]); (42563, [42562]); (42565, [42564]);
   (42567, [42566]); (42569, [42568]); (42571, [42570]); (42573, [42572]); (42575, [42574]);
   (42577, [42576]); (42579, [42578]); (42581, [42580]); (42583, [42582]); (42585, [42584]);
   (42587, [42586]); (42589, [42588]); (42591, [42590]); (42593, [42592]); (42595, [42594]);
   (42597, [42596]); (42599, [42598]); (42601, [42600]); (42603, [42602]); (42605, [42604]);
   (42625, [42624]); (42627, [42626]); (42629, [42628]); (42631, [42630]); (42633, [42632]);
   (42635, [42634]); (42637, [42636]); (42639, [42638]); (42641, [42640]); (42643, [42642]);
   (42645, [42644]); (42647, [42646]); (42649, [42648]); (42651, [42650]); (42787, [42786]);
   (42789, [42788]); (42791, [42790]); (42793, [42792]); (42795, [42794]); (42797, [42796]);
   (42799, [42798]); (42803, [42802]); (42805, [42804]); (42807, [42806]); (42809, [42808]);
   (42811, [42810]); (42813, [42812]); (42815, [42814]); (42817, [42816]); (42819, [42818]);
   (42821, [42820]); (42823, [42822]); (42825, [42824]); (42827, [42826]); (42829, [42828]);
   (42831, [42830]); (42833, [42832]); (42835, [42834]); (42837, [42836]); (42839, [42838]);
   (42841, [42840]); (42843, [42842]); (42845, [42844]); (42847, [42846]); (42849, [42848]);
   (42851, [42850]); (42853, [42852]); (42855, [42854]); (42857, [42856]); (42859, [42858]);
   (42861, [42860]); (42863, [42862]); (42874, [42873]); (42876, [42875]); (42879, [42878]);
   (42881, [42880]); (42883, [42882]); (42885, [42884]); (42887, [42886]); (42892, [42891]);
   (42897, [42896]); (42899, [42898]); (42900, [42948]); (42903, [42902]); (42905, [42904]);
   (42907, [42906]); (42909, [42908]); (42911, [42910]); (42913, [42912]); (42915, [42914]);
   (42917, [42916]); (42919, [42918]); (42921, [42920]); (42933, [42932]); (42935, [42934]);
   (42937, [42936]); (42939, [42938]); (42941, [42940]); (42943, [42942]); (42945, [42944]);
   (42947, [42946]); (42952, [42951]); (42954, [42953]); (42961, [42960]); (42967, [42966]);
   (42969, [42968]); (42998, [42997]); (43859, [42931]); (43888, [5024]); (43889, [5025]);
   (43890, [5026]); (43891, [5027]); (43892, [5028]); (43893, [5029]); (43894, [5030]);
   (43895, [5031]); (43896, [5032]); (43897, [5033]); (43898, [5034]); (43899, [5035]);
   (43900, [5036]); (43901, [5037]); (43902, [5038]); (43903, [5039]); (43904, [5040]);
   (43905, [5041]); (43906, [5042]); (43907, [5043]); (43908, [5044]); (43909, [5045]);
   (43910, [5046]); (43911, [5047]); (43912, [5048]); (43913, [5049]); (43914, [5050]);
   (43915, [5051]); (43916, [5052]); (43917, [5053]); (43918, [5054]); (43919, [5055]);
   (43920, [5056]); (43921, [5057]); (43922, [5058]); (43923, [5059]); (43924, [5060]);
   (43925, [5061]); (43926, [5062]); (43927, [5063]); (43928, [5064]); (43929, [5065]);
   (43930, [5066]); (43931, [5067]); (43932, [5068]); (43933, [5069]); (43934, [5070]);
   (43935, [5071]); (43936, [5072]); (43937, [5073]); (43938, [5074]); (43939, [5075]);
   (43940, [5076]); (43941, [5077]); (43942, [5078]); (43943, [5079]); (43944, [5080]);
   (43945, [5081]); (43946, [5082]); (43947, [5083]); (43948, [5084]); (43949, [5085]);
   (43950, [5086]); (43951, [5087]); (43952, [5088]); (43953, [5089]); (43954, [5090]);
   (43955, [5091]); (43956, [5092]); (43957, [5093]); (43958, [5094]); (43959, [5095]);
   (43960, [5096]); (43961, [5097]); (43962, [5098]); (43963, [5099]); (43964, [5100]);
   (43965, [5101]); (43966, [5102]); (43967, [5103]); (64256, [70; 70]); (64257, [70; 73]);
   (64258, [70; 76]); (64259, [70; 70; 73]); (64260, [70; 70; 76]); (64261, [83; 84]);
   (64262, [83; 84]); (64275, [1348; 1350]); (64276, [1348; 1333]); (64277, [1348; 1339]);
   (64278, [1358; 1350]); (64279, [1348; 1341]); (65345, [65313]); (65346, [65314]);
   (65347, [65315]); (65348, [65316]); (65349, [65317]); (65350, [65318]); (65351, [65319]);
   (65352, [65320]); (65353, [65321]); (65354, [65322]); (65355, [65323]); (65356, [65324]);
   (65357, [65325]); (65358, [65326]); (65359, [65327]); (65360, [65328]); (65361, [65329]);
   (65362, [65330]); (65363, [65331]); (65364, [65332]); (65365, [65333]); (65366, [65334]);
   (65367, [65335]); (65368, [65336]); (65369, [65337]); (65370, [65338]); (66600, [66560]);
   (66601, [66561]); (66602, [66562]); (66603, [66563]); (66604, [66564]); (66605, [66565]);
   (66606, [66566]); (66607, [66567]); (66608, [66568]); (66609, [66569]); (66610, [66570]);
   (66611, [66571]); (66612, [66572]); (66613, [66573]); (66614, [66574]); (66615, [66575]);
   (66616, [66576]); (66617, [66577]); (66618, [66578]); (66619, [66579]); (66620, [66580]);
   (66621, [66581]); (66622, [66582]); (66623, [66583]); (66624, [66584]); (66625, [66585]);
   (66626, [66586]); (66627, [66587]); (66628, [66588]); (66629, [66589]); (66630, [66590]);
   (66631, [66591]); (66632, [66592]); (66633, [66593]); (66634, [66594]); (66635, [66595]);
   (66636, [66596]); (66637, [66597]); (66638, [66598]); (66639, [66599]); (66776, [66736]);
   (66777, [66737]); (66778, [66738]); (66779, [66739]); (66780, [66740]); (66781, [66741]);
   (66782, [66742]); (66783, [66743]); (66784, [66744]); (66785, [66745]); (66786, [66746]);
   (66787, [66747]); (66788, [66748]); (66789, [66749]); (66790, [66750]); (66791, [66751]);
   (66792, [66752]); (66793, [66753]); (66794, [66754]); (66795, [66755]); (66796, [66756]);
   (66797, [66757]); (66798, [66758]); (66799, [66759]); (66800, [66760]); (66801, [66761]);
   (66802, [66762]); (66803, [66763]); (66804, [66764]); (66805, [66765]); (66806, [66766]);
   (66807, [66767]); (66808, [66768]); (66809, [66769]); (66810, [66770]); (66811, [66771]);
   (66967, [66928]); (66968, [66929]); (66969, [66930]); (66970, [66931]); (66971, [66932]);
   (66972, [66933]); (66973, [66934]); (66974, [66935]); (66975, [66936]); (66976, [66937]);
   (66977, [66938]); (66979, [66940]); (66980, [66941]); (66981, [66942]); (66982, [66943]);
   (66983, [66944]); (66984, [66945]); (66985, [66946]); (66986, [66947]); (66987, [66948]);
   (66988, [66949]); (66989, [66950]); (66990, [66951]); (66991, [66952]); (66992, [66953]);
   (66993, [66954]); (66995, [66956]); (66996, [66957]); (66997, [66958]); (66998, [66959]);
   (66999, [66960]); (67000, [66961]); (67001, [66962]); (67003, [66964]); (67004, [66965]);
   (68800, [68736]); (68801, [68737]); (68802, [68738]); (68803, [68739]); (68804, [68740]);
   (68805, [68741]); (68806, [68742]); (68807, [68743]); (68808, [68744]); (68809, [68745]);
   (68810, [68746]); (68811, [68747]); (68812, [68748]); (68813, [68749]); (68814, [68750]);
   (68815, [68751]); (68816, [68752]); (68817, [68753]); (68818, [68754]); (68819, [68755]);
   (68820, [68756]); (68821, [68757]); (68822, [68758]); (68823, [68759]); (68824, [68760]);
   (68825, [68761]); (68826, [68762]); (68827, [68763]); (68828, [68764]); (68829, [68765]);
   (68830, [68766]); (68831, [68767]); (68832, [68768]); (68833, [68769]); (68834, [68770]);
   (68835, [68771]); (68836, [68772]); (68837, [68773]); (68838, [68774]); (68839, [68775]);
   (68840, [68776]); (68841, [68777]); (68842, [68778]); (68843, [68779]); (68844, [68780]);
   (68845, [68781]); (68846, [68782]); (68847, [68783]); (68848, [68784]); (68849, [68785]);
   (68850, [68786]); (71872, [71840]); (71873, [71841]); (71874, [71842]); (71875, [71843]);
   (71876, [71844]); (71877, [71845]); (71878, [71846]); (71879, [71847]); (71880, [71848]);
   (71881, [71849]); (71882, [71850]); (71883, [71851]); (71884, [71852]); (71885, [71853]);
   (71886, [71854]); (71887, [71855]); (71888, [71856]); (71889, [71857]); (71890, [71858]);
   (71891, [71859]); (71892, [71860]); (71893, [71861]); (71894, [71862]); (71895, [71863]);
   (71896, [71864]); (71897, [71865]); (71898, [71866]); (71899, [71867]); (71900, [71868]);
   (71901, [71869]); (71902, [71870]); (71903, [71871]); (93792, [93760]); (93793, [93761]);
   (93794, [93762]); (93795, [93763]); (93796, [93764]); (93797, [93765]); (93798, [93766]);
   (93799, [93767]); (93800, [93768]); (93801, [93769]); (93802, [93770]); (93803, [93771]);
   (93804, [93772]); (93805, [93773]); (93806, [93774]); (93807, [93775]); (93808, [93776]);
   (93809, [93777]); (93810, [93778]); (93811, [93779]); (93812, [93780]); (93813, [93781]);
   (93814, [93782]); (93815, [93783]); (93816, [93784]); (93817, [93785]); (93818, [93786]);
   (93819, [93787]); (93820, [93788]); (93821, [93789]); (93822, [93790]); (93823, [93791]);
   (125218, [125184]); (125219, [125185]); (125220, [125186]); (125221, [125187]);
   (125222, [125188]); (125223, [125189]); (125224, [125190]); (125225, [125191]);
   (125226, [125192]); (125227, [125193]); (125228, [125194]); (125229, [125195]);
   (125230, [125196]); (125231, [125197]); (125232, [125198]); (125233, [125199]);
   (125234, [125200]); (125235, [125201]); (125236, [125202]); (125237, [125203]);
   (125238, [125204]); (125239, [125205]); (125240, [125206]); (125241, [125207]);
   (125242, [125208]); (125243, [125209]); (125244, [125210]); (125245, [125211]);
   (125246, [125212]); (125247, [125213]); (125248, [125214]); (125249, [125215]);
   (125250, [125216]); (125251, [125217])].

(** Code points whose full lowercase mapping differs from the code point
    itself, with that mapping. *)
Definition lower_table : list (Z * list Z) :=
  [(65, [97]); (66, [98]); (67, [99]); (68, [100]); (69, [101]); (70, [102]); (71, [103]);
   (72, [104]); (73, [105]); (74, [106]); (75, [107]); (76, [108]); (77, [109]); (78, [110]);
   (79, [111]); (80, [112]); (81, [113]); (82, [114]); (83, [115]); (84, [116]); (85, [117]);
   (86, [118]); (87, [119]); (88, [120]); (89, [121]); (90, [122]); (192, [224]); (193, [225]);
   (194, [226]); (195, [227]); (196, [228]); (197, [229]); (198, [230]); (199, [231]);
   (200, [232]); (201, [233]); (202, [234]); (203, [235]); (204, [236]); (205, [237]);
   (206, [238]); (207, [239]); (208, [240]); (209, [241]); (210, [242]); (211, [243]);
   (212, [244]); (213, [245]); (214, [246]); (216, [248]); (217, [249]); (218, [250]);
   (219, [251]); (220, [252]); (221, [253]); (222, [254]); (256, [257]); (258, [259]);
   (260, [261]); (262, [263]); (264, [265]); (266, [267]); (268, [269]); (270, [271]);
   (272, [273]); (274, [275]); (276, [277]); (278, [279]); (280, [281]); (282, [283]);
   (284, [285]); (286, [287]); (288, [289]); (290, [291]); (292, [293]); (294, [295]);
   (296, [297]); (298, [299]); (300, [301]); (302, [303]); (304, [105; 775]); (306, [307]);
   (308, [309]); (310, [311]); (313, [314]); (315, [316]); (317, [318]); (319, [320]);
   (321, [322]); (323, [324]); (325, [326]); (327, [328]); (330, [331]); (332, [333]);
   (334, [335]); (336, [337]); (338, [339]); (340, [341]); (342, [343]); (344, [345]);
   (346, [347]); (348, [349]); (350, [351]); (352, [353]); (354, [355]); (356, [357]);
   (358, [359]); (360, [361]); (362, [363]); (364, [365]); (366, [367]); (368, [369]);
   (370, [371]); (372, [373]); (374, [375]); (376, [255]); (377, [378]); (379, [380]);
   (381, [382]); (385, [595]); (386, [387]); (388, [389]); (390, [596]); (391, [392]);
   (393, [598]); (394, [599]); (395, [396]); (398, [477]); (399, [601]); (400, [603]);
   (401, [402]); (403, [608]); (404, [611]); (406, [617]); (407, [616]); (408, [409]);
   (412, [623]); (413, [626]); (415, [629]); (416, [417]); (418, [419]); (420, [421]);
   (422, [640]); (423, [424]); (425, [643]); (428, [429]); (430, [648]); (431, [432]);
   (433, [650]); (434, [651]); (435, [436]); (437, [438]); (439, [658]); (440, [441]);
   (444, [445]); (452, [454]); (453, [454]); (455, [457]); (456, [457]); (458, [460]);
   (459, [460]); (461, [462]); (463, [464]); (465, [466]); (467, [468]); (469, [470]);
   (471, [472]); (473, [474]); (475, [476]); (478, [479]); (480, [481]); (482, [483]);
   (484, [485]); (486, [487]); (488, [489]); (490, [491]); (492, [493]); (494, [495]);
   (497, [499]); (498, [499]); (500, [501]); (502, [405]); (503, [447]); (504, [505]);
   (506, [507]); (508, [509]); (510, [511]); (512, [513]); (514, [515]); (516, [517]);
   (518, [519]); (520, [521]); (522, [523]); (524, [525]); (526, [527]); (528, [529]);
   (530, [531]); (532, [533]); (534, [535]); (536, [537]); (538, [539]); (540, [541]);
   (542, [543]); (544, [414]); (546, [547]); (548, [549]); (550, [551]); (552, [553]);
   (554, [555]); (556, [557]); (558, [559]); (560, [561]); (562, [563]); (570, [11365]);
   (571, [572]); (573, [410]); (574, [11366]); (577, [578]); (579, [384]); (580, [649]);
   (581, [652]); (582, [583]); (584, [585]); (586, [587]); (588, [589]); (590, [591]);
   (880, [881]); (882, [883]); (886, [887]); (895, [1011]); (902, [940]); (904, [941]);
   (905, [942]); (906, [943]); (908, [972]); (910, [973]); (911, [974]); (913, [945]);
   (914, [946]); (915, [947]); (916, [948]); (917, [949]); (918, [950]); (919, [951]);
   (920, [952]); (921, [953]); (922, [954]); (923, [955]); (924, [956]); (925, [957]);
   (926, [958]); (927, [959]); (928, [960]); (929, [961]); (931, [963]); (932, [964]);
   (933, [965]); (934, [966]); (935, [967]); (936, [968]); (937, [969]); (938, [970]);
   (939, [971]); (975, [983]); (984, [985]); (986, [987]); (988, [989]); (990, [991]);
   (992, [993]); (994, [995]); (996, [997]); (998, [999]); (1000, [1001]); (1002, [1003]);
   (1004, [1005]); (1006, [1007]); (1012, [952]); (1015, [1016]); (1017, [1010]);
   (1018, [1019]); (1021, [891]); (1022, [892]); (1023, [893]); (1024, [1104]); (1025, [1105]);
   (1026, [1106]); (1027, [1107]); (1028, [1108]); (1029, [1109]); (1030, [1110]);
   (1031, [1111]); (1032, [1112]); (1033, [1113]); (1034, [1114]); (1035, [1115]);
   (1036, [1116]); (1037, [1117]); (1038, [1118]); (1039, [1119]); (1040, [1072]);
   (1041, [1073]); (1042, [1074]); (1043, [1075]); (1044, [1076]); (1045, [1077]);
   (1046, [1078]); (1047, [1079]); (1048, [1080]); (1049, [1081]); (1050, [1082]);
   (1051, [1083]); (1052, [1084]); (1053, [1085]); (1054, [1086]); (1055, [1087]);
   (1056, [1088]); (1057, [1089]); (1058, [1090]); (1059, [1091]); (1060, [1092]);
   (1061, [1093]); (1062, [1094]); (1063, [1095]); (1064, [1096]); (1065, [1097]);
   (1066, [1098]); (1067, [1099]); (1068, [1100]); (1069, [1101]); (1070, [1102]);
   (1071, [1103]); (1120, [1121]); (1122, [1123]); (1124, [1125]); (1126, [1127]);
   (1128, [1129]); (1130, [1131]); (1132, [1133]); (1134, [1135]); (1136, [1137]);
   (1138, [1139]); (1140, [1141]); (1142, [1143]); (1144, [1145]); (1146, [1147]);
   (1148, [1149]); (1150, [1151]); (1152, [1153]); (1162, [1163]); (1164, [1165]);
   (1166, [1167]); (1168, [1169]); (1170, [1171]); (1172, [1173]); (1174, [1175]);
   (1176, [1177]); (1178, [1179]); (1180, [1181]); (1182, [1183]); (1184, [1185]);
   (1186, [1187]); (1188, [1189]); (1190, [1191]); (1192, [1193]); (1194, [1195]);
   (1196, [1197]); (1198, [1199]); (1200, [1201]); (1202, [1203]); (1204, [1205]);
   (1206, [1207]); (1208, [1209]); (1210, [1211]); (1212, [1213]); (1214, [1215]);
   (1216, [1231]); (1217, [1218]); (1219, [1220]); (1221, [1222]); (1223, [1224]);
   (1225, [1226]); (1227, [1228]); (1229, [1230]); (1232, [1233]); (1234, [1235]);
   (1236, [1237]); (1238, [1239]); (1240, [1241]); (1242, [1243]); (1244, [1245]);
   (1246, [1247]); (1248, [1249]); (1250, [1251]); (1252, [1253]); (1254, [1255]);
   (1256, [1257]); (1258, [1259]); (1260, [1261]); (1262, [1263]); (1264, [1265]);
   (1266, [1267]); (1268, [1269]); (1270, [1271]); (1272, [1273]); (1274, [1275]);
   (1276, [1277]); (1278, [1279]); (1280, [1281]); (1282, [1283]); (1284, [1285]);
   (1286, [1287]); (1288, [1289]); (1290, [1291]); (1292, [1293]); (1294, [1295]);
   (1296, [1297]); (1298, [1299]); (1300, [1301]); (1302, [1303]); (1304, [1305]);
   (1306, [1307]); (1308, [1309]); (1310, [1311]); (1312, [1313]); (1314, [1315]);
   (1316, [1317]); (1318, [1319]); (1320, [1321]); (1322, [1323]); (1324, [1325]);
   (1326, [1327]); (1329, [1377]); (1330, [1378]); (1331, [1379]); (1332, [1380]);
   (1333, [1381]); (1334, [1382]); (1335, [1383]); (1336, [1384]); (1337, [1385]);
   (1338, [1386]); (1339, [1387]); (1340, [1388]); (1341, [1389]); (1342, [1390]);
   (1343, [1391]); (1344, [1392]); (1345, [1393]); (1346, [1394]); (1347, [1395]);
   (1348, [1396]); (1349, [1397]); (1350, [1398]); (1351, [1399]); (1352, [1400]);
   (1353, [1401]); (1354, [1402]); (1355, [1403]); (1356, [1404]); (1357, [1405]);
   (1358, [1406]); (1359, [1407]); (1360, [1408]); (1361, [1409]); (1362, [1410]);
   (1363, [1411]); (1364, [1412]); (1365, [1413]); (1366, [1414]); (4256, [11520]);
   (4257, [11521]); (4258, [11522]); (4259, [11523]); (4260, [11524]); (4261, [11525]);
   (4262, [11526]); (4263, [11527]); (4264, [11528]); (4265, [11529]); (4266, [11530]);
   (4267, [11531]); (4268, [11532]); (4269, [11533]); (4270, [11534]); (4271, [11535]);
   (4272, [11536]); (4273, [11537]); (4274, [11538]); (4275, [11539]); (4276, [11540]);
   (4277, [11541]); (4278, [11542]); (4279, [11543]); (4280, [11544]); (4281, [11545]);
   (4282, [11546]); (4283, [11547]); (4284, [11548]); (4285, [11549]); (4286, [11550]);
   (4287, [11551]); (4288, [11552]); (4289, [11553]); (4290, [11554]); (4291, [11555]);
   (4292, [11556]); (4293, [11557]); (4295, [11559]); (4301, [11565]); (5024, [43888]);
   (5025, [43889]); (5026, [43890]); (5027, [43891]); (5028, [43892]); (5029, [43893]);
   (5030, [43894]); (5031, [43895]); (5032, [43896]); (5033, [43897]); (5034, [43898]);
   (5035, [43899]); (5036, [43900]); (5037, [43901]); (5038, [43902]); (5039, [43903]);
   (5040, [43904]); (5041, [43905]); (5042, [43906]); (5043, [43907]); (5044, [43908]);
   (5045, [43909]); (5046, [43910]); (5047, [43911]); (5048, [43912]); (5049, [43913]);
   (5050, [43914]); (5051, [43915]); (5052, [43916]); (5053, [43917]); (5054, [43918]);
   (5055, [43919]); (5056, [43920]); (5057, [43921]); (5058, [43922]); (5059, [43923]);
   (5060, [43924]); (5061, [43925]); (5062, [43926]); (5063, [43927]); (5064, [43928]);
   (5065, [43929]); (5066, [43930]); (5067, [43931]); (5068, [43932]); (5069, [43933]);
   (5070, [43934]); (5071, [43935]); (5072, [43936]); (5073, [43937]); (5074, [43938]);
   (5075, [43939]); (5076, [43940]); (5077, [43941]); (5078, [43942]); (5079, [43943]);
   (5080, [43944]); (5081, [43945]); (5082, [43946]); (5083, [43947]); (5084, [43948]);
   (5085, [43949]); (5086, [43950]); (5087, [43951]); (5088, [43952]); (5089, [43953]);
   (5090, [43954]); (5091, [43955]); (5092, [43956]); (5093, [43957]); (5094, [43958]);
   (5095, [43959]); (5096, [43960]); (5097, [43961]); (5098, [43962]); (5099, [43963]);
   (5100, [43964]); (5101, [43965]); (5102, [43966]); (5103, [43967]); (5104, [5112]);
   (5105, [5113]); (5106, [5114]); (5107, [5115]); (5108, [5116]); (5109, [5117]);
   (7312, [4304]); (7313, [4305]); (7314, [4306]); (7315, [4307]); (7316, [4308]);
   (7317, [4309]); (7318, [4310]); (7319, [4311]); (7320, [4312]); (7321, [4313]);
   (7322, [4314]); (7323, [4315]); (7324, [4316]); (7325, [4317]); (7326, [4318]);
   (7327, [4319]); (7328, [4320]); (7329, [4321]); (7330, [4322]); (7331, [4323]);
   (7332, [4324]); (7333, [4325]); (7334, [4326]); (7335, [4327]); (7336, [4328]);
   (7337, [4329]); (7338, [4330]); (7339, [4331]); (7340, [4332]); (7341, [4333]);
   (7342, [4334]); (7343, [4335]); (7344, [4336]); (7345, [4337]); (7346, [4338]);
   (7347, [4339]); (7348, [4340]); (7349, [4341]); (7350, [4342]); (7351, [4343]);
   (7352, [4344]); (7353, [4345]); (7354, [4346]); (7357, [4349]); (7358, [4350]);
   (7359, [4351]); (7680, [7681]); (7682, [7683]); (7684, [7685]); (7686, [7687]);
   (7688, [7689]); (7690, [7691]); (7692, [7693]); (7694, [7695]); (7696, [7697]);
   (7698, [7699]); (7700, [7701]); (7702, [7703]); (7704, [7705]); (7706, [7707]);
   (7708, [7709]); (7710, [7711]); (7712, [7713]); (7714, [7715]); (7716, [7717]);
   (7718, [7719]); (7720, [7721]); (7722, [7723]); (7724, [7725]); (7726, [7727]);
   (7728, [7729]); (7730, [7731]); (7732, [7733]); (7734, [7735]); (7736, [7737]);
   (7738, [7739]); (7740, [7741]); (7742, [7743]); (7744, [7745]); (7746, [7747]);
   (7748, [7749]); (7750, [7751]); (7752, [7753]); (7754, [7755]); (7756, [7757]);
   (7758, [7759]); (7760, [7761]); (7762, [7763]); (7764, [7765]); (7766, [7767]);
   (7768, [7769]); (7770, [7771]); (7772, [7773]); (7774, [7775]); (7776, [7777]);
   (7778, [7779]); (7780, [7781]); (7782, [7783]); (7784, [7785]); (7786, [7787]);
   (7788, [7789]); (7790, [7791]); (7792, [7793]); (7794, [7795]); (7796, [7797]);
   (7798, [7799]); (7800, [7801]); (7802, [7803]); (7804, [7805]); (7806, [7807]);
   (7808, [7809]); (7810, [7811]); (7812, [7813]); (7814, [7815]); (7816, [7817]);
   (7818, [7819]); (7820, [7821]); (7822, [7823]); (7824, [7825]); (7826, [7827]);
   (7828, [7829]); (7838, [223]); (7840, [7841]); (7842, [7843]); (7844, [7845]);
   (7846, [7847]); (7848, [7849]); (7850, [7851]); (7852, [7853]); (7854, [7855]);
   (7856, [7857]); (7858, [7859]); (7860, [7861]); (7862, [7863]); (7864, [7865]);
   (7866, [7867]); (7868, [7869]); (7870, [7871]); (7872, [7873]); (7874, [7875]);
   (7876, [7877]); (7878, [7879]); (7880, [7881]); (7882, [7883]); (7884, [7885]);
   (7886, [7887]); (7888, [7889]); (7890, [7891]); (7892, [7893]); (7894, [7895]);
   (7896, [7897]); (7898, [7899]); (7900, [7901]); (7902, [7903]); (7904, [7905]);
   (7906, [7907]); (7908, [7909]); (7910, [7911]); (7912, [7913]); (7914, [7915]);
   (7916, [7917]); (7918, [7919]); (7920, [7921]); (7922, [7923]); (7924, [7925]);
   (7926, [7927]); (7928, [7929]); (7930, [7931]); (7932, [7933]); (7934, [7935]);
   (7944, [7936]); (7945, [7937]); (7946, [7938]); (7947, [7939]); (7948, [7940]);
   (7949, [7941]); (7950, [7942]); (7951, [7943]); (7960, [7952]); (7961, [7953]);
   (7962, [7954]); (7963, [7955]); (7964, [7956]); (7965, [7957]); (7976, [7968]);
   (7977, [7969]); (7978, [7970]); (7979, [7971]); (7980, [7972]); (7981, [7973]);
   (7982, [7974]); (7983, [7975]); (7992, [7984]); (7993, [7985]); (7994, [7986]);
   (7995, [7987]); (7996, [7988]); (7997, [7989]); (7998, [7990]); (7999, [7991]);
   (8008, [8000]); (8009, [8001]); (8010, [8002]); (8011, [8003]); (8012, [8004]);
   (8013, [8005]); (8025, [8017]); (8027, [8019]); (8029, [8021]); (8031, [8023]);
   (8040, [8032]); (8041, [8033]); (8042, [8034]); (8043, [8035]); (8044, [8036]);
   (8045, [8037]); (8046, [8038]); (8047, [8039]); (8072, [8064]); (8073, [8065]);
   (8074, [8066]); (8075, [8067]); (8076, [8068]); (8077, [8069]); (8078, [8070]);
   (8079, [8071]); (8088, [8080]); (8089, [8081]); (8090, [8082]); (8091, [8083]);
   (8092, [8084]); (8093, [8085]); (8094, [8086]); (8095, [8087]); (8104, [8096]);
   (8105, [8097]); (8106, [8098]); (8107, [8099]); (8108, [8100]); (8109, [8101]);
   (8110, [8102]); (8111, [8103]); (8120, [8112]); (8121, [8113]); (8122, [8048]);
   (8123, [8049]); (8124, [8115]); (8136, [8050]); (8137, [8051]); (8138, [8052]);
   (8139, [8053]); (8140, [8131]); (8152, [8144]); (8153, [8145]); (8154, [8054]);
   (8155, [8055]); (8168, [8160]); (8169, [8161]); (8170, [8058]); (8171, [8059]);
   (8172, [8165]); (8184, [8056]); (8185, [8057]); (8186, [8060]); (8187, [8061]);
   (8188, [8179]); (8486, [969]); (8490, [107]); (8491, [229]); (8498, [8526]); (8544, [8560]);
   (8545, [8561]); (8546, [8562]); (8547, [8563]); (8548, [8564]); (8549, [8565]);
   (8550, [8566]); (8551, [8567]); (8552, [8568]); (8553, [8569]); (8554, [8570]);
   (8555, [8571]); (8556, [8572]); (8557, [8573]); (8558, [8574]); (8559, [8575]);
   (8579, [8580]); (9398, [9424]); (9399, [9425]); (9400, [9426]); (9401, [9427]);
   (9402, [9428]); (9403, [9429]); (9404, [9430]); (9405, [9431]); (9406, [9432]);
   (9407, [9433]); (9408, [9434]); (9409, [9435]); (9410, [9436]); (9411, [9437]);
   (9412, [9438]); (9413, [9439]); (9414, [9440]); (9415, [9441]); (9416, [9442]);
   (9417, [9443]); (9418, [9444]); (9419, [9445]); (9420, [9446]); (9421, [9447]);
   (9422, [9448]); (9423, [9449]); (11264, [11312]); (11265, [11313]); (11266, [11314]);
   (11267, [11315]); (11268, [11316]); (11269, [11317]); (11270, [11318]); (11271, [11319]);
   (11272, [11320]); (11273, [11321]); (11274, [11322]); (11275, [11323]); (11276, [11324]);
   (11277, [11325]); (11278, [11326]); (11279, [11327]); (11280, [11328]); (11281, [11329]);
   (11282, [11330]); (11283, [11331]); (11284, [11332]); (11285, [11333]); (11286, [11334]);
   (11287, [11335]); (11288, [11336]); (11289, [11337]); (11290, [11338]); (11291, [11339]);
   (11292, [11340]); (11293, [11341]); (11294, [11342]); (11295, [11343]); (11296, [11344]);
   (11297, [11345]); (11298, [11346]); (11299, [11347]); (11300, [11348]); (11301, [11349]);
   (11302, [11350]); (11303, [11351]); (11304, [11352]); (11305, [11353]); (11306, [11354]);
   (11307, [11355]); (11308, [11356]); (11309, [11357]); (11310, [11358]); (11311, [11359]);
   (11360, [11361]); (11362, [619]); (11363, [7549]); (11364, [637]); (11367, [11368]);
   (11369, [11370]); (11371, [11372]); (11373, [593]); (11374, [625]); (11375, [592]);
   (11376, [594]); (11378, [11379]); (11381, [11382]); (11390, [575]); (11391, [576]);
   (11392, [11393]); (11394, [11395]); (11396, [11397]); (11398, [11399]); (11400, [11401]);
   (11402, [11403]); (11404, [11405]); (11406, [11407]); (11408, [11409]); (11410, [11411]);
   (11412, [11413]); (11414, [11415]); (11416, [11417]); (11418, [11419]); (11420, [11421]);
   (11422, [11423]); (11424, [11425]); (11426, [11427]); (11428, [11429]); (11430, [11431]);
   (11432, [11433]); (11434, [11435]); (11436, [11437]); (11438, [11439]); (11440, [11441]);
   (11442, [11443]); (11444, [11445]); (11446, [11447]); (11448, [11449]); (11450, [11451]);
   (11452, [11453]); (11454, [11455]); (11456, [11457]); (11458, [11459]); (11460, [11461]);
   (11462, [11463]); (11464, [11465]); (11466, [11467]); (11468, [11469]); (11470, [11471]);
   (11472, [11473]); (11474, [11475]); (11476, [11477]); (11478, [11479]); (11480, [11481]);
   (11482, [11483]); (11484, [11485]); (11486, [11487]); (11488, [11489]); (11490, [11491]);
   (11499, [11500]); (11501, [11502]); (11506, [11507]); (42560, [42561]); (42562, [42563]);
   (42564, [42565]); (42566, [42567]); (42568, [42569]); (42570, [42571]); (42572, [42573]);
   (42574, [42575]); (42576, [42577]); (42578, [42579]); (42580, [42581]); (42582, [42583]);
   (42584, [42585]); (42586, [42587]); (42588, [42589]); (42590, [42591]); (42592, [42593]);
   (42594, [42595]); (42596, [42597]); (42598, [42599]); (42600, [42601]); (42602, [42603]);
   (42604, [42605]); (42624, [42625]); (42626, [42627]); (42628, [42629]); (42630, [42631]);
   (42632, [42633]); (42634, [42635]); (42636, [42637]); (42638, [42639]); (42640, [42641]);
   (42642, [42643]); (42644, [42645]); (42646, [42647]); (42648, [42649]); (42650, [42651]);
   (42786, [42787]); (42788, [42789]); (42790, [42791]); (42792, [42793]); (42794, [42795]);
   (42796, [42797]); (42798, [42799]); (42802, [42803]); (42804, [42805]); (42806, [42807]);
   (42808, [42809]); (42810, [42811]); (42812, [42813]); (42814, [42815]); (42816, [42817]);
   (42818, [42819]); (42820, [42821]); (42822, [42823]); (42824, [42825]); (42826, [42827]);
   (42828, [42829]); (42830, [42831]); (42832, [42833]); (42834, [42835]); (42836, [42837]);
   (42838, [42839]); (42840, [42841]); (42842, [42843]); (42844, [42845]); (42846, [42847]);
   (42848, [42849]); (42850, [42851]); (42852, [42853]); (42854, [42855]); (42856, [42857]);
   (42858, [42859]); (42860, [42861]); (42862, [42863]); (42873, [42874]); (42875, [42876]);
   (42877, [7545]); (42878, [42879]); (42880, [42881]); (42882, [42883]); (42884, [42885]);
   (42886, [42887]); (42891, [42892]); (42893, [613]); (42896, [42897]); (42898, [42899]);
   (42902, [42903]); (42904, [42905]); (42906, [42907]); (42908, [42909]); (42910, [42911]);
   (42912, [42913]); (42914, [42915]); (42916, [42917]); (42918, [42919]); (42920, [42921]);
   (42922, [614]); (42923, [604]); (42924, [609]); (42925, [620]); (42926, [618]);
   (42928, [670]); (42929, [647]); (42930, [669]); (42931, [43859]); (42932, [42933]);
   (42934, [42935]); (42936, [42937]); (42938, [42939]); (42940, [42941]); (42942, [42943]);
   (42944, [42945]); (42946, [42947]); (42948, [42900]); (42949, [642]); (42950, [7566]);
   (42951, [42952]); (42953, [42954]); (42960, [42961]); (42966, [42967]); (42968, [42969]);
   (42997, [42998]); (65313, [65345]); (65314, [65346]); (65315, [65347]); (65316, [65348]);
   (65317, [65349]); (65318, [65350]); (65319, [65351]); (65320, [65352]); (65321, [65353]);
   (65322, [65354]); (65323, [65355]); (65324, [65356]); (65325, [65357]); (65326, [65358]);
   (65327, [65359]); (65328, [65360]); (65329, [65361]); (65330, [65362]); (65331, [65363]);
   (65332, [65364]); (65333, [65365]); (65334, [65366]); (65335, [65367]); (65336, [65368]);
   (65337, [65369]); (65338, [65370]); (66560, [66600]); (66561, [66601]); (66562, [66602]);
   (66563, [66603]); (66564, [66604]); (66565, [66605]); (66566, [66606]); (66567, [66607]);
   (66568, [66608]); (66569, [66609]); (66570, [66610]); (66571, [66611]); (66572, [66612]);
   (66573, [66613]); (66574, [66614]); (66575, [66615]); (66576, [66616]); (66577, [66617]);
   (66578, [66618]); (66579, [66619]); (66580, [66620]); (66581, [66621]); (66582, [66622]);
   (66583, [66623]); (66584, [66624]); (66585, [66625]); (66586, [66626]); (66587, [66627]);
   (66588, [66628]); (66589, [66629]); (66590, [66630]); (66591, [66631]); (66592, [66632]);
   (66593, [66633]); (66594, [66634]); (66595, [66635]); (66596, [66636]); (66597, [66637]);
   (66598, [66638]); (66599, [66639]); (66736, [66776]); (66737, [66777]); (66738, [66778]);
   (66739, [66779]); (66740, [66780]); (66741, [66781]); (66742, [66782]); (66743, [66783]);
   (66744, [66784]); (66745, [66785]); (66746, [66786]); (66747, [66787]); (66748, [66788]);
   (66749, [66789]); (66750, [66790]); (66751, [66791]); (66752, [66792]); (66753, [66793]);
   (66754, [66794]); (66755, [66795]); (66756, [66796]); (66757, [66797]); (66758, [66798]);
   (66759, [66799]); (66760, [66800]); (66761, [66801]); (66762, [66802]); (66763, [66803]);
   (66764, [66804]); (66765, [66805]); (66766, [66806]); (66767, [66807]); (66768, [66808]);
   (66769, [66809]); (66770, [66810]); (66771, [66811]); (66928, [66967]); (66929, [66968]);
   (66930, [66969]); (66931, [66970]); (66932, [66971]); (66933, [66972]); (66934, [66973]);
   (66935, [66974]); (66936, [66975]); (66937, [66976]); (66938, [66977]); (66940, [66979]);
   (66941, [66980]); (66942, [66981]); (66943, [66982]); (66944, [66983]); (66945, [66984]);
   (66946, [66985]); (66947, [66986]); (66948, [66987]); (66949, [66988]); (66950, [66989]);
   (66951, [66990]); (66952, [66991]); (66953, [66992]); (66954, [66993]); (66956, [66995]);
   (66957, [66996]); (66958, [66997]); (66959, [66998]); (66960, [66999]); (66961, [67000]);
   (66962, [67001]); (66964, [67003]); (66965, [67004]); (68736, [68800]); (68737, [68801]);
   (68738, [68802]); (68739, [68803]); (68740, [68804]); (68741, [68805]); (68742, [68806]);
   (68743, [68807]); (68744, [68808]); (68745, [68809]); (68746, [68810]); (68747, [68811]);
   (68748, [68812]); (68749, [68813]); (68750, [68814]); (68751, [68815]); (68752, [68816]);
   (68753, [68817]); (68754, [68818]); (68755, [68819]); (68756, [68820]); (68757, [68821]);
   (68758, [68822]); (68759, [68823]); (68760, [68824]); (68761, [68825]); (68762, [68826]);
   (68763, [68827]); (68764, [68828]); (68765, [68829]); (68766, [68830]); (68767, [68831]);
   (68768, [68832]); (68769, [68833]); (68770, [68834]); (68771, [68835]); (68772, [68836]);
   (68773, [68837]); (68774, [68838]); (68775, [68839]); (68776, [68840]); (68777, [68841]);
   (68778, [68842]); (68779, [68843]); (68780, [68844]); (68781, [68845]); (68782, [68846]);
   (68783, [68847]); (68784, [68848]); (68785, [68849]); (68786, [68850]); (71840, [71872]);
   (71841, [71873]); (71842, [71874]); (71843, [71875]); (71844, [71876]); (71845, [71877]);
   (71846, [71878]); (71847, [71879]); (71848, [71880]); (71849, [71881]); (71850, [71882]);
   (71851, [71883]); (71852, [71884]); (71853, [71885]); (71854, [71886]); (71855, [71887]);
   (71856, [71888]); (71857, [71889]); (71858, [71890]); (71859, [71891]); (71860, [71892]);
   (71861, [71893]); (71862, [71894]); (71863, [71895]); (71864, [71896]); (71865, [71897]);
   (71866, [71898]); (71867, [71899]); (71868, [71900]); (71869, [71901]); (71870, [71902]);
   (71871, [71903]); (93760, [93792]); (93761, [93793]); (93762, [93794]); (93763, [93795]);
   (93764, [93796]); (93765, [93797]); (93766, [93798]); (93767, [93799]); (93768, [93800]);
   (93769, [93801]); (93770, [93802]); (93771, [93803]); (93772, [93804]); (93773, [93805]);
   (93774, [93806]); (93775, [93807]); (93776, [93808]); (93777, [93809]); (93778, [93810]);
   (93779, [93811]); (93780, [93812]); (93781, [93813]); (93782, [93814]); (93783, [93815]);
   (93784, [93816]); (93785, [93817]); (93786, [93818]); (93787, [93819]); (93788, [93820]);
   (93789, [93821]); (93790, [93822]); (93791, [93823]); (125184, [125218]);
   (125185, [125219]); (125186, [125220]); (125187, [125221]); (125188, [125222]);
   (125189, [125223]); (125190, [125224]); (125191, [125225]); (125192, [125226]);
   (125193, [125227]); (125194, [125228]); (125195, [125229]); (125196, [125230]);
   (125197, [125231]); (125198, [125232]); (125199, [125233]); (125200, [125234]);
   (125201, [125235]); (125202, [125236]); (125203, [125237]); (125204, [125238]);
   (125205, [125239]); (125206, [125240]); (125207, [125241]); (125208, [125242]);
   (125209, [125243]); (125210, [125244]); (125211, [125245]); (125212, [125246]);
   (125213, [125247]); (125214, [125248]); (125215, [125249]); (125216, [125250]);
   (125217, [125251])].

(** The code points with the property Cased, as inclusive ranges. *)
Definition cased_ranges : list (Z * Z) :=
  [(65, 90); (97, 122); (170, 170); (181, 181); (186, 186); (192, 214); (216, 246); (248, 442);
   (444, 447); (452, 659); (661, 696); (704, 705); (736, 740); (837, 837); (880, 883);
   (886, 887); (890, 893); (895, 895); (902, 902); (904, 906); (908, 908); (910, 929);
   (931, 1013); (1015, 1153); (1162, 1327); (1329, 1366); (1376, 1416); (4256, 4293);
   (4295, 4295); (4301, 4301); (4304, 4346); (4349, 4351); (5024, 5109); (5112, 5117);
   (7296, 7304); (7312, 7354); (7357, 7359); (7424, 7615); (7680, 7957); (7960, 7965);
   (7968, 8005); (8008, 8013); (8016, 8023); (8025, 8025); (8027, 8027); (8029, 8029);
   (8031, 8061); (8064, 8116); (8118, 8124); (8126, 8126); (8130, 8132); (8134, 8140);
   (8144, 8147); (8150, 8155); (8160, 8172); (8178, 8180); (8182, 8188); (8305, 8305);
   (8319, 8319); (8336, 8348); (8450, 8450); (8455, 8455); (8458, 8467); (8469, 8469);
   (8473, 8477); (8484, 8484); (8486, 8486); (8488, 8488); (8490, 8493); (8495, 8500);
   (8505, 8505); (8508, 8511); (8517, 8521); (8526, 8526); (8544, 8575); (8579, 8580);
   (9398, 9449); (11264, 11492); (11499, 11502); (11506, 11507); (11520, 11557);
   (11559, 11559); (11565, 11565); (42560, 42605); (42624, 42653); (42786, 42887);
   (42891, 42894); (42896, 42954); (42960, 42961); (42963, 42963); (42965, 42969);
   (42997, 42998); (43000, 43002); (43824, 43866); (43868, 43880); (43888, 43967);
   (64256, 64262); (64275, 64279); (65313, 65338); (65345, 65370); (66560, 66639);
   (66736, 66771); (66776, 66811); (66928, 66938); (66940, 66954); (66956, 66962);
   (66964, 66965); (66967, 66977); (66979, 66993); (66995, 67001); (67003, 67004);
   (67456, 67456); (67459, 67461); (67463, 67504); (67506, 67514); (68736, 68786);
   (68800, 68850); (71840, 71903); (93760, 93823); (119808, 119892); (119894, 119964);
   (119966, 119967); (119970, 119970); (119973, 119974); (119977, 119980); (119982, 119993);
   (119995, 119995); (119997, 120003); (120005, 120069); (120071, 120074); (120077, 120084);
   (120086, 120092); (120094, 120121); (120123, 120126); (120128, 120132); (120134, 120134);
   (120138, 120144); (120146, 120485); (120488, 120512); (120514, 120538); (120540, 120570);
   (120572, 120596); (120598, 120628); (120630, 120654); (120656, 120686); (120688, 120712);
   (120714, 120744); (120746, 120770); (120772, 120779); (122624, 122633); (122635, 122654);
   (125184, 125251); (127280, 127305); (127312, 127337); (127344, 127369)].

(** The code points with the property Case_Ignorable, as inclusive ranges. *)
Definition case_ignorable_ranges : list (Z * Z) :=
  [(39, 39); (46, 46); (58, 58); (94, 94); (96, 96); (168, 168); (173, 173); (175, 175);
   (180, 180); (183, 184); (688, 879); (884, 885); (890, 890); (900, 901); (903, 903);
   (1155, 1161); (1369, 1369); (1375, 1375); (1425, 1469); (1471, 1471); (1473, 1474);
   (1476, 1477); (1479, 1479); (1524, 1524); (1536, 1541); (1552, 1562); (1564, 1564);
   (1600, 1600); (1611, 1631); (1648, 1648); (1750, 1757); (1759, 1768); (1770, 1773);
   (1807, 1807); (1809, 1809); (1840, 1866); (1958, 1968); (2027, 2037); (2042, 2042);
   (2045, 2045); (2070, 2093); (2137, 2139); (2184, 2184); (2192, 2193); (2200, 2207);
   (2249, 2306); (2362, 2362); (2364, 2364); (2369, 2376); (2381, 2381); (2385, 2391);
   (2402, 2403); (2417, 2417); (2433, 2433); (2492, 2492); (2497, 2500); (2509, 2509);
   (2530, 2531); (2558, 2558); (2561, 2562); (2620, 2620); (2625, 2626); (2631, 2632);
   (2635, 2637); (2641, 2641); (2672, 2673); (2677, 2677); (2689, 2690); (2748, 2748);
   (2753, 2757); (2759, 2760); (2765, 2765); (2786, 2787); (2810, 2815); (2817, 2817);
   (2876, 2876); (2879, 2879); (2881, 2884); (2893, 2893); (2901, 2902); (2914, 2915);
   (2946, 2946); (3008, 3008); (3021, 3021); (3072, 3072); (3076, 3076); (3132, 3132);
   (3134, 3136); (3142, 3144); (3146, 3149); (3157, 3158); (3170, 3171); (3201, 3201);
   (3260, 3260); (3263, 3263); (3270, 3270); (3276, 3277); (3298, 3299); (3328, 3329);
   (3387, 3388); (3393, 3396); (3405, 3405); (3426, 3427); (3457, 3457); (3530, 3530);
   (3538, 3540); (3542, 3542); (3633, 3633); (3636, 3642); (3654, 3662); (3761, 3761);
   (3764, 3772); (3782, 3782); (3784, 3789); (3864, 3865); (3893, 3893); (3895, 3895);
   (3897, 3897); (3953, 3966); (3968, 3972); (3974, 3975); (3981, 3991); (3993, 4028);
   (4038, 4038); (4141, 4144); (4146, 4151); (4153, 4154); (4157, 4158); (4184, 4185);
   (4190, 4192); (4209, 4212); (4226, 4226); (4229, 4230); (4237, 4237); (4253, 4253);
   (4348, 4348); (4957, 4959); (5906, 5908); (5938, 5939); (5970, 5971); (6002, 6003);
   (6068, 6069); (6071, 6077); (6086, 6086); (6089, 6099); (6103, 6103); (6109, 6109);
   (6155, 6159); (6211, 6211); (6277, 6278); (6313, 6313); (6432, 6434); (6439, 6440);
   (6450, 6450); (6457, 6459); (6679, 6680); (6683, 6683); (6742, 6742); (6744, 6750);
   (6752, 6752); (6754, 6754); (6757, 6764); (6771, 6780); (6783, 6783); (6823, 6823);
   (6832, 6862); (6912, 6915); (6964, 6964); (6966, 6970); (6972, 6972); (6978, 6978);
   (7019, 7027); (7040, 7041); (7074, 7077); (7080, 7081); (7083, 7085); (7142, 7142);
   (7144, 7145); (7149, 7149); (7151, 7153); (7212, 7219); (7222, 7223); (7288, 7293);
   (7376, 7378); (7380, 7392); (7394, 7400); (7405, 7405); (7412, 7412); (7416, 7417);
   (7468, 7530); (7544, 7544); (7579, 7679); (8125, 8125); (8127, 8129); (8141, 8143);
   (8157, 8159); (8173, 8175); (8189, 8190); (8203, 8207); (8216, 8217); (8228, 8228);
   (8231, 8231); (8234, 8238); (8288, 8292); (8294, 8303); (8305, 8305); (8319, 8319);
   (8336, 8348); (8400, 8432); (11388, 11389); (11503, 11505); (11631, 11631); (11647, 11647);
   (11744, 11775); (11823, 11823); (12293, 12293); (12330, 12333); (12337, 12341);
   (12347, 12347); (12441, 12446); (12540, 12542); (40981, 40981); (42232, 42237);
   (42508, 42508); (42607, 42610); (42612, 42621); (42623, 42623); (42652, 42655);
   (42736, 42737); (42752, 42785); (42864, 42864); (42888, 42890); (42994, 42996);
   (43000, 43001); (43010, 43010); (43014, 43014); (43019, 43019); (43045, 43046);
   (43052, 43052); (43204, 43205); (43232, 43249); (43263, 43263); (43302, 43309);
   (43335, 43345); (43392, 43394); (43443, 43443); (43446, 43449); (43452, 43453);
   (43471, 43471); (43493, 43494); (43561, 43566); (43569, 43570); (43573, 43574);
   (43587, 43587); (43596, 43596); (43632, 43632); (43644, 43644); (43696, 43696);
   (43698, 43700); (43703, 43704); (43710, 43711); (43713, 43713); (43741, 43741);
   (43756, 43757); (43763, 43764); (43766, 43766); (43867, 43871); (43881, 43883);
   (44005, 44005); (44008, 44008); (44013, 44013); (64286, 64286); (64434, 64450);
   (65024, 65039); (65043, 65043); (65056, 65071); (65106, 65106); (65109, 65109);
   (65279, 65279); (65287, 65287); (65294, 65294); (65306, 65306); (65342, 65342);
   (65344, 65344); (65392, 65392); (65438, 65439); (65507, 65507); (65529, 65531);
   (66045, 66045); (66272, 66272); (66422, 66426); (67456, 67461); (67463, 67504);
   (67506, 67514); (68097, 68099); (68101, 68102); (68108, 68111); (68152, 68154);
   (68159, 68159); (68325, 68326); (68900, 68903); (69291, 69292); (69446, 69456);
   (69506, 69509); (69633, 69633); (69688, 69702); (69744, 69744); (69747, 69748);
   (69759, 69761); (69811, 69814); (69817, 69818); (69821, 69821); (69826, 69826);
   (69837, 69837); (69888, 69890); (69927, 69931); (69933, 69940); (70003, 70003);
   (70016, 70017); (70070, 70078); (70089, 70092); (70095, 70095); (70191, 70193);
   (70196, 70196); (70198, 70199); (70206, 70206); (70367, 70367); (70371, 70378);
   (70400, 70401); (70459, 70460); (70464, 70464); (70502, 70508); (70512, 70516);
   (70712, 70719); (70722, 70724); (70726, 70726); (70750, 70750); (70835, 70840);
   (70842, 70842); (70847, 70848); (70850, 70851); (71090, 71093); (71100, 71101);
   (71103, 71104); (71132, 71133); (71219, 71226); (71229, 71229); (71231, 71232);
   (71339, 71339); (71341, 71341); (71344, 71349); (71351, 71351); (71453, 71455);
   (71458, 71461); (71463, 71467); (71727, 71735); (71737, 71738); (71995, 71996);
   (71998, 71998); (72003, 72003); (72148, 72151); (72154, 72155); (72160, 72160);
   (72193, 72202); (72243, 72248); (72251, 72254); (72263, 72263); (72273, 72278);
   (72281, 72283); (72330, 72342); (72344, 72345); (72752, 72758); (72760, 72765);
   (72767, 72767); (72850, 72871); (72874, 72880); (72882, 72883); (72885, 72886);
   (73009, 73014); (73018, 73018); (73020, 73021); (73023, 73029); (73031, 73031);
   (73104, 73105); (73109, 73109); (73111, 73111); (73459, 73460); (78896, 78904);
   (92912, 92916); (92976, 92982); (92992, 92995); (94031, 94031); (94095, 94111);
   (94176, 94177); (94179, 94180); (110576, 110579); (110581, 110587); (110589, 110590);
   (113821, 113822); (113824, 113827); (118528, 118573); (118576, 118598); (119143, 119145);
   (119155, 119170); (119173, 119179); (119210, 119213); (119362, 119364); (121344, 121398);
   (121403, 121452); (121461, 121461); (121476, 121476); (121499, 121503); (121505, 121519);
   (122880, 122886); (122888, 122904); (122907, 122913); (122915, 122916); (122918, 122922);
   (123184, 123197); (123566, 123566); (123628, 123631); (125136, 125142); (125252, 125259);
   (127995, 127999); (917505, 917505); (917536, 917631); (917760, 917999)].

Fixpoint assoc (c : codepoint) (t : list (Z * list Z)) : option (list Z) :=
  match t with
  | [] => None
  | (k, v) :: t' => if c =? k then Some v else assoc c t'
  end.

Fixpoint in_ranges (c : codepoint) (r : list (Z * Z)) : bool :=
  match r with
  | [] => false
  | (lo, hi) :: r' => ((lo <=? c) && (c <=? hi)) || in_ranges c r'
  end.

(** [_PyUnicode_ToUpperFull] and [_PyUnicode_ToLowerFull]: the full case
    mapping of one code point, one to three code points long. *)
Definition to_upper_full (c : codepoint) : str :=
  match assoc c upper_table with Some v => v | None => [c] end.

Definition to_lower_full (c : codepoint) : str :=
  match assoc c lower_table with Some v => v | None => [c] end.

(** [_PyUnicode_IsCased] and [_PyUnicode_IsCaseIgnorable]. *)
Definition is_cased (c : codepoint) : bool := in_ranges c cased_ranges.
Definition is_case_ignorable (c : codepoint) : bool :=
  in_ranges c case_ignorable_ranges.

(** A code point that uppercasing leaves alone. *)
Definition upper_fixed (c : codepoint) : bool :=
  match assoc c upper_table with
  | None => true
  | Some v => str_eqb v [c]
  end.

(** A code point that lowercasing leaves alone whatever surrounds it. *)
Definition lower_fixed (c : codepoint) : bool :=
  negb (c =? 931) &&
  match assoc c lower_table with
  | None => true
  | Some v => str_eqb v [c]
  end.

End Unicode.

(** ** [str.upper], [str.lower] and the slice [[::-1]] *)

(** [do_upper] of [unicodeobject.c]: every code point is replaced by its
    full uppercase mapping. *)
Definition str_upper (s : str) : str := flat_map Unicode.to_upper_full s.

(** [handle_capital_sigma]: U+03A3 lowers to the final sigma U+03C2 when
    it is preceded by a cased letter and not followed by one, case-ignorable
    code points being skipped on both sides; to U+03C3 otherwise.
    [before] holds the code points before the sigma, nearest first. *)
Fixpoint first_not_ignorable (s : str) : option codepoint :=
  match s with
  | [] => None
  | c :: s' => if Unicode.is_case_ignorable c then first_not_ignorable s'
               else Some c
  end.

Definition handle_capital_sigma (before after : str) : codepoint :=
  let final_sigma :=
    match first_not_ignorable before with
    | Some c =>
        Unicode.is_cased c &&
        match first_not_ignorable after with
        | Some c' => negb (Unicode.is_cased c')
        | None => true
        end
    | None => false
    end in
  if final_sigma then 962 else 963.

(** [lower_ucs4]. *)
Definition lower_ucs4 (before : str) (c : codepoint) (after : str) : str :=
  if c =? 931 then [handle_capital_sigma before after]
  else Unicode.to_lower_full c.

(** [do_lower]: the loop over the positions of the string; [before] is
    the part already passed, nearest code point first. *)
Fixpoint do_lower (before s : str) : str :=
  match s with
  | [] => []
  | c :: after => lower_ucs4 before c after ++ do_lower (c :: before) after
  end.

Definition str_lower (s : str) : str := do_lower [] s.

(** The extended slice [s[::-1]] of a sequence of length [n] lists the
    items at the indices [n-1], [n-2], ..., [0]. *)
Definition slice_reversed {A : Type} (s : list A) : list A :=
  match s with
  | [] => []
  | d :: _ =>
      List.map (fun i => nth (length s - 1 - i)%nat s d) (seq 0 (length s))
  end.

(** ** Exceptions and results *)

(** The messages of [JSONDecodeError]; positions are left out. *)
Inductive decode_msg : Type :=
| UnexpectedBOM
| ExpectingValue
| ExtraData
| UnterminatedString
| InvalidControlCharacter
| InvalidEscape
| InvalidUXXXXEscape
| ExpectingPropertyName
| ExpectingColonDelimiter
| ExpectingCommaDelimiter.

Inductive exn : Type :=
| SystemExit (code : Z)
| IndexError
| JSONDecodeError (msg : decode_msg)
| AttributeError
| TypeError.

Inductive result (A : Type) : Type :=
| Ok (a : A)
| Raise (e : exn).
Arguments Ok {A} a.
Arguments Raise {A} e.

(** ** Scanning results *)

(** What a scanning function does at a position: it returns a value and
    the rest of the input, raises [StopIteration] (no value starts here),
    or raises [JSONDecodeError].  [OutOfFuel] belongs to the model only:
    the recursion of the scanner is driven by a counter, and [decode_fuel]
    shows that the counter [json_loads] starts with is never used up. *)
Inductive scan (A : Type) : Type :=
| Scanned (a : A) (rest : str)
| StopIteration
| DecodeError (msg : decode_msg)
| OutOfFuel.
Arguments Scanned {A} a rest.
Arguments StopIteration {A}.
Arguments DecodeError {A} msg.
Arguments OutOfFuel {A}.

(** The input left after a successful scan. *)
Definition rest_of {A : Type} (r : scan A) : option str :=
  match r with
  | Scanned _ rest => Some rest
  | _ => None
  end.

(** ** The process *)

(** What the process has written so far.  The text of a traceback depends
    on the interpreter and on the path of the script; it is recorded as
    the exception it reports. *)
Inductive err_item : Type :=
| ErrText (s : str)
| ErrTraceback (e : exn).

Record streams : Type := {
  stdout : str;
  stderr : list err_item
}.

(** Statements: they see and extend the two streams, and either finish
    with a value or raise. *)
Definition stmt (A : Type) : Type := streams -> result A * streams.

Definition ret {A : Type} (a : A) : stmt A := fun st => (Ok a, st).

Definition bind {A B : Type} (m : stmt A) (k : A -> stmt B) : stmt B :=
  fun st =>
    match m st with
    | (Ok a, st') => k a st'
    | (Raise e, st') => (Raise e, st')
    end.

Definition eval {A : Type} (r : result A) : stmt A := fun st => (r, st).

(** [print(s)] and [print(s, file=sys.stderr)]. *)
Definition print (s : str) : stmt unit :=
  fun st => (Ok tt, {| stdout := stdout st ++ s ++ [10]; stderr := stderr st |}).

Definition print_stderr (s : str) : stmt unit :=
  fun st =>
    (Ok tt, {| stdout := stdout st; stderr := stderr st ++ [ErrText (s ++ [10])] |}).

(** [sys.exit(code)]. *)
Definition sys_exit {A : Type} (code : Z) : stmt A := eval (Raise (SystemExit code)).

(** [sys.argv[i]]. *)
Definition argv_item (argv : list str) (i : nat) : result str :=
  match nth_error argv i with
  | Some a => Ok a
  | None => Raise IndexError
  end.

Notation "x <- m ;; k" := (bind m (fun x => k))
  (at level 61, m at next level, right associativity).
Notation "m ;;; k" := (bind m (fun _ => k))
  (at level 61, right associativity).

(** ** Python values *)

(** The script never computes with a [float]: it only obtains floats from
    [json.loads] and prints them with [json.dumps].  The type and its two
    conversions are therefore kept abstract: [float_of_str] is the
    constructor [float(s)], [floatstr] the function of that name in
    [json/encoder.py] ([float.__repr__], with [NaN], [Infinity],
    [-Infinity] for the special values). *)
Class FloatModel := {
  float : Type;
  float_of_str : str -> float;
  floatstr : float -> str
}.

Section Values.
Context {FM : FloatModel}.

(** The values [json.loads] can return.  A [dict] keeps its keys in
    insertion order; all its keys are strings here. *)
Inductive pyval : Type :=
| PyNone
| PyBool (b : bool)
| PyInt (n : Z)
| PyFloat (f : float)
| PyStr (s : str)
| PyList (items : list pyval)
| PyDict (entries : list (str * pyval)).

(** [d[k] = v]: an existing key keeps its place, a new one goes last. *)
Fixpoint dict_set (d : list (str * pyval)) (k : str) (v : pyval)
  : list (str * pyval) :=
  match d with
  | [] => [(k, v)]
  | (k', v') :: d' =>
      if str_eqb k k' then (k', v) :: d' else (k', v') :: dict_set d' k v
  end.

(** [dict(pairs)]. *)
Definition dict_of_pairs (pairs : list (str * pyval)) : list (str * pyval) :=
  fold_left (fun d kv => dict_set d (fst kv) (snd kv)) pairs [].

Fixpoint dict_lookup (d : list (str * pyval)) (k : str) : option pyval :=
  match d with
  | [] => None
  | (k', v) :: d' => if str_eqb k k' then Some v else dict_lookup d' k
  end.

(** ** [json.loads] *)

(** [WHITESPACE.match(s, end).end()]: skips space, tab, line feed and
    carriage return. *)
Definition is_ws (c : codepoint) : bool :=
  (c =? 32) || (c =? 9) || (c =? 10) || (c =? 13).

Fixpoint skip_ws (s : str) : str :=
  match s with
  | c :: s' => if is_ws c then skip_ws s' else s
  | [] => []
  end.

Definition is_digit (c : codepoint) : bool := (48 <=? c) && (c <=? 57).

Definition hex_digit (c : codepoint) : option Z :=
  if is_digit c then Some (c - 48)
  else if (97 <=? c) && (c <=? 102) then Some (c - 87)
  else if (65 <=? c) && (c <=? 70) then Some (c - 55)
  else None.

(** The four hexadecimal digits of a [\uXXXX] escape. *)
Definition decode_uXXXX (a b c d : codepoint) : option Z :=
  match hex_digit a, hex_digit b, hex_digit c, hex_digit d with
  | Some x, Some y, Some z, Some w => Some (((x * 16 + y) * 16 + z) * 16 + w)
  | _, _, _, _ => None
  end.

(** The table [BACKSLASH] of the one-letter escapes. *)
Definition BACKSLASH (esc : codepoint) : option codepoint :=
  if esc =? 34 then Some 34            (* quotation mark *)
  else if esc =? 92 then Some 92       (* reverse solidus *)
  else if esc =? 47 then Some 47       (* solidus *)
  else if esc =? 98 then Some 8        (* b *)
  else if esc =? 102 then Some 12      (* f *)
  else if esc =? 110 then Some 10      (* n *)
  else if esc =? 114 then Some 13      (* r *)
  else if esc =? 116 then Some 9       (* t *)
  else None.

Definition is_high_surrogate (u : Z) : bool := (55296 <=? u) && (u <=? 56319).
Definition is_low_surrogate (u : Z) : bool := (56320 <=? u) && (u <=? 57343).

(** [scanstring] (strict mode), started after the opening quotation mark;
    [chunks] is the text decoded so far, last code point first.  The cases
    are those of [scanstring_unicode] in [Modules/_json.c], the version
    CPython runs: a [\uXXXX] escape needs its four digits and one more
    character after them, and an escaped high surrogate is joined with an
    escaped low surrogate that follows it when at least one character
    comes after the pair. *)
Fixpoint scanstring (chunks : str) (s : str) : scan str :=
  match s with
  | [] => DecodeError UnterminatedString
  | c :: s1 =>
      if c =? 34 then Scanned (rev chunks) s1
      else if c =? 92 then
        match s1 with
        | [] => DecodeError UnterminatedString
        | esc :: s2 =>
            if esc =? 117 then
              match s2 with
              | a :: b :: c' :: d :: ((_ :: _) as s3) =>
                  match decode_uXXXX a b c' d with
                  | None => DecodeError InvalidUXXXXEscape
                  | Some uni =>
                      match s3 with
                      | e1 :: e2 :: a2 :: b2 :: c2 :: d2 :: ((_ :: _) as s5) =>
                          if is_high_surrogate uni && (e1 =? 92) && (e2 =? 117)
                          then
                            match decode_uXXXX a2 b2 c2 d2 with
                            | None => DecodeError InvalidUXXXXEscape
                            | Some uni2 =>
                                if is_low_surrogate uni2 then
                                  scanstring
                                    (65536 +
                                     Z.lor (Z.shiftl (uni - 55296) 10)
                                           (uni2 - 56320) :: chunks) s5
                                else scanstring (uni :: chunks) s3
                            end
                          else scanstring (uni :: chunks) s3
                      | _ => scanstring (uni :: chunks) s3
                      end
                  end
              | _ => DecodeError InvalidUXXXXEscape
              end
            else
              match BACKSLASH esc with
              | Some char => scanstring (char :: chunks) s2
              | None => DecodeError InvalidEscape
              end
        end
      else if c <? 32 then DecodeError InvalidControlCharacter
      else scanstring (c :: chunks) s1
  end.

(** [NUMBER_RE]: an optional minus sign, [0] or a digit string without a
    leading zero, then optionally a fraction and optionally an exponent.
    Returns the three groups and the rest of the input. *)
Fixpoint span_digits (s : str) : str * str :=
  match s with
  | c :: s' =>
      if is_digit c then let (ds, r) := span_digits s' in (c :: ds, r)
      else ([], s)
  | [] => ([], [])
  end.

Definition match_integer (s : str) : option (str * str) :=
  let (sign, s1) :=
    match s with
    | c :: s' => if c =? 45 then ([45], s') else ([], s)
    | [] => ([], s)
    end in
  match s1 with
  | d :: s2 =>
      if d =? 48 then Some (sign ++ [48], s2)
      else if is_digit d then
        let (ds, r) := span_digits s2 in Some (sign ++ d :: ds, r)
      else None
  | [] => None
  end.

Definition match_frac (s : str) : str * str :=
  match s with
  | c :: s1 =>
      if c =? 46 then
        match span_digits s1 with
        | ([], _) => ([], s)
        | (ds, r) => (46 :: ds, r)
        end
      else ([], s)
  | [] => ([], s)
  end.

Definition match_exp (s : str) : str * str :=
  match s with
  | e :: s1 =>
      if (e =? 101) || (e =? 69) then
        let (sign, s2) :=
          match s1 with
          | c :: s' => if (c =? 45) || (c =? 43) then ([c], s') else ([], s1)
          | [] => ([], s1)
          end in
        match span_digits s2 with
        | ([], _) => ([], s)
        | (ds, r) => (e :: sign ++ ds, r)
        end
      else ([], s)
  | [] => ([], s)
  end.

Definition match_number (s : str) : option (str * str * str * str) :=
  match match_integer s with
  | None => None
  | Some (integer, r1) =>
      let (frac, r2) := match_frac r1 in
      let (exp, r3) := match_exp r2 in
      Some (integer, frac, exp, r3)
  end.

(** [int(s)] on a string matched by the integer group. *)
Definition digits_value (ds : str) : Z :=
  fold_left (fun acc c => acc * 10 + (c - 48)) ds 0.

Definition parse_int (s : str) : Z :=
  match s with
  | c :: s' => if c =? 45 then - digits_value s' else digits_value s
  | [] => 0
  end.

(** [s[idx:idx + len(p)] == p], with what follows the prefix. *)
Fixpoint strip_prefix (p s : str) : option str :=
  match p, s with
  | [], _ => Some s
  | x :: p', y :: s' => if x =? y then strip_prefix p' s' else None
  | _ :: _, [] => None
  end.

(** [JSONArray] and [JSONObject] receive the scanner [scan_once] as an
    argument, as in [json/decoder.py]. *)
Section Compound.
Variable scan_once : str -> scan pyval.

(** The loop of [JSONArray]: [s] is where the next item starts. *)
Fixpoint array_items (fuel : nat) (values : list pyval) (s : str)
  : scan (list pyval) :=
  match fuel with
  | O => OutOfFuel
  | S fuel' =>
      match scan_once s with
      | Scanned value s1 =>
          match skip_ws s1 with
          | c :: s2 =>
              if c =? 93 then Scanned (rev (value :: values)) s2
              else if c =? 44 then
                array_items fuel' (value :: values) (skip_ws s2)
              else DecodeError ExpectingCommaDelimiter
          | [] => DecodeError ExpectingCommaDelimiter
          end
      | StopIteration => DecodeError ExpectingValue
      | DecodeError m => DecodeError m
      | OutOfFuel => OutOfFuel
      end
  end.

(** [JSONArray], started after the opening bracket. *)
Definition JSONArray (fuel : nat) (s : str) : scan pyval :=
  let s0 := skip_ws s in
  match strip_prefix [93] s0 with
  | Some s1 => Scanned (PyList []) s1
  | None =>
      match array_items fuel [] s0 with
      | Scanned values r => Scanned (PyList values) r
      | StopIteration => StopIteration
      | DecodeError m => DecodeError m
      | OutOfFuel => OutOfFuel
      end
  end.

(** The loop of [JSONObject]: [s] is just after the quotation mark that
    opens the next key. *)
Fixpoint object_pairs (fuel : nat) (pairs : list (str * pyval)) (s : str)
  : scan (list (str * pyval)) :=
  match fuel with
  | O => OutOfFuel
  | S fuel' =>
      match scanstring [] s with
      | Scanned key s1 =>
          match skip_ws s1 with
          | c :: s2 =>
              if c =? 58 then
                match scan_once (skip_ws s2) with
                | Scanned value s3 =>
                    match skip_ws s3 with
                    | c' :: s4 =>
                        if c' =? 125 then Scanned (rev ((key, value) :: pairs)) s4
                        else if c' =? 44 then
                          match skip_ws s4 with
                          | q :: s5 =>
                              if q =? 34 then
                                object_pairs fuel' ((key, value) :: pairs) s5
                              else DecodeError ExpectingPropertyName
                          | [] => DecodeError ExpectingPropertyName
                          end
                        else DecodeError ExpectingCommaDelimiter
                    | [] => DecodeError ExpectingCommaDelimiter
                    end
                | StopIteration => DecodeError ExpectingValue
                | DecodeError m => DecodeError m
                | OutOfFuel => OutOfFuel
                end
              else DecodeError ExpectingColonDelimiter
          | [] => DecodeError ExpectingColonDelimiter
          end
      | StopIteration => StopIteration
      | DecodeError m => DecodeError m
      | OutOfFuel => OutOfFuel
      end
  end.

(** [JSONObject], started after the opening brace. *)
Definition JSONObject (fuel : nat) (s : str) : scan pyval :=
  match skip_ws s with
  | c :: s1 =>
      if c =? 125 then Scanned (PyDict []) s1
      else if c =? 34 then
        match object_pairs fuel [] s1 with
        | Scanned pairs r => Scanned (PyDict (dict_of_pairs pairs)) r
        | StopIteration => StopIteration
        | DecodeError m => DecodeError m
        | OutOfFuel => OutOfFuel
        end
      else DecodeError ExpectingPropertyName
  | [] => DecodeError ExpectingPropertyName
  end.

End Compound.

(** [_scan_once] of [json/scanner.py]; digits are the ASCII digits, as in
    the C scanner that CPython runs. *)
Fixpoint scan_once (fuel : nat) (s : str) : scan pyval :=
  match fuel with
  | O => OutOfFuel
  | S fuel' =>
      match s with
      | [] => StopIteration
      | nextchar :: s1 =>
          if nextchar =? 34 then
            match scanstring [] s1 with
            | Scanned v r => Scanned (PyStr v) r
            | StopIteration => StopIteration
            | DecodeError m => DecodeError m
            | OutOfFuel => OutOfFuel
            end
          else if nextchar =? 123 then JSONObject (scan_once fuel') fuel' s1
          else if nextchar =? 91 then JSONArray (scan_once fuel') fuel' s1
          else
            match strip_prefix (lit "null") s with
            | Some r => Scanned PyNone r
            | None =>
            match strip_prefix (lit "true") s with
            | Some r => Scanned (PyBool true) r
            | None =>
            match strip_prefix (lit "false") s with
            | Some r => Scanned (PyBool false) r
            | None =>
            match match_number s with
            | Some (integer, frac, exp, r) =>
                match frac, exp with
                | [], [] => Scanned (PyInt (parse_int integer)) r
                | _, _ => Scanned (PyFloat (float_of_str (integer ++ frac ++ exp))) r
                end
            | None =>
            match strip_prefix (lit "NaN") s with
            | Some r => Scanned (PyFloat (float_of_str (lit "nan"))) r
            | None =>
            match strip_prefix (lit "Infinity") s with
            | Some r => Scanned (PyFloat (float_of_str (lit "inf"))) r
            | None =>
            match strip_prefix (lit "-Infinity") s with
            | Some r => Scanned (PyFloat (float_of_str (lit "-inf"))) r
            | None => StopIteration
            end end end end end end end
      end
  end.

(** [JSONDecoder.decode]: one value, with whitespace allowed around it and
    nothing else after it. *)
Definition decode (fuel : nat) (s : str) : scan pyval :=
  match scan_once fuel (skip_ws s) with
  | Scanned obj r =>
      match skip_ws r with
      | [] => Scanned obj []
      | _ :: _ => DecodeError ExtraData
      end
  | StopIteration => DecodeError ExpectingValue
  | DecodeError m => DecodeError m
  | OutOfFuel => OutOfFuel
  end.

(** The fuel [json_loads] starts with: a value nested [d] levels deep
    needs [d + 1] units, and [d] is below the length of the text. *)
Definition loads_fuel (s : str) : nat := S (length s).

(** [json.loads(s)] for a [str] argument: a text that starts with U+FEFF
    is refused, any other is decoded.  The last two cases never arise:
    [decode] turns [StopIteration] into an error, and the fuel is never
    used up ([decode_fuel]). *)

Definition json_loads (s : str) : result pyval :=
  match s with
  | 65279 :: _ => Raise (JSONDecodeError UnexpectedBOM)
  | _ =>
      match decode (loads_fuel s) s with
      | Scanned obj _ => Ok obj
      | DecodeError m => Raise (JSONDecodeError m)
      | StopIteration => Raise (JSONDecodeError ExpectingValue)
      | OutOfFuel => Raise (JSONDecodeError ExpectingValue)
      end
  end.

(** ** [json.dumps] *)

Definition hex_char (d : Z) : codepoint :=
  if d <? 10 then 48 + d else 87 + d.

(** ['\\u{0:04x}'.format(n)] for [n] below 65536. *)
Definition u_escape (n : Z) : str :=
  [92; 117; hex_char (Z.shiftr n 12 mod 16); hex_char (Z.shiftr n 8 mod 16);
   hex_char (Z.shiftr n 4 mod 16); hex_char (n mod 16)].

(** The replacement of one code point in [encode_basestring_ascii]: the
    printable ASCII characters other than the quotation mark and the
    backslash stand for themselves. *)
Definition escape_ascii (c : codepoint) : str :=
  if c =? 92 then [92; 92]
  else if c =? 34 then [92; 34]
  else if (32 <=? c) && (c <=? 126) then [c]
  else if c =? 8 then [92; 98]
  else if c =? 12 then [92; 102]
  else if c =? 10 then [92; 110]
  else if c =? 13 then [92; 114]
  else if c =? 9 then [92; 116]
  else if c <? 65536 then u_escape c
  else
    let n := c - 65536 in
    u_escape (Z.lor 55296 (Z.land (Z.shiftr n 10) 1023)) ++
    u_escape (Z.lor 56320 (Z.land n 1023)).

Definition encode_basestring_ascii (s : str) : str :=
  [34] ++ flat_map escape_ascii s ++ [34].

(** [int.__repr__]. *)
Definition int_repr (n : Z) : str :=
  lit (NilZero.string_of_int (Z.to_int n)).

(** [JSONEncoder.encode] with the defaults of [json.dumps]: [", "] between
    items, [": "] after a key, ASCII output. *)
Fixpoint json_dumps (o : pyval) : str :=
  match o with
  | PyNone => lit "null"
  | PyBool true => lit "true"
  | PyBool false => lit "false"
  | PyInt n => int_repr n
  | PyFloat f => floatstr f
  | PyStr s => encode_basestring_ascii s
  | PyList items =>
      lit "[" ++
      (fix dumps_items (l : list pyval) : str :=
         match l with
         | [] => []
         | [x] => json_dumps x
         | x :: l' => json_dumps x ++ lit ", " ++ dumps_items l'
         end) items ++
      lit "]"
  | PyDict entries =>
      lit "{" ++
      (fix dumps_entries (l : list (str * pyval)) : str :=
         match l with
         | [] => []
         | [(k, v)] => encode_basestring_ascii k ++ lit ": " ++ json_dumps v
         | (k, v) :: l' =>
             encode_basestring_ascii k ++ lit ": " ++ json_dumps v ++
             lit ", " ++ dumps_entries l'
         end) entries ++
      lit "}"
  end.

(** ** The script *)

(** [input_data.get(key, default)]: only a [dict] has the method. *)
Definition py_get (input_data : pyval) (key : str) (default : pyval)
  : result pyval :=
  match input_data with
  | PyDict d =>
      match dict_lookup d key with
      | Some v => Ok v
      | None => Ok default
      end
  | _ => Raise AttributeError
  end.

(** [operation == name] for a string literal [name]: a value that is not
    a [str] is not equal to it. *)
Definition py_eq_str (v : pyval) (name : str) : bool :=
  match v with
  | PyStr s => str_eqb s name
  | _ => false
  end.

(** [text.upper()] and [text.lower()]: only a [str] has the methods. *)
Definition py_upper (text : pyval) : result pyval :=
  match text with
  | PyStr s => Ok (PyStr (str_upper s))
  | _ => Raise AttributeError
  end.

Definition py_lower (text : pyval) : result pyval :=
  match text with
  | PyStr s => Ok (PyStr (str_lower s))
  | _ => Raise AttributeError
  end.

(** [text[::-1]]: a [str] and a [list] can be sliced; a [dict] takes the
    slice for a key, which is unhashable, and the other values cannot be
    subscripted: [TypeError] in both cases. *)
Definition py_slice_reversed (text : pyval) : result pyval :=
  match text with
  | PyStr s => Ok (PyStr (slice_reversed s))
  | PyList l => Ok (PyList (slice_reversed l))
  | _ => Raise TypeError
  end.

(** Lines 14 to 21 of the script. *)
Definition transform (operation text : pyval) : result pyval :=
  if py_eq_str operation (lit "upper") then py_upper text
  else if py_eq_str operation (lit "lower") then py_lower text
  else if py_eq_str operation (lit "reverse") then py_slice_reversed text
  else Ok text.

(** [main()]; [argv] is [sys.argv], the path of the script first. *)
Definition main (argv : list str) : stmt unit :=
  (if (Z.of_nat (length argv) <? 2) then
     prog <- eval (argv_item argv 0) ;;
     print_stderr (lit "Usage: " ++ prog ++ lit " <json_input>") ;;;
     sys_exit 1
   else ret tt) ;;;
  arg <- eval (argv_item argv 1) ;;
  input_data <- eval (json_loads arg) ;;
  text <- eval (py_get input_data (lit "text") (PyStr (lit ""))) ;;
  operation <- eval (py_get input_data (lit "operation") (PyStr (lit "upper"))) ;;
  result <- eval (transform operation text) ;;
  let output := PyDict [(lit "result", result)] in
  print (json_dumps output).

(** The finished process. *)
Record process : Type := {
  out : str;
  err : list err_item;
  exit_status : Z
}.

(** Running the script: [main()] is called with empty streams.  When it
    returns, the status is 0; [SystemExit] gives its code as the status and
    prints nothing; any other exception is reported by a traceback on
    standard error and gives status 1. *)
Definition run (argv : list str) : process :=
  match main argv {| stdout := []; stderr := [] |} with
  | (Ok _, st) => {| out := stdout st; err := stderr st; exit_status := 0 |}
  | (Raise (SystemExit code), st) =>
      {| out := stdout st; err := stderr st; exit_status := code |}
  | (Raise e, st) =>
      {| out := stdout st; err := stderr st ++ [ErrTraceback e];
         exit_status := 1 |}
  end.

End Values.

(** ** Well-formed JSON *)

(** A recognizer for the grammar of RFC 8259, written from the grammar and
    independently of the scanner above.  Each function takes the input at
    the start of a phrase and returns what follows the phrase, or [None]
    when the input does not start with one.  With [extended] set, the
    names [NaN], [Infinity] and [-Infinity] count as values; they are not
    JSON. *)
Module RFC8259.

(** [ws = *( %x20 / %x09 / %x0A / %x0D )] *)
Fixpoint ws (s : str) : str :=
  match s with
  | c :: s' =>
      if (c =? 32) || (c =? 9) || (c =? 10) || (c =? 13) then ws s' else s
  | [] => []
  end.

Definition DIGIT (c : codepoint) : bool := (48 <=? c) && (c <=? 57).

(** [HEXDIG], in either case. *)
Definition HEXDIG (c : codepoint) : bool :=
  DIGIT c || ((65 <=? c) && (c <=? 70)) || ((97 <=? c) && (c <=? 102)).

(** The letter of a two-character escape:
    [%x22 / %x5C / %x2F / %x62 / %x66 / %x6E / %x72 / %x74]. *)
Definition escape_letter (c : codepoint) : bool :=
  (c =? 34) || (c =? 92) || (c =? 47) || (c =? 98) || (c =? 102) ||
  (c =? 110) || (c =? 114) || (c =? 116).

(** [unescaped = %x20-21 / %x23-5B / %x5D-10FFFF]; a code point is never
    above U+10FFFF. *)
Definition unescaped (c : codepoint) : bool :=
  (32 <=? c) && negb (c =? 34) && negb (c =? 92).

(** [*char quotation-mark]: the rest of a string after its opening
    quotation mark. *)
Fixpoint chars (s : str) : option str :=
  match s with
  | [] => None
  | c :: s1 =>
      if c =? 34 then Some s1
      else if unescaped c then chars s1
      else if c =? 92 then
        match s1 with
        | [] => None
        | e :: s2 =>
            if escape_letter e then chars s2
            else if e =? 117 then
              match s2 with
              | h1 :: h2 :: h3 :: h4 :: s3 =>
                  if HEXDIG h1 && HEXDIG h2 && HEXDIG h3 && HEXDIG h4
                  then chars s3 else None
              | _ => None
              end
            else None
        end
      else None
  end.

(** [string = quotation-mark *char quotation-mark] *)
Definition string (s : str) : option str :=
  match s with
  | c :: s1 => if c =? 34 then chars s1 else None
  | [] => None
  end.

(** [*DIGIT] *)
Fixpoint digits (s : str) : str :=
  match s with
  | c :: s' => if DIGIT c then digits s' else s
  | [] => []
  end.

(** [1*DIGIT] *)
Definition digits1 (s : str) : option str :=
  match s with
  | c :: s' => if DIGIT c then Some (digits s') else None
  | [] => None
  end.

(** An optional phrase. *)
Definition optional (phrase : str -> option str) (s : str) : str :=
  match phrase s with
  | Some r => r
  | None => s
  end.

Definition one_of (cs : list codepoint) (s : str) : option str :=
  match s with
  | c :: s' => if existsb (Z.eqb c) cs then Some s' else None
  | [] => None
  end.

(** [int = zero / ( digit1-9 *DIGIT )] *)
Definition int (s : str) : option str :=
  match s with
  | c :: s' =>
      if c =? 48 then Some s'
      else if (49 <=? c) && (c <=? 57) then Some (digits s')
      else None
  | [] => None
  end.

(** [frac = decimal-point 1*DIGIT] *)
Definition frac (s : str) : option str :=
  match one_of [46] s with
  | Some s1 => digits1 s1
  | None => None
  end.

(** [exp = e [ minus / plus ] 1*DIGIT] *)
Definition exp (s : str) : option str :=
  match one_of [101; 69] s with
  | Some s1 => digits1 (optional (one_of [45; 43]) s1)
  | None => None
  end.

(** [number = [ minus ] int [ frac ] [ exp ]] *)
Definition number (s : str) : option str :=
  match int (optional (one_of [45]) s) with
  | Some s1 => Some (optional exp (optional frac s1))
  | None => None
  end.

(** A fixed word. *)
Fixpoint word (w s : str) : option str :=
  match w, s with
  | [], _ => Some s
  | x :: w', y :: s' => if x =? y then word w' s' else None
  | _ :: _, [] => None
  end.

Section Structured.
Variable value : str -> option str.

(** [value *( value-separator value ) end-array], with
    [value-separator = ws %x2C ws] and [end-array = ws %x5D ws]. *)
Fixpoint elements (fuel : nat) (s : str) : option str :=
  match fuel with
  | O => None
  | S fuel' =>
      match value s with
      | Some s1 =>
          match ws s1 with
          | c :: s2 =>
              if c =? 93 then Some s2
              else if c =? 44 then elements fuel' (ws s2)
              else None
          | [] => None
          end
      | None => None
      end
  end.

(** [array = begin-array [ value *( value-separator value ) ] end-array],
    after the bracket of [begin-array]. *)
Definition array (fuel : nat) (s : str) : option str :=
  match one_of [93] (ws s) with
  | Some r => Some r
  | None => elements fuel (ws s)
  end.

(** [member *( value-separator member ) end-object], with
    [member = string name-separator value] and
    [name-separator = ws %x3A ws]. *)
Fixpoint members (fuel : nat) (s : str) : option str :=
  match fuel with
  | O => None
  | S fuel' =>
      match string s with
      | Some s1 =>
          match ws s1 with
          | c :: s2 =>
              if c =? 58 then
                match value (ws s2) with
                | Some s3 =>
                    match ws s3 with
                    | c' :: s4 =>
                        if c' =? 125 then Some s4
                        else if c' =? 44 then members fuel' (ws s4)
                        else None
                    | [] => None
                    end
                | None => None
                end
              else None
          | [] => None
          end
      | None => None
      end
  end.

(** [object = begin-object [ member *( value-separator member ) ]
    end-object], after the brace of [begin-object]. *)
Definition object (fuel : nat) (s : str) : option str :=
  match one_of [125] (ws s) with
  | Some r => Some r
  | None => members fuel (ws s)
  end.

End Structured.

(** [value = false / null / true / object / array / number / string] *)
Fixpoint value (extended : bool) (fuel : nat) (s : str) : option str :=
  match fuel with
  | O => None
  | S fuel' =>
      match s with
      | [] => None
      | c :: s1 =>
          if c =? 123 then object (value extended fuel') fuel' s1
          else if c =? 91 then array (value extended fuel') fuel' s1
          else if c =? 34 then chars s1
          else
            match word (lit "false") s with Some r => Some r | None =>
            match word (lit "null") s with Some r => Some r | None =>
            match word (lit "true") s with Some r => Some r | None =>
            match number s with Some r => Some r | None =>
            if extended then
              match word (lit "NaN") s with Some r => Some r | None =>
              match word (lit "Infinity") s with Some r => Some r | None =>
              word (lit "-Infinity") s
              end end
            else None
            end end end end
      end
  end.

(** [JSON-text = ws value ws], the whole input. *)
Definition json_text (extended : bool) (s : str) : bool :=
  match value extended (S (length s)) (ws s) with
  | Some r => match ws r with [] => true | _ :: _ => false end
  | None => false
  end.

End RFC8259.

(** ** Outcomes and sample requests *)

(** The line [{"result": body}], where [body] is the JSON text of the
    result. *)
Definition result_object (body : str) : str :=
  [123; 34] ++ lit "result" ++ [34; 58; 32] ++ body ++ [125].

(** A process that printed [line] and a line feed on standard output,
    nothing on standard error, and ended with status 0. *)
Definition printed (line : str) : process :=
  {| out := line ++ [10]; err := []; exit_status := 0 |}.

(** A process that died of the uncaught exception [e]: nothing on standard
    output, the traceback on standard error, status 1. *)
Definition died (e : exn) : process :=
  {| out := []; err := [ErrTraceback e]; exit_status := 1 |}.

(** A word between quotation marks. *)
Definition quoted (s : string) : str := [34] ++ lit s ++ [34].

(** The JSON text of an object, from the JSON texts of its keys and
    values, spaced as [json.dumps] does. *)
Fixpoint fields_text (fields : list (str * str)) : str :=
  match fields with
  | [] => []
  | [(k, v)] => k ++ lit ": " ++ v
  | (k, v) :: fields' => k ++ lit ": " ++ v ++ lit ", " ++ fields_text fields'
  end.

Definition object_text (fields : list (str * str)) : str :=
  lit "{" ++ fields_text fields ++ lit "}".

(** The requests of the scenarios: [{"text": text, "operation": operation}]. *)
Definition request (text operation : string) : str :=
  object_text [(quoted "text", quoted text); (quoted "operation", quoted operation)].

(** A request that is not JSON: [{"operation": "keep", "n": NaN}]. *)
Definition nan_request : str :=
  object_text [(quoted "operation", quoted "keep"); (quoted "n", lit "NaN")].

(** The path of the script, [sys.argv[0]]. *)
Definition script_path : str := lit "main.py".

(** A float model that keeps the text of a numeral as it is.  It is used
    to run the script on concrete arguments; none of the results stated
    below depends on it. *)
Definition literal_floats : FloatModel :=
  {| float := str; float_of_str := fun s => s; floatstr := fun s => s |}.

(** ** Reading back what [json.dumps] writes *)

(** A Unicode code point; every item of a Python [str] is one. *)
Definition is_code_point (c : Z) : bool := (0 <=? c) && (c <=? 1114111).

(** What a JSON reader makes of a string that [json.dumps] wrote: it
    writes a surrogate as a [\uXXXX] escape, so a high surrogate directly
    followed by a low surrogate reads as the escape pair of one code point
    above U+FFFF. *)
Fixpoint join_surrogates (s : str) : str :=
  match s with
  | h :: ((l :: s') as t) =>
      if is_high_surrogate h && is_low_surrogate l
      then 65536 + Z.lor (Z.shiftl (h - 55296) 10) (l - 56320)
           :: join_surrogates s'
      else h :: join_surrogates t
  | _ => s
  end.

(** Texts separated by [", "], as [json.dumps] separates items. *)
Fixpoint joined (texts : list str) : str :=
  match texts with
  | [] => []
  | [x] => x
  | x :: texts' => x ++ lit ", " ++ joined texts'
  end.

(** What may follow a number for the scanner to stop there. *)
Definition number_stops (rest : str) : bool :=
  match rest with
  | [] => true
  | c :: _ => negb (is_digit c || (c =? 46) || (c =? 101) || (c =? 69))
  end.

(** The code points of a decimal numeral. *)
Definition uint_codes (d : Decimal.uint) : str :=
  lit (NilEmpty.string_of_uint d).

Section Reading.
Context {FM : FloatModel}.

(** A value without floats, whose strings and keys consist of code
    points. *)
Fixpoint float_free (v : pyval) : bool :=
  match v with
  | PyFloat _ => false
  | PyStr s => forallb is_code_point s
  | PyList items => forallb float_free items
  | PyDict entries =>
      forallb (fun kv : str * pyval => let (k, x) := kv in
                         forallb is_code_point k && float_free x) entries
  | _ => true
  end.

(** The value [json.loads] returns for the text [json.dumps] wrote for
    [v]: surrogate pairs are joined in every string and key, and a [dict]
    is built again from its entries. *)
Fixpoint read_back (v : pyval) : pyval :=
  match v with
  | PyStr s => PyStr (join_surrogates s)
  | PyList items => PyList (List.map read_back items)
  | PyDict entries =>
      PyDict (dict_of_pairs
                (List.map (fun kv : str * pyval => let (k, x) := kv in
                                     (join_surrogates k, read_back x))
                          entries))
  | _ => v
  end.

(** No key occurs twice. *)
Fixpoint unique_keys (l : list (str * pyval)) : bool :=
  match l with
  | [] => true
  | (k, _) :: l' =>
      negb (existsb (fun kv => str_eqb k (fst kv)) l') && unique_keys l'
  end.

(** A value that reads back as itself: no string or key holds a high
    surrogate directly followed by a low one, and no [dict] holds a key
    twice. *)
Fixpoint canonical (v : pyval) : bool :=
  match v with
  | PyStr s => str_eqb (join_surrogates s) s
  | PyList items => forallb canonical items
  | PyDict entries =>
      forallb (fun kv : str * pyval => let (k, x) := kv in
                         str_eqb (join_surrogates k) k && canonical x) entries &&
      unique_keys entries
  | _ => true
  end.

(** The text of the entries of a dict, and what they read back as. *)
Definition entry_text (kv : str * pyval) : str * str :=
  (encode_basestring_ascii (fst kv), json_dumps (snd kv)).

Definition entry_back (kv : str * pyval) : str * pyval :=
  let (k, x) := kv in (join_surrogates k, read_back x).

Definition entry_free (kv : str * pyval) : bool :=
  let (k, x) := kv in forallb is_code_point k && float_free x.

(** [scan_once] reads the text of [v] back, given fuel for the length of
    the text, when what follows the text cannot continue a number. *)
Definition reads_back (v : pyval) : Prop :=
  float_free v = true ->
  forall fuel rest,
    (length (json_dumps v) <= fuel)%nat -> number_stops rest = true ->
    scan_once fuel (json_dumps v ++ rest) = Scanned (read_back v) rest.

End Reading.

(** The four ways [escape_ascii] writes a code point [c]. *)
Inductive escape_shape (c : codepoint) : str -> Prop :=
| shape_plain :
    c <> 34 -> c <> 92 -> 32 <= c ->
    is_high_surrogate c = false -> is_low_surrogate c = false ->
    escape_shape c [c]
| shape_letter (e : codepoint) :
    e <> 117 -> BACKSLASH e = Some c ->
    is_high_surrogate c = false -> is_low_surrogate c = false ->
    escape_shape c [92; e]
| shape_u (a b c' d : codepoint) :
    decode_uXXXX a b c' d = Some c ->
    escape_shape c [92; 117; a; b; c'; d]
| shape_pair (a b c' d a2 b2 c2 d2 : codepoint) (hi lo : Z) :
    decode_uXXXX a b c' d = Some hi -> decode_uXXXX a2 b2 c2 d2 = Some lo ->
    is_high_surrogate hi = true -> is_low_surrogate lo = true ->
    65536 + Z.lor (Z.shiftl (hi - 55296) 10) (lo - 56320) = c ->
    is_high_surrogate c = false -> is_low_surrogate c = false ->
    escape_shape c [92; 117; a; b; c'; d; 92; 117; a2; b2; c2; d2].


(** The printable characters of ASCII, and ASCII. *)
Definition printable (c : codepoint) : bool := (32 <=? c) && (c <=? 126).
Definition is_ascii (c : codepoint) : bool := (0 <=? c) && (c <=? 127).

(** The case conversions of the ASCII letters. *)
Definition ascii_upper (c : codepoint) : codepoint :=
  if (97 <=? c) && (c <=? 122) then c - 32 else c.
Definition ascii_lower (c : codepoint) : codepoint :=
  if (65 <=? c) && (c <=? 90) then c + 32 else c.

Section LastValue.
Context {FM : FloatModel}.


End LastValue.

(** The model leaves out two limits of the interpreter: [int] and
    [repr] refuse a numeral of more than 4300 digits, and the JSON
    scanner and encoder stop at the recursion limit, near 1000 nested
    values.  A JSON text of at most 1000 characters reaches neither: a
    numeral in it is shorter than the text, and its values are nested at
    most half its length deep. *)
Definition within_limits (s : str) : bool := (length s <=? 1000)%nat.

(** * Properties *)

(** ** Strings and lists *)

Lemma str_eqb_spec (a b : str) : reflect (a = b) (str_eqb a b).
Proof.
  revert b; induction a as [|x a IH]; intros [|y b]; simpl;
    try (constructor; congruence).
  destruct (Z.eqb_spec x y) as [->|Hn]; simpl.
  - destruct (IH b) as [->|Hn]; constructor; congruence.
  - constructor; congruence.
Qed.

Lemma str_eqb_refl (a : str) : str_eqb a a = true.
Proof. destruct (str_eqb_spec a a); congruence. Qed.

Lemma str_eqb_neq (a b : str) : a <> b -> str_eqb a b = false.
Proof. destruct (str_eqb_spec a b); congruence. Qed.

(** The slice [[::-1]] is list reversal. *)
Lemma slice_reversed_rev {A : Type} (s : list A) : slice_reversed s = rev s.
Proof.
  destruct s as [|d s']; [reflexivity|].
  unfold slice_reversed.
  set (s := d :: s').
  apply nth_ext with (d := d) (d' := d).
  - now rewrite length_map, length_seq, length_rev.
  - intros n Hn. rewrite length_map, length_seq in Hn.
    rewrite (nth_indep _ d (nth (length s - 1 - 0) s d)).
    + rewrite (map_nth (fun i => nth (length s - 1 - i)%nat s d)).
      rewrite seq_nth by assumption.
      rewrite rev_nth by assumption.
      f_equal. simpl. lia.
    + now rewrite length_map, length_seq.
Qed.

Lemma flat_map_fixed {A : Type} (f : A -> list A) (l : list A) :
  Forall (fun x => f x = [x]) l -> flat_map f l = l.
Proof.
  induction 1 as [|x l Hx _ IH]; simpl; [reflexivity|].
  now rewrite Hx, IH.
Qed.

Lemma flat_map_idempotent {A : Type} (f : A -> list A) :
  (forall x, Forall (fun y => f y = [y]) (f x)) ->
  forall l, flat_map f (flat_map f l) = flat_map f l.
Proof.
  intros Hf l. apply flat_map_fixed.
  induction l as [|x l IH]; simpl; [constructor|].
  apply Forall_app; split; [apply Hf | exact IH].
Qed.

(** ** The case tables *)

Module UnicodeFacts.
Import Unicode.

Lemma assoc_In (c : codepoint) (t : list (Z * list Z)) (v : list Z) :
  assoc c t = Some v -> In (c, v) t.
Proof.
  induction t as [|[k w] t IH]; simpl; [discriminate|].
  destruct (Z.eqb_spec c k) as [->|_].
  - intros [= ->]. now left.
  - intros H. right. now apply IH.
Qed.

Lemma upper_fixed_spec (c : codepoint) :
  upper_fixed c = true -> to_upper_full c = [c].
Proof.
  unfold upper_fixed, to_upper_full.
  destruct (assoc c upper_table) as [v|]; [|reflexivity].
  now destruct (str_eqb_spec v [c]).
Qed.

Lemma lower_fixed_spec (c : codepoint) :
  lower_fixed c = true ->
  forall before after, lower_ucs4 before c after = [c].
Proof.
  unfold lower_fixed, lower_ucs4, to_lower_full.
  intros H before after. apply andb_prop in H as [Hs H].
  apply negb_true_iff in Hs. rewrite Hs.
  destruct (assoc c lower_table) as [v|]; [|reflexivity].
  now destruct (str_eqb_spec v [c]).
Qed.

(** Every entry of the uppercase table maps to code points that have no
    entry of their own: checked by running through the table. *)
Lemma upper_table_closed :
  forallb (fun kv => forallb upper_fixed (snd kv)) upper_table = true.
Proof. vm_compute. reflexivity. Qed.

Lemma lower_table_closed :
  forallb (fun kv => forallb lower_fixed (snd kv)) lower_table = true.
Proof. vm_compute. reflexivity. Qed.

Lemma to_upper_full_fixed (c : codepoint) :
  forallb upper_fixed (to_upper_full c) = true.
Proof.
  unfold to_upper_full.
  destruct (assoc c upper_table) as [v|] eqn:E.
  - pose proof upper_table_closed as H.
    rewrite forallb_forall in H.
    exact (H _ (assoc_In _ _ _ E)).
  - simpl. unfold upper_fixed. now rewrite E.
Qed.

Lemma lower_ucs4_fixed (before : str) (c : codepoint) (after : str) :
  forallb lower_fixed (lower_ucs4 before c after) = true.
Proof.
  unfold lower_ucs4.
  destruct (Z.eqb_spec c 931) as [->|Hc].
  - unfold handle_capital_sigma.
    match goal with |- context [if ?b then 962 else 963] => destruct b end;
      vm_compute; reflexivity.
  - unfold to_lower_full.
    destruct (assoc c lower_table) as [v|] eqn:E.
    + pose proof lower_table_closed as H.
      rewrite forallb_forall in H.
      exact (H _ (assoc_In _ _ _ E)).
    + simpl. unfold lower_fixed. rewrite E.
      apply Z.eqb_neq in Hc. now rewrite Hc.
Qed.

End UnicodeFacts.

(** ** The three transforms on strings *)

Lemma str_upper_idempotent (s : str) : str_upper (str_upper s) = str_upper s.
Proof.
  unfold str_upper. apply flat_map_idempotent. intro c.
  apply Forall_forall. intros y Hy.
  apply UnicodeFacts.upper_fixed_spec.
  pose proof (UnicodeFacts.to_upper_full_fixed c) as H.
  rewrite forallb_forall in H. now apply H.
Qed.

Lemma do_lower_fixed (before s : str) :
  forallb Unicode.lower_fixed (do_lower before s) = true.
Proof.
  revert before; induction s as [|c s IH]; intros pre; simpl; [reflexivity|].
  rewrite forallb_app, UnicodeFacts.lower_ucs4_fixed, IH. reflexivity.
Qed.

Lemma do_lower_of_fixed (s : str) :
  forallb Unicode.lower_fixed s = true ->
  forall before, do_lower before s = s.
Proof.
  induction s as [|c s IH]; simpl; [reflexivity|].
  intros H before. apply andb_prop in H as [Hc Hs].
  rewrite (UnicodeFacts.lower_fixed_spec c Hc), (IH Hs). reflexivity.
Qed.

Lemma str_lower_idempotent (s : str) : str_lower (str_lower s) = str_lower s.
Proof. unfold str_lower. apply do_lower_of_fixed, do_lower_fixed. Qed.

Section Transforms.
Context {FM : FloatModel}.

(** C6: reversing twice gives the text back.  On every string [s] the
    operation ["reverse"] succeeds with a string [r], and on [r] it
    succeeds with [s]. *)
Theorem reverse_involution (s : str) :
  exists r : str,
    transform (PyStr (lit "reverse")) (PyStr s) = Ok (PyStr r) /\
    transform (PyStr (lit "reverse")) (PyStr r) = Ok (PyStr s).
Proof.
  exists (slice_reversed s). split; [reflexivity|].
  cbn. now rewrite !slice_reversed_rev, rev_involutive.
Qed.

(** C7: the operations ["upper"] and ["lower"] are idempotent.  Each
    succeeds on every string [s] with a string, and applied to that
    string it returns it unchanged. *)
Theorem upper_lower_idempotent (s : str) :
  (exists r : str,
     transform (PyStr (lit "upper")) (PyStr s) = Ok (PyStr r) /\
     transform (PyStr (lit "upper")) (PyStr r) = Ok (PyStr r)) /\
  (exists r : str,
     transform (PyStr (lit "lower")) (PyStr s) = Ok (PyStr r) /\
     transform (PyStr (lit "lower")) (PyStr r) = Ok (PyStr r)).
Proof.
  split.
  - exists (str_upper s). split; [reflexivity|].
    cbn. now rewrite str_upper_idempotent.
  - exists (str_lower s). split; [reflexivity|].
    cbn. now rewrite str_lower_idempotent.
Qed.

End Transforms.

(** ** The scanner consumes input and never runs out of fuel *)

Lemma skip_ws_length (s : str) : (length (skip_ws s) <= length s)%nat.
Proof.
  induction s as [|c s IH]; simpl; [lia|].
  destruct (is_ws c); simpl; lia.
Qed.

Lemma strip_prefix_length (p s r : str) :
  strip_prefix p s = Some r -> (length r + length p = length s)%nat.
Proof.
  revert s; induction p as [|x p IH]; intros [|y s]; simpl;
    try discriminate; try (intros [= <-]; simpl; lia).
  destruct (x =? y); [|discriminate].
  intros H. apply IH in H. lia.
Qed.

Lemma span_digits_length (s ds r : str) :
  span_digits s = (ds, r) -> (length ds + length r = length s)%nat.
Proof.
  revert ds r; induction s as [|c s IH]; simpl; intros ds r.
  - intros [= <- <-]. reflexivity.
  - destruct (is_digit c).
    + destruct (span_digits s) as [ds' r'].
      intros [= <- <-]. specialize (IH _ _ eq_refl). simpl. lia.
    + intros [= <- <-]. reflexivity.
Qed.

Lemma match_integer_length (s i r : str) :
  match_integer s = Some (i, r) -> (length r < length s)%nat.
Proof.
  unfold match_integer.
  assert (H : forall (sign s1 : str), (length s1 <= length s)%nat ->
            match s1 with
            | [] => None
            | d :: s2 =>
                if d =? 48 then Some (sign ++ [48], s2)
                else if is_digit d
                     then let (ds, r0) := span_digits s2 in Some (sign ++ d :: ds, r0)
                     else None
            end = Some (i, r) -> (length r < length s)%nat).
  { intros sign [|d s2] Hl; [discriminate|]. simpl in Hl.
    destruct (d =? 48); [intros [= <- <-]; lia|].
    destruct (is_digit d); [|discriminate].
    destruct (span_digits s2) as [ds r0] eqn:E.
    apply span_digits_length in E. intros [= <- <-]. lia. }
  destruct s as [|c s']; [discriminate|].
  destruct (c =? 45); [apply (H [45] s') | apply (H [] (c :: s'))]; simpl; lia.
Qed.

Lemma match_frac_length (s f r : str) :
  match_frac s = (f, r) -> (length r <= length s)%nat.
Proof.
  unfold match_frac. destruct s as [|c s1]; [intros [= <- <-]; lia|].
  destruct (c =? 46); [|intros [= <- <-]; lia].
  destruct (span_digits s1) as [[|d ds] r0] eqn:E.
  - intros [= <- <-]; lia.
  - apply span_digits_length in E. intros [= <- <-]. simpl in *. lia.
Qed.

Lemma match_exp_length (s e r : str) :
  match_exp s = (e, r) -> (length r <= length s)%nat.
Proof.
  unfold match_exp. destruct s as [|c s1]; [intros [= <- <-]; lia|].
  destruct ((c =? 101) || (c =? 69)); [|intros [= <- <-]; lia].
  destruct s1 as [|c1 s']; [|destruct ((c1 =? 45) || (c1 =? 43))];
    match goal with
    | |- context [span_digits ?x] =>
        destruct (span_digits x) as [[|d ds] r0] eqn:E
    end;
    intros [= <- <-]; try apply span_digits_length in E; simpl in *; lia.
Qed.

Lemma match_number_length (s i f e r : str) :
  match_number s = Some (i, f, e, r) -> (length r < length s)%nat.
Proof.
  unfold match_number.
  destruct (match_integer s) as [[i0 r1]|] eqn:Ei; [|discriminate].
  destruct (match_frac r1) as [f0 r2] eqn:Ef.
  destruct (match_exp r2) as [e0 r3] eqn:Ee.
  intros [= <- <- <- <-].
  apply match_integer_length in Ei. apply match_frac_length in Ef.
  apply match_exp_length in Ee. lia.
Qed.

Ltac break_match_hyp H :=
  repeat match type of H with
         | context [match ?x with _ => _ end] =>
             destruct x eqn:?; try discriminate H
         end.

Lemma scanstring_length (s : str) :
  forall chunks v r,
    scanstring chunks s = Scanned v r -> (length r < length s)%nat.
Proof.
  remember (length s) as n eqn:Hn.
  assert (Hle : (length s <= n)%nat) by lia. clear Hn.
  revert s Hle. induction n as [|n IH]; intros s Hle chunks v r H.
  - destruct s; [discriminate H | simpl in Hle; lia].
  - destruct s as [|c s1]; [discriminate H|].
    cbn [scanstring] in H. cbn [length] in Hle |- *.
    break_match_hyp H;
      first [ injection H as <- <-; subst; cbn [length] in Hle; lia
            | apply IH in H; subst; cbn [length] in Hle |- *; lia ].
Qed.

Lemma scanstring_fuel (s : str) :
  forall chunks, scanstring chunks s <> OutOfFuel.
Proof.
  remember (length s) as n eqn:Hn.
  assert (Hle : (length s <= n)%nat) by lia. clear Hn.
  revert s Hle. induction n as [|n IH]; intros s Hle chunks.
  - destruct s; [discriminate | simpl in Hle; lia].
  - destruct s as [|c s1]; [discriminate|].
    cbn [scanstring].
    repeat match goal with
           | |- context [match ?x with _ => _ end] => destruct x eqn:?
           end; subst; simpl in Hle; try discriminate; apply IH; simpl; lia.
Qed.

Section CompoundLength.
Context {FM : FloatModel}.
Variable scan_once : str -> scan pyval.
Hypothesis scan_once_length :
  forall s v r, scan_once s = Scanned v r -> (length r < length s)%nat.

Lemma array_items_length (fuel : nat) :
  forall values s vs r,
    array_items scan_once fuel values s = Scanned vs r ->
    (length r < length s)%nat.
Proof.
  induction fuel as [|fuel IH]; intros values s vs r H; [discriminate H|].
  cbn [array_items] in H.
  destruct (scan_once s) as [value s1| | |] eqn:E; try discriminate H.
  apply scan_once_length in E.
  pose proof (skip_ws_length s1) as Hw.
  destruct (skip_ws s1) as [|c s2]; [discriminate H|]. simpl in Hw.
  destruct (c =? 93); [injection H as <- <-; lia|].
  destruct (c =? 44); [|discriminate H].
  apply IH in H. pose proof (skip_ws_length s2). lia.
Qed.

Lemma JSONArray_length (fuel : nat) (s : str) (v : pyval) (r : str) :
  JSONArray scan_once fuel s = Scanned v r -> (length r <= length s)%nat.
Proof.
  unfold JSONArray. pose proof (skip_ws_length s) as Hw.
  destruct (strip_prefix [93] (skip_ws s)) as [s1|] eqn:E.
  - apply strip_prefix_length in E. intros [= <- <-]. simpl in E. lia.
  - destruct (array_items scan_once fuel [] (skip_ws s)) as [vs r'| | |] eqn:E';
      try discriminate.
    apply array_items_length in E'. intros [= <- <-]. lia.
Qed.

Lemma object_pairs_length (fuel : nat) :
  forall pairs s ps r,
    object_pairs scan_once fuel pairs s = Scanned ps r ->
    (length r < length s)%nat.
Proof.
  induction fuel as [|fuel IH]; intros pairs s ps r H; [discriminate H|].
  cbn [object_pairs] in H.
  destruct (scanstring [] s) as [key s1| | |] eqn:Ek; try discriminate H.
  apply scanstring_length in Ek.
  pose proof (skip_ws_length s1) as Hw1.
  destruct (skip_ws s1) as [|c s2]; [discriminate H|]. simpl in Hw1.
  destruct (c =? 58); [|discriminate H].
  pose proof (skip_ws_length s2) as Hw2.
  destruct (scan_once (skip_ws s2)) as [value s3| | |] eqn:Ev;
    try discriminate H.
  apply scan_once_length in Ev.
  pose proof (skip_ws_length s3) as Hw3.
  destruct (skip_ws s3) as [|c' s4]; [discriminate H|]. simpl in Hw3.
  destruct (c' =? 125); [injection H as <- <-; lia|].
  destruct (c' =? 44); [|discriminate H].
  pose proof (skip_ws_length s4) as Hw4.
  destruct (skip_ws s4) as [|q s5]; [discriminate H|]. simpl in Hw4.
  destruct (q =? 34); [|discriminate H].
  apply IH in H. lia.
Qed.

Lemma JSONObject_length (fuel : nat) (s : str) (v : pyval) (r : str) :
  JSONObject scan_once fuel s = Scanned v r -> (length r <= length s)%nat.
Proof.
  unfold JSONObject. pose proof (skip_ws_length s) as Hw.
  destruct (skip_ws s) as [|c s1]; [discriminate|]. simpl in Hw.
  destruct (c =? 125); [intros [= <- <-]; lia|].
  destruct (c =? 34); [|discriminate].
  destruct (object_pairs scan_once fuel [] s1) as [ps r'| | |] eqn:E;
    try discriminate.
  apply object_pairs_length in E. intros [= <- <-]. lia.
Qed.

(** With a scanner that does not give up on inputs shorter than [n], the
    loops do not give up either, as long as their own counter exceeds the
    length of the input. *)
Variable n : nat.
Hypothesis scan_once_fuel :
  forall s, (length s < n)%nat -> scan_once s <> OutOfFuel.

Lemma array_items_fuel (fuel : nat) :
  forall values s,
    (length s < fuel)%nat -> (length s < n)%nat ->
    array_items scan_once fuel values s <> OutOfFuel.
Proof.
  induction fuel as [|fuel IH]; intros values s Hf Hn; [lia|].
  cbn [array_items].
  pose proof (scan_once_fuel s Hn) as Hs.
  destruct (scan_once s) as [value s1| | |] eqn:E; try discriminate;
    [|contradiction].
  apply scan_once_length in E.
  pose proof (skip_ws_length s1) as Hw.
  destruct (skip_ws s1) as [|c s2]; [discriminate|]. simpl in Hw.
  destruct (c =? 93); [discriminate|].
  destruct (c =? 44); [|discriminate].
  pose proof (skip_ws_length s2). apply IH; lia.
Qed.

Lemma JSONArray_fuel (fuel : nat) (s : str) :
  (length s < fuel)%nat -> (length s < n)%nat ->
  JSONArray scan_once fuel s <> OutOfFuel.
Proof.
  intros Hf Hn. unfold JSONArray. pose proof (skip_ws_length s) as Hw.
  destruct (strip_prefix [93] (skip_ws s)); [discriminate|].
  pose proof (array_items_fuel fuel [] (skip_ws s)) as H.
  destruct (array_items scan_once fuel [] (skip_ws s)); try discriminate.
  exfalso. apply H; [lia | lia | reflexivity].
Qed.

Lemma object_pairs_fuel (fuel : nat) :
  forall pairs s,
    (length s < fuel)%nat -> (length s < n)%nat ->
    object_pairs scan_once fuel pairs s <> OutOfFuel.
Proof.
  induction fuel as [|fuel IH]; intros pairs s Hf Hn; [lia|].
  cbn [object_pairs].
  destruct (scanstring [] s) as [key s1| | |] eqn:Ek; try discriminate.
  - apply scanstring_length in Ek.
    pose proof (skip_ws_length s1) as Hw1.
    destruct (skip_ws s1) as [|c s2]; [discriminate|]. simpl in Hw1.
    destruct (c =? 58); [|discriminate].
    pose proof (skip_ws_length s2) as Hw2.
    assert (Hs : scan_once (skip_ws s2) <> OutOfFuel)
      by (apply scan_once_fuel; lia).
    destruct (scan_once (skip_ws s2)) as [value s3| | |] eqn:Ev;
      try discriminate; [|contradiction].
    apply scan_once_length in Ev.
    pose proof (skip_ws_length s3) as Hw3.
    destruct (skip_ws s3) as [|c' s4]; [discriminate|]. simpl in Hw3.
    destruct (c' =? 125); [discriminate|].
    destruct (c' =? 44); [|discriminate].
    pose proof (skip_ws_length s4) as Hw4.
    destruct (skip_ws s4) as [|q s5]; [discriminate|]. simpl in Hw4.
    destruct (q =? 34); [|discriminate].
    apply IH; lia.
  - now apply scanstring_fuel in Ek.
Qed.

Lemma JSONObject_fuel (fuel : nat) (s : str) :
  (length s < fuel)%nat -> (length s < n)%nat ->
  JSONObject scan_once fuel s <> OutOfFuel.
Proof.
  intros Hf Hn. unfold JSONObject. pose proof (skip_ws_length s) as Hw.
  destruct (skip_ws s) as [|c s1]; [discriminate|]. simpl in Hw.
  destruct (c =? 125); [discriminate|].
  destruct (c =? 34); [|discriminate].
  pose proof (object_pairs_fuel fuel [] s1) as H.
  destruct (object_pairs scan_once fuel [] s1); try discriminate.
  exfalso. apply H; [lia | lia | reflexivity].
Qed.

End CompoundLength.

Section ScanOnce.
Context {FM : FloatModel}.

(** The shape of [scan_once] on a non-empty input, one case per branch. *)
Lemma scan_once_length_fuel (fuel : nat) :
  (forall s v r, scan_once fuel s = Scanned v r -> (length r < length s)%nat) /\
  (forall s, (length s < fuel)%nat -> scan_once fuel s <> OutOfFuel).
Proof.
  induction fuel as [|fuel [IHl IHf]]; [split; [discriminate | intros; lia]|].
  split.
  - intros s v r H. destruct s as [|c s1]; [discriminate H|].
    cbn [scan_once] in H.
    destruct (c =? 34).
    { destruct (scanstring [] s1) as [v' r'| | |] eqn:E; try discriminate H.
      apply scanstring_length in E. injection H as <- <-. simpl. lia. }
    destruct (c =? 123).
    { apply JSONObject_length in H; [simpl; lia | exact IHl]. }
    destruct (c =? 91).
    { apply JSONArray_length in H; [simpl; lia | exact IHl]. }
    repeat match type of H with
           | context [match strip_prefix ?p ?x with _ => _ end] =>
               let E := fresh "E" in
               destruct (strip_prefix p x) as [?|] eqn:E;
               [apply strip_prefix_length in E; injection H as <- <-;
                simpl in *; lia|]
           | context [match match_number ?x with _ => _ end] =>
               let E := fresh "E" in
               destruct (match_number x) as [[[[i f] e] r0]|] eqn:E;
               [apply match_number_length in E;
                destruct f, e; injection H as <- <-; exact E|]
           end.
    discriminate H.
  - intros s Hs. destruct s as [|c s1]; [discriminate|].
    cbn [scan_once]. simpl in Hs.
    destruct (c =? 34).
    { pose proof (scanstring_fuel s1 []) as Hk.
      destruct (scanstring [] s1); try discriminate. contradiction. }
    destruct (c =? 123).
    { apply JSONObject_fuel with (n := fuel); try assumption; lia. }
    destruct (c =? 91).
    { apply JSONArray_fuel with (n := fuel); try assumption; lia. }
    repeat match goal with
           | |- context [match ?x with _ => _ end] => destruct x
           end; discriminate.
Qed.

Lemma decode_fuel (s : str) : decode (loads_fuel s) s <> OutOfFuel.
Proof.
  unfold decode, loads_fuel.
  pose proof (proj2 (scan_once_length_fuel (S (length s))) (skip_ws s)) as H.
  pose proof (skip_ws_length s).
  destruct (scan_once (S (length s)) (skip_ws s)); try discriminate.
  - destruct (skip_ws rest); discriminate.
  - exfalso. apply H; [lia | reflexivity].
Qed.

End ScanOnce.

(** ** The scanner accepts the grammar of RFC 8259 and the three names *)

Module Grammar.
Import RFC8259.

Lemma ws_skip_ws (s : str) : ws s = skip_ws s.
Proof.
  induction s as [|c s IH]; [reflexivity|].
  cbn. unfold is_ws. now rewrite IH.
Qed.

Lemma word_strip_prefix (w s : str) : word w s = strip_prefix w s.
Proof.
  revert s; induction w as [|x w IH]; intros [|y s]; cbn; try reflexivity.
Qed.

Lemma HEXDIG_hex_digit (c : codepoint) :
  HEXDIG c = match hex_digit c with Some _ => true | None => false end.
Proof.
  unfold HEXDIG, hex_digit, DIGIT, is_digit.
  destruct ((48 <=? c) && (c <=? 57)); [reflexivity|].
  destruct ((97 <=? c) && (c <=? 102)); [now rewrite orb_true_r|].
  now destruct ((65 <=? c) && (c <=? 70)).
Qed.

Lemma HEXDIG_decode (a b c d : codepoint) :
  HEXDIG a && HEXDIG b && HEXDIG c && HEXDIG d =
  match decode_uXXXX a b c d with Some _ => true | None => false end.
Proof.
  rewrite !HEXDIG_hex_digit. unfold decode_uXXXX.
  now destruct (hex_digit a), (hex_digit b), (hex_digit c), (hex_digit d).
Qed.

Lemma escape_letter_BACKSLASH (e : codepoint) :
  escape_letter e = match BACKSLASH e with Some _ => true | None => false end.
Proof.
  unfold escape_letter, BACKSLASH.
  repeat match goal with
         | |- context [?x =? ?y] =>
             destruct (Z.eqb_spec x y); cbn [orb]; try reflexivity
         end.
Qed.

Lemma escape_letter_u : escape_letter 117 = false.
Proof. reflexivity. Qed.

Lemma chars_escaped_u (a b c d : codepoint) (s : str) :
  chars (92 :: 117 :: a :: b :: c :: d :: s) =
  if HEXDIG a && HEXDIG b && HEXDIG c && HEXDIG d then chars s else None.
Proof. reflexivity. Qed.

(** A string is recognized exactly when [scanstring] decodes it, and the
    same input is left. *)
Lemma chars_scanstring (s : str) :
  forall chunks, chars s = rest_of (scanstring chunks s).
Proof.
  remember (length s) as n eqn:Hn.
  assert (Hle : (length s <= n)%nat) by lia. clear Hn.
  revert s Hle. induction n as [|n IH]; intros s Hle chunks.
  - destruct s; [reflexivity | cbn in Hle; lia].
  - destruct s as [|c s1]; [reflexivity|].
    cbn [length] in Hle. cbn [chars scanstring]. unfold unescaped.
    destruct (Z.eqb_spec c 34) as [->|H34]; [reflexivity|].
    destruct (Z.eqb_spec c 92) as [->|H92].
    + cbn [Z.leb Z.compare Pos.compare Pos.compare_cont andb negb].
      destruct s1 as [|e s2]; [reflexivity|]. cbn [length] in Hle.
      rewrite escape_letter_BACKSLASH.
      destruct (Z.eqb_spec e 117) as [->|Hu].
      * cbn [BACKSLASH Z.eqb Pos.eqb].
        destruct s2 as [|a [|b [|c' [|d s3]]]]; try reflexivity.
        cbn [length] in Hle. rewrite HEXDIG_decode.
        destruct s3 as [|x s3']; [now destruct (decode_uXXXX a b c' d)|].
        destruct (decode_uXXXX a b c' d) as [uni|]; [|reflexivity].
        assert (Hs3 : forall ch, chars (x :: s3') =
                                 rest_of (scanstring ch (x :: s3'))).
        { intro ch. apply IH. cbn [length] in *. lia. }
        destruct s3' as [|e2 [|a2 [|b2 [|c2 [|d2 [|y s5']]]]]];
          try apply Hs3.
        destruct (is_high_surrogate uni && (x =? 92) && (e2 =? 117)) eqn:Ep;
          [|apply Hs3].
        apply andb_prop in Ep as [Ep E2]. apply andb_prop in Ep as [_ E1].
        apply Z.eqb_eq in E1, E2. subst x e2.
        assert (Hs5 : forall ch, chars (y :: s5') =
                                 rest_of (scanstring ch (y :: s5'))).
        { intro ch. apply IH. cbn [length] in *. lia. }
        destruct (decode_uXXXX a2 b2 c2 d2) as [uni2|] eqn:Ed.
        -- destruct (is_low_surrogate uni2); [|apply Hs3].
           rewrite <- Hs5. rewrite chars_escaped_u, HEXDIG_decode, Ed.
           reflexivity.
        -- rewrite chars_escaped_u, HEXDIG_decode, Ed. reflexivity.
      * destruct (BACKSLASH e) as [char|]; [|reflexivity].
        apply IH. lia.
    + cbn [negb]. rewrite !andb_true_r, Z.leb_antisym.
      destruct (c <? 32); cbn [negb]; [reflexivity|].
      apply IH. lia.
Qed.

Lemma digits_span (s : str) : digits s = snd (span_digits s).
Proof.
  induction s as [|c s IH]; [reflexivity|].
  cbn. unfold DIGIT, is_digit.
  destruct ((48 <=? c) && (c <=? 57)); [|reflexivity].
  rewrite IH. now destruct (span_digits s).
Qed.

Lemma digits1_span (s : str) :
  digits1 s = match span_digits s with
              | ([], _) => None
              | (_ :: _, r) => Some r
              end.
Proof.
  destruct s as [|c s]; [reflexivity|].
  cbn. unfold DIGIT, is_digit.
  destruct ((48 <=? c) && (c <=? 57)); [|reflexivity].
  rewrite digits_span. now destruct (span_digits s).
Qed.

Lemma optional_frac (s : str) : optional frac s = snd (match_frac s).
Proof.
  unfold optional, frac, match_frac, one_of.
  destruct s as [|c s1]; [reflexivity|]. cbn [existsb].
  rewrite orb_false_r.
  destruct (c =? 46); [|reflexivity].
  rewrite digits1_span. now destruct (span_digits s1) as [[|d ds] r].
Qed.

Lemma optional_exp (s : str) : optional exp s = snd (match_exp s).
Proof.
  unfold optional at 1, exp, match_exp, one_of at 1.
  destruct s as [|e s1]; [reflexivity|]. cbn [existsb].
  rewrite orb_false_r.
  destruct ((e =? 101) || (e =? 69)); [|reflexivity].
  rewrite digits1_span. unfold optional, one_of.
  destruct s1 as [|c s']; [reflexivity|]. cbn [existsb].
  rewrite orb_false_r.
  destruct ((c =? 45) || (c =? 43)).
  - now destruct (span_digits s') as [[|d ds] r].
  - now destruct (span_digits (c :: s')) as [[|d ds] r].
Qed.

Lemma int_match_integer (s : str) :
  int (optional (one_of [45]) s) =
  match match_integer s with
  | Some (_, r) => Some r
  | None => None
  end.
Proof.
  assert (H : forall sign s1,
            int s1 =
            match
              match s1 with
              | [] => None
              | d :: s2 =>
                  if d =? 48 then Some (sign ++ [48], s2)
                  else if is_digit d
                       then let (ds, r) := span_digits s2 in
                            Some (sign ++ d :: ds, r)
                       else None
              end
            with
            | Some (_, r) => Some r
            | None => None
            end).
  { intros sign [|d s2]; [reflexivity|]. cbn [int]. unfold is_digit.
    destruct (Z.eqb_spec d 48) as [->|Hd]; [reflexivity|].
    replace (49 <=? d) with (48 <=? d) by lia.
    destruct ((48 <=? d) && (d <=? 57)); [|reflexivity].
    rewrite digits_span. now destruct (span_digits s2). }
  unfold match_integer, optional, one_of.
  destruct s as [|c s']; [apply (H [] [])|]. cbn [existsb].
  rewrite orb_false_r.
  destruct (c =? 45); [apply (H [45] s') | apply (H [] (c :: s'))].
Qed.

(** A number is recognized exactly when [NUMBER_RE] matches. *)
Lemma number_match_number (s : str) :
  number s = match match_number s with
             | Some (_, _, _, r) => Some r
             | None => None
             end.
Proof.
  unfold number, match_number. rewrite int_match_integer.
  destruct (match_integer s) as [[i r1]|]; [|reflexivity].
  rewrite optional_frac. destruct (match_frac r1) as [f r2]. cbn [snd].
  rewrite optional_exp. now destruct (match_exp r2) as [e r3].
Qed.


Section Structured.
Context {FM : FloatModel}.
Variable value : str -> option str.
Variable scan_once : str -> scan pyval.
Hypothesis value_scan_once : forall s, value s = rest_of (scan_once s).

Lemma elements_array_items (fuel : nat) :
  forall values s,
    elements value fuel s = rest_of (array_items scan_once fuel values s).
Proof.
  induction fuel as [|fuel IH]; intros values s; [reflexivity|].
  cbn [elements array_items]. rewrite value_scan_once.
  destruct (scan_once s) as [v s1| | |]; try reflexivity.
  cbn [rest_of]. rewrite ws_skip_ws.
  destruct (skip_ws s1) as [|c s2]; [reflexivity|].
  destruct (c =? 93); [reflexivity|].
  destruct (c =? 44); [|reflexivity].
  rewrite ws_skip_ws. apply IH.
Qed.

Lemma array_JSONArray (fuel : nat) (s : str) :
  array value fuel s = rest_of (JSONArray scan_once fuel s).
Proof.
  unfold array, JSONArray. rewrite ws_skip_ws.
  replace (one_of [93] (skip_ws s)) with (strip_prefix [93] (skip_ws s)).
  2:{ destruct (skip_ws s) as [|c s1]; [reflexivity|]. cbn.
      rewrite orb_false_r, Z.eqb_sym. reflexivity. }
  destruct (strip_prefix [93] (skip_ws s)); [reflexivity|].
  rewrite (elements_array_items fuel []).
  now destruct (array_items scan_once fuel [] (skip_ws s)).
Qed.

Lemma members_object_pairs (fuel : nat) :
  forall pairs s,
    members value fuel (34 :: s) =
    rest_of (object_pairs scan_once fuel pairs s).
Proof.
  induction fuel as [|fuel IH]; intros pairs s; [reflexivity|].
  cbn [members object_pairs string Z.eqb Pos.eqb].
  rewrite (chars_scanstring s []).
  destruct (scanstring [] s) as [key s1| | |]; try reflexivity.
  cbn [rest_of]. rewrite ws_skip_ws.
  destruct (skip_ws s1) as [|c s2]; [reflexivity|].
  destruct (c =? 58); [|reflexivity].
  rewrite ws_skip_ws, value_scan_once.
  destruct (scan_once (skip_ws s2)) as [v s3| | |]; try reflexivity.
  cbn [rest_of]. rewrite ws_skip_ws.
  destruct (skip_ws s3) as [|c' s4]; [reflexivity|].
  destruct (c' =? 125); [reflexivity|].
  destruct (c' =? 44); [|reflexivity].
  rewrite ws_skip_ws.
  destruct (skip_ws s4) as [|q s5]; [now destruct fuel|].
  destruct (Z.eqb_spec q 34) as [->|Hq]; [apply IH|].
  destruct fuel; [reflexivity|]. cbn [members string].
  apply Z.eqb_neq in Hq. now rewrite Hq.
Qed.

Lemma object_JSONObject (fuel : nat) (s : str) :
  object value fuel s = rest_of (JSONObject scan_once fuel s).
Proof.
  unfold object, JSONObject, one_of. rewrite ws_skip_ws.
  destruct (skip_ws s) as [|c s1]; [now destruct fuel|].
  cbn [existsb]. rewrite orb_false_r.
  destruct (c =? 125); [reflexivity|].
  destruct (Z.eqb_spec c 34) as [->|Hc].
  - rewrite (members_object_pairs fuel []).
    now destruct (object_pairs scan_once fuel [] s1).
  - destruct fuel; [reflexivity|]. cbn [members string].
    apply Z.eqb_neq in Hc. now rewrite Hc.
Qed.

End Structured.


Lemma strip_prefix_head (x c : codepoint) (p s r : str) :
  strip_prefix (x :: p) (c :: s) = Some r -> c = x.
Proof.
  cbn. destruct (Z.eqb_spec x c); [congruence | discriminate].
Qed.

Section Values.
Context {FM : FloatModel}.

(** With the three names admitted, a value is recognized exactly when
    [scan_once] returns one, and the same input is left. *)
Lemma value_scan_once (fuel : nat) :
  forall s, value true fuel s = rest_of (scan_once fuel s).
Proof.
  induction fuel as [|fuel IH]; intro s; [reflexivity|].
  destruct s as [|c s1]; [reflexivity|].
  cbn [value scan_once].
  destruct (Z.eqb_spec c 123) as [->|H123].
  { cbn [Z.eqb Pos.eqb]. now apply object_JSONObject. }
  destruct (Z.eqb_spec c 91) as [->|H91].
  { cbn [Z.eqb Pos.eqb]. now apply array_JSONArray. }
  destruct (Z.eqb_spec c 34) as [->|H34].
  { rewrite (chars_scanstring s1 []). now destruct (scanstring [] s1). }
  change word with strip_prefix. rewrite number_match_number.
  destruct (strip_prefix (lit "false") (c :: s1)) as [rf|] eqn:Ef;
  destruct (strip_prefix (lit "null") (c :: s1)) as [rn|] eqn:En;
  destruct (strip_prefix (lit "true") (c :: s1)) as [rt|] eqn:Et;
    try (apply strip_prefix_head in Ef; cbv in Ef);
    try (apply strip_prefix_head in En; cbv in En);
    try (apply strip_prefix_head in Et; cbv in Et);
    try congruence; try reflexivity.
  destruct (match_number (c :: s1)) as [[[[i f] e] r]|];
    [now destruct f, e|].
  repeat match goal with
         | |- context [strip_prefix ?p ?x] => destruct (strip_prefix p x)
         end; reflexivity.
Qed.

Lemma json_text_decode (s : str) :
  json_text true s =
  match decode (loads_fuel s) s with
  | Scanned _ _ => true
  | _ => false
  end.
Proof.
  unfold json_text, decode, loads_fuel.
  rewrite ws_skip_ws, value_scan_once.
  destruct (scan_once (S (length s)) (skip_ws s)) as [v r| | |];
    try reflexivity.
  cbn [rest_of]. rewrite ws_skip_ws. now destruct (skip_ws r).
Qed.

(** [json.loads] accepts exactly the texts of the grammar of RFC 8259
    extended with the names [NaN], [Infinity] and [-Infinity]. *)
Theorem json_loads_accepts (s : str) :
  json_text true s = true <-> exists v, json_loads s = Ok v.
Proof.
  rewrite json_text_decode. unfold json_loads.
  assert (H : match decode (loads_fuel s) s with Scanned _ _ => true | _ => false end = true <->
              exists v, match decode (loads_fuel s) s with
                        | Scanned obj _ => Ok obj
                        | StopIteration | OutOfFuel =>
                            Raise (JSONDecodeError ExpectingValue)
                        | DecodeError m => Raise (JSONDecodeError m)
                        end = Ok v).
  { destruct (decode (loads_fuel s) s) as [v r| | |]; split;
      try discriminate; try (intros [? ?]; discriminate); eauto. }
  destruct s as [|[|p|p] s']; try exact H.
  repeat (destruct p as [p|p|]; try exact H).
  split; [|intros [? ?]; discriminate].
  rewrite <- json_text_decode. discriminate.
Qed.

End Values.

(** The grammar proper is part of the extended one. *)
Section Strict.
Variables strict extended : str -> option str.
Hypothesis strict_extended :
  forall s r, strict s = Some r -> extended s = Some r.

Lemma elements_extended (fuel : nat) :
  forall s r, elements strict fuel s = Some r -> elements extended fuel s = Some r.
Proof.
  induction fuel as [|fuel IH]; intros s r; [discriminate|].
  cbn [elements].
  destruct (strict s) as [s1|] eqn:E; [|discriminate].
  rewrite (strict_extended _ _ E).
  destruct (ws s1) as [|c s2]; [discriminate|].
  destruct (c =? 93); [exact (fun H => H)|].
  destruct (c =? 44); [apply IH | discriminate].
Qed.

Lemma members_extended (fuel : nat) :
  forall s r, members strict fuel s = Some r -> members extended fuel s = Some r.
Proof.
  induction fuel as [|fuel IH]; intros s r; [discriminate|].
  cbn [members].
  destruct (string s) as [s1|]; [|discriminate].
  destruct (ws s1) as [|c s2]; [discriminate|].
  destruct (c =? 58); [|discriminate].
  destruct (strict (ws s2)) as [s3|] eqn:E; [|discriminate].
  rewrite (strict_extended _ _ E).
  destruct (ws s3) as [|c' s4]; [discriminate|].
  destruct (c' =? 125); [exact (fun H => H)|].
  destruct (c' =? 44); [apply IH | discriminate].
Qed.

End Strict.

Lemma value_extended (fuel : nat) :
  forall s r, value false fuel s = Some r -> value true fuel s = Some r.
Proof.
  induction fuel as [|fuel IH]; intros s r; [discriminate|].
  destruct s as [|c s1]; [discriminate|].
  cbn [value].
  destruct (c =? 123).
  { unfold object. destruct (one_of [125] (ws s1)); [exact (fun H => H)|].
    now apply members_extended. }
  destruct (c =? 91).
  { unfold array. destruct (one_of [93] (ws s1)); [exact (fun H => H)|].
    now apply elements_extended. }
  destruct (c =? 34); [exact (fun H => H)|].
  repeat match goal with
         | |- context [match ?x with Some _ => _ | None => _ end] =>
             destruct x; [exact (fun H => H)|]
         end.
  discriminate.
Qed.

(** Every JSON text is accepted by the extended grammar. *)
Lemma json_text_extended (s : str) :
  json_text false s = true -> json_text true s = true.
Proof.
  unfold json_text.
  destruct (value false (S (length s)) (ws s)) as [r|] eqn:E; [|discriminate].
  now rewrite (value_extended _ _ _ E).
Qed.

End Grammar.

(** ** The script *)

Section Script.
Context {FM : FloatModel}.

Lemma argc_two (prog arg : str) (rest : list str) :
  (Z.of_nat (length (prog :: arg :: rest)) <? 2) = false.
Proof. apply Z.ltb_ge. cbn [length]. lia. Qed.

(** With at least one argument, [main] goes on to line 10. *)
Ltac run_script :=
  unfold run, main, bind, eval, ret, print, sys_exit, argv_item;
  rewrite argc_two; cbn [nth_error].

Lemma json_dumps_result (v : pyval) :
  json_dumps (PyDict [(lit "result", v)]) = result_object (json_dumps v).
Proof. cbn. unfold result_object. cbn. now rewrite <- ?app_assoc. Qed.

(** The exceptions the steps of the script can raise. *)
Lemma json_loads_raises (s : str) (e : exn) :
  json_loads s = Raise e -> exists m, e = JSONDecodeError m.
Proof.
  unfold json_loads.
  assert (H : match decode (loads_fuel s) s with
              | Scanned obj _ => Ok obj
              | StopIteration | OutOfFuel => Raise (JSONDecodeError ExpectingValue)
              | DecodeError m => Raise (JSONDecodeError m)
              end = Raise e -> exists m, e = JSONDecodeError m).
  { destruct (decode (loads_fuel s) s); intros [= <-]; eauto. }
  destruct s as [|[|p|p] s']; try exact H.
  repeat (destruct p as [p|p|]; try exact H). intros [= <-]. eauto.
Qed.

Lemma py_get_raises (input_data : pyval) (key : str) (default : pyval) (e : exn) :
  py_get input_data key default = Raise e -> e = AttributeError.
Proof.
  destruct input_data; cbn; try (now intros [= <-]).
  destruct (dict_lookup entries key); discriminate.
Qed.

Lemma transform_raises (operation text : pyval) (e : exn) :
  transform operation text = Raise e -> e = AttributeError \/ e = TypeError.
Proof.
  unfold transform.
  destruct (py_eq_str operation (lit "upper"));
    [destruct text; cbn; intros [= <-]; auto|].
  destruct (py_eq_str operation (lit "lower"));
    [destruct text; cbn; intros [= <-]; auto|].
  destruct (py_eq_str operation (lit "reverse"));
    [destruct text; cbn; intros [= <-]; auto|].
  discriminate.
Qed.

(** What the script does once it has an argument: lines 10 to 24. *)
Lemma run_with_argument (prog arg : str) (rest : list str) :
  run (prog :: arg :: rest) =
  match json_loads arg with
  | Raise e => died e
  | Ok input_data =>
      match py_get input_data (lit "text") (PyStr (lit "")) with
      | Raise e => died e
      | Ok text =>
          match py_get input_data (lit "operation") (PyStr (lit "upper")) with
          | Raise e => died e
          | Ok operation =>
              match transform operation text with
              | Raise e => died e
              | Ok result => printed (result_object (json_dumps result))
              end
          end
      end
  end.
Proof.
  run_script.
  destruct (json_loads arg) as [input_data|e] eqn:El;
    [|apply json_loads_raises in El as [m ->]; reflexivity].
  destruct (py_get input_data (lit "text") (PyStr (lit ""))) as [text|e] eqn:Et;
    [|apply py_get_raises in Et as ->; reflexivity].
  destruct (py_get input_data (lit "operation") (PyStr (lit "upper")))
    as [operation|e] eqn:Eo;
    [|apply py_get_raises in Eo as ->; reflexivity].
  destruct (transform operation text) as [result|e] eqn:Er;
    [|apply transform_raises in Er as [-> | ->]; reflexivity].
  rewrite json_dumps_result. reflexivity.
Qed.

Lemma dict_lookup_set_same (d : list (str * pyval)) (k : str) (v : pyval) :
  dict_lookup (dict_set d k v) k = Some v.
Proof.
  induction d as [|[k' v'] d IH]; cbn.
  - now rewrite str_eqb_refl.
  - destruct (str_eqb k k') eqn:E; cbn; rewrite E; [reflexivity | exact IH].
Qed.

Lemma dict_lookup_set_other (d : list (str * pyval)) (k k' : str) (v : pyval) :
  k <> k' -> dict_lookup (dict_set d k v) k' = dict_lookup d k'.
Proof.
  intros Hk. induction d as [|[k0 v0] d IH]; cbn.
  - rewrite str_eqb_neq; [reflexivity | congruence].
  - destruct (str_eqb_spec k k0) as [->|Hn]; cbn.
    + rewrite (str_eqb_neq k' k0); [reflexivity | congruence].
    + destruct (str_eqb k' k0); [reflexivity | exact IH].
Qed.

(** C1: a request with a string text and one of the three operations
    prints the line [{"result": r}] and ends with status 0, where [r] is
    [text.upper()], [text.lower()], or the code points of the text in
    reverse order. *)
Theorem known_operation_output
    (prog arg : str) (rest : list str) (input_data : pyval) (s op : str) :
  json_loads arg = Ok input_data ->
  py_get input_data (lit "text") (PyStr (lit "")) = Ok (PyStr s) ->
  py_get input_data (lit "operation") (PyStr (lit "upper")) = Ok (PyStr op) ->
  (op = lit "upper" ->
   run (prog :: arg :: rest) =
   printed (result_object (encode_basestring_ascii (str_upper s)))) /\
  (op = lit "lower" ->
   run (prog :: arg :: rest) =
   printed (result_object (encode_basestring_ascii (str_lower s)))) /\
  (op = lit "reverse" ->
   run (prog :: arg :: rest) =
   printed (result_object (encode_basestring_ascii (rev s)))).
Proof.
  intros Hl Ht Ho.
  repeat split; intros ->; rewrite run_with_argument, Hl, Ht, Ho; cbn;
    now rewrite ?slice_reversed_rev.
Qed.

(** C2: an operation string other than the three known ones is no error:
    the transform returns the text as it is, and the script prints it. *)
Theorem unknown_operation_identity
    (prog arg : str) (rest : list str) (input_data : pyval) (s op : str) :
  json_loads arg = Ok input_data ->
  py_get input_data (lit "text") (PyStr (lit "")) = Ok (PyStr s) ->
  py_get input_data (lit "operation") (PyStr (lit "upper")) = Ok (PyStr op) ->
  op <> lit "upper" -> op <> lit "lower" -> op <> lit "reverse" ->
  transform (PyStr op) (PyStr s) = Ok (PyStr s) /\
  run (prog :: arg :: rest) =
  printed (result_object (encode_basestring_ascii s)).
Proof.
  intros Hl Ht Ho Hu Hw Hr.
  assert (Hid : transform (PyStr op) (PyStr s) = Ok (PyStr s)).
  { unfold transform, py_eq_str. now rewrite !str_eqb_neq. }
  split; [exact Hid|].
  now rewrite run_with_argument, Hl, Ht, Ho, Hid.
Qed.

(** C4: without an argument the script prints the usage line on standard
    error and leaves through [sys.exit(1)] on line 8, before the line
    that parses; standard output stays empty and the status is 1. *)
Theorem no_argument_usage (prog : str) :
  let usage := ErrText (lit "Usage: " ++ prog ++ lit " <json_input>" ++ [10]) in
  main [prog] {| stdout := []; stderr := [] |} =
    (Raise (SystemExit 1), {| stdout := []; stderr := [usage] |}) /\
  run [prog] = {| out := []; err := [usage]; exit_status := 1 |}.
Proof.
  split; unfold run, main, bind, eval, print_stderr, sys_exit, argv_item; cbn;
    now rewrite <- !app_assoc.
Qed.

(** C5: a request without [text] behaves as the same request with the
    text [""], and a request without [operation] as the same request with
    the operation ["upper"]; the two scenarios of the specification run
    as it says. *)
Theorem missing_fields_default
    (prog arg : str) (rest : list str) (d : list (str * pyval)) :
  json_loads arg = Ok (PyDict d) ->
  (dict_lookup d (lit "text") = None ->
   forall arg',
     json_loads arg' = Ok (PyDict (dict_set d (lit "text") (PyStr (lit "")))) ->
     run (prog :: arg :: rest) = run (prog :: arg' :: rest)) /\
  (dict_lookup d (lit "operation") = None ->
   forall arg',
     json_loads arg' =
       Ok (PyDict (dict_set d (lit "operation") (PyStr (lit "upper")))) ->
     run (prog :: arg :: rest) = run (prog :: arg' :: rest)) /\
  run [prog; object_text [(quoted "text", quoted "Hello")]] =
    printed (result_object (quoted "HELLO")) /\
  run [prog; object_text [(quoted "operation", quoted "reverse")]] =
    printed (result_object (quoted "")).
Proof.
  intros Hl. repeat split.
  - intros Hm arg' Hl'. rewrite !run_with_argument, Hl, Hl'. cbn [py_get].
    rewrite Hm, dict_lookup_set_same, dict_lookup_set_other; [reflexivity|].
    discriminate.
  - intros Hm arg' Hl'. rewrite !run_with_argument, Hl, Hl'. cbn [py_get].
    rewrite Hm, dict_lookup_set_same, dict_lookup_set_other; [reflexivity|].
    discriminate.
Qed.

(** C8: arguments after the first are not read.  [main] runs the same
    with them as without, whatever the streams hold, so the process is
    the one the first argument alone gives: same standard output, same
    standard error, same status. *)
Theorem extra_arguments_ignored (prog arg : str) (rest : list str) :
  (forall st, main (prog :: arg :: rest) st = main [prog; arg] st) /\
  run (prog :: arg :: rest) = run [prog; arg].
Proof.
  assert (Hm : forall st, main (prog :: arg :: rest) st = main [prog; arg] st).
  { intro st. unfold main, bind. now rewrite !argc_two. }
  split; [exact Hm|].
  unfold run. now rewrite Hm.
Qed.

(** C9: when the argument is JSON but not an object, [input_data.get]
    raises [AttributeError]: nothing is printed on standard output, the
    traceback goes to standard error and the status is 1. *)
Theorem non_object_dies
    (prog arg : str) (rest : list str) (input_data : pyval) :
  json_loads arg = Ok input_data ->
  (forall d, input_data <> PyDict d) ->
  run (prog :: arg :: rest) = died AttributeError.
Proof.
  intros Hl Hd. rewrite run_with_argument, Hl.
  destruct input_data; try reflexivity. now destruct (Hd entries).
Qed.

(** C10: a text [v] that is not a string is printed unchanged under an
    operation the script does not know, while under ["upper"] and
    ["lower"] the method call raises [AttributeError] and the process
    dies. *)
Theorem non_string_text
    (prog arg : str) (rest : list str) (input_data v operation : pyval) :
  json_loads arg = Ok input_data ->
  py_get input_data (lit "text") (PyStr (lit "")) = Ok v ->
  py_get input_data (lit "operation") (PyStr (lit "upper")) = Ok operation ->
  (forall s, v <> PyStr s) ->
  (operation <> PyStr (lit "upper") -> operation <> PyStr (lit "lower") ->
   operation <> PyStr (lit "reverse") ->
   run (prog :: arg :: rest) = printed (result_object (json_dumps v))) /\
  (operation = PyStr (lit "upper") \/ operation = PyStr (lit "lower") ->
   run (prog :: arg :: rest) = died AttributeError).
Proof.
  intros Hl Ht Ho Hv. rewrite run_with_argument, Hl, Ht, Ho. split.
  - intros Hu Hw Hr.
    assert (E : forall name, operation <> PyStr name ->
                  py_eq_str operation name = false).
    { intros name Hn. destruct operation; try reflexivity. cbn.
      apply str_eqb_neq. congruence. }
    unfold transform. now rewrite !E.
  - intros [-> | ->]; cbn; destruct v; try reflexivity; now destruct (Hv s).
Qed.

Lemma rejected_argument_dies (prog arg : str) (rest : list str) (e : exn) :
  json_loads arg = Raise e ->
  (exists m, e = JSONDecodeError m) /\
  run (prog :: arg :: rest) = died e.
Proof.
  intros Hl. split; [now apply json_loads_raises in Hl|].
  now rewrite run_with_argument, Hl.
Qed.

(** C3, amended: an argument that is not a JSON text, even when the
    names [NaN], [Infinity] and [-Infinity] are taken as values, is
    fatal: nothing is written on standard output, standard error holds a
    diagnostic and the exit status is not zero. *)
Theorem malformed_argument_dies (prog arg : str) (rest : list str) :
  RFC8259.json_text true arg = false ->
  out (run (prog :: arg :: rest)) = [] /\
  err (run (prog :: arg :: rest)) <> [] /\
  exit_status (run (prog :: arg :: rest)) <> 0.
Proof.
  intros Hj. destruct (json_loads arg) as [v|e] eqn:El.
  - assert (Ha : RFC8259.json_text true arg = true)
      by (apply Grammar.json_loads_accepts; eauto).
    congruence.
  - destruct (rejected_argument_dies prog arg rest e El) as [_ ->].
    cbn [died out err exit_status]. repeat split; discriminate.
Qed.

End Script.

(** ** The scenarios of the specification *)

(** Scenarios 1 to 3: ["Hello"] under the three operations. *)
Lemma known_operation_output_witness :
  run (FM := literal_floats) [script_path; request "Hello" "upper"] =
    printed (result_object (quoted "HELLO")) /\
  run (FM := literal_floats) [script_path; request "Hello" "lower"] =
    printed (result_object (quoted "hello")) /\
  run (FM := literal_floats) [script_path; request "Hello" "reverse"] =
    printed (result_object (quoted "olleH")).
Proof.
  split; [|split].
  - apply (known_operation_output (FM := literal_floats) script_path
             (request "Hello" "upper") [] _ (lit "Hello") (lit "upper")
             eq_refl eq_refl eq_refl).
    reflexivity.
  - apply (known_operation_output (FM := literal_floats) script_path
             (request "Hello" "lower") [] _ (lit "Hello") (lit "lower")
             eq_refl eq_refl eq_refl).
    reflexivity.
  - apply (known_operation_output (FM := literal_floats) script_path
             (request "Hello" "reverse") [] _ (lit "Hello") (lit "reverse")
             eq_refl eq_refl eq_refl).
    reflexivity.
Defined.

(** Scenario 6, and the empty operation. *)
Lemma unknown_operation_identity_witness :
  run (FM := literal_floats) [script_path; request "Hi" "bogus"] =
    printed (result_object (quoted "Hi")) /\
  run (FM := literal_floats) [script_path; request "Hi" ""] =
    printed (result_object (quoted "Hi")).
Proof.
  split.
  - apply (unknown_operation_identity (FM := literal_floats) script_path
             (request "Hi" "bogus") [] _ (lit "Hi") (lit "bogus")
             eq_refl eq_refl eq_refl); discriminate.
  - apply (unknown_operation_identity (FM := literal_floats) script_path
             (request "Hi" "") [] _ (lit "Hi") (lit "")
             eq_refl eq_refl eq_refl); discriminate.
Defined.

(** The empty object runs as the object with either default written out. *)
Lemma missing_fields_default_witness :
  run (FM := literal_floats) [script_path; lit "{}"] =
    run (FM := literal_floats) [script_path; object_text [(quoted "text", quoted "")]] /\
  run (FM := literal_floats) [script_path; lit "{}"] =
    run (FM := literal_floats)
      [script_path; object_text [(quoted "operation", quoted "upper")]].
Proof.
  pose proof (missing_fields_default (FM := literal_floats) script_path
                (lit "{}") [] [] eq_refl) as (Ht & Ho & _).
  split.
  - apply Ht; reflexivity.
  - apply Ho; reflexivity.
Defined.

(** An array, a number, a string and [null] as the argument. *)
Lemma non_object_dies_witness :
  run (FM := literal_floats) [script_path; lit "[1, 2]"] = died AttributeError /\
  run (FM := literal_floats) [script_path; lit "42"] = died AttributeError /\
  run (FM := literal_floats) [script_path; quoted "text"] = died AttributeError /\
  run (FM := literal_floats) [script_path; lit "null"] = died AttributeError.
Proof.
  repeat apply conj;
    (eapply (non_object_dies (FM := literal_floats)); [reflexivity | discriminate]).
Defined.

(** A list as the text: printed as it is under an unknown operation, fatal
    under ["lower"]. *)
Lemma non_string_text_witness :
  run (FM := literal_floats)
    [script_path; object_text [(quoted "text", lit "[1, null]");
                               (quoted "operation", quoted "keep")]] =
    printed (result_object (lit "[1, null]")) /\
  run (FM := literal_floats)
    [script_path; object_text [(quoted "text", lit "[1, null]");
                               (quoted "operation", quoted "lower")]] =
    died AttributeError.
Proof.
  split.
  - pose proof (non_string_text (FM := literal_floats) script_path
                  (object_text [(quoted "text", lit "[1, null]");
                                (quoted "operation", quoted "keep")])
                  [] _ _ _ eq_refl eq_refl eq_refl) as H.
    apply H; discriminate.
  - pose proof (non_string_text (FM := literal_floats) script_path
                  (object_text [(quoted "text", lit "[1, null]");
                                (quoted "operation", quoted "lower")])
                  [] _ _ _ eq_refl eq_refl eq_refl) as H.
    apply H; [discriminate | now right].
Defined.

(** The malformed argument [{bad] of the specification. *)
Lemma malformed_argument_dies_witness :
  RFC8259.json_text true (lit "{bad") = false /\
  out (run (FM := literal_floats) [script_path; lit "{bad"]) = [] /\
  err (run (FM := literal_floats) [script_path; lit "{bad"]) <> [] /\
  exit_status (run (FM := literal_floats) [script_path; lit "{bad"]) <> 0.
Proof.
  split; [reflexivity|].
  apply (malformed_argument_dies (FM := literal_floats) script_path (lit "{bad") []).
  reflexivity.
Defined.

(** C3 as the specification states it fails: this argument is not a JSON
    text, and only because [NaN] is not a JSON value; [json.loads] accepts
    it, and the script prints a result and ends with status 0. *)
Lemma malformed_argument_counterexample :
  RFC8259.json_text false nan_request = false /\
  RFC8259.json_text true nan_request = true /\
  run (FM := literal_floats) [script_path; nan_request] =
    printed (result_object (quoted "")) /\
  exit_status (run (FM := literal_floats) [script_path; nan_request]) = 0.
Proof. repeat apply conj; reflexivity. Qed.

(** * Further properties *)

(** ** Escapes and surrogate pairs *)

Lemma land_high_low (a y k : Z) :
  0 <= k -> 0 <= y < 2 ^ k -> Z.land (a * 2 ^ k) y = 0.
Proof.
  intros Hk [Hy0 Hy1]. apply Z.bits_inj'. intros i Hi.
  rewrite Z.land_spec, Z.bits_0.
  destruct (Z.lt_ge_cases i k) as [Hlt|Hge].
  - now rewrite Z.mul_pow2_bits_low.
  - rewrite andb_comm.
    destruct (Z.eq_dec y 0) as [->|Hn]; [now rewrite Z.bits_0|].
    rewrite Z.bits_above_log2; [reflexivity | assumption |].
    apply Z.log2_lt_pow2; [lia|].
    apply Z.lt_le_trans with (2 ^ k); [assumption|].
    apply Z.pow_le_mono_r; lia.
Qed.

Lemma lor_high_low (a y k : Z) :
  0 <= k -> 0 <= y < 2 ^ k -> Z.lor (a * 2 ^ k) y = a * 2 ^ k + y.
Proof.
  intros Hk Hy. pose proof (Z.add_lor_land (a * 2 ^ k) y) as H.
  rewrite land_high_low in H by assumption. lia.
Qed.

Lemma hex_digit_hex_char (d : Z) :
  0 <= d < 16 -> hex_digit (hex_char d) = Some d.
Proof.
  intros Hd.
  assert (H : d = 0 \/ d = 1 \/ d = 2 \/ d = 3 \/ d = 4 \/ d = 5 \/ d = 6 \/
              d = 7 \/ d = 8 \/ d = 9 \/ d = 10 \/ d = 11 \/ d = 12 \/
              d = 13 \/ d = 14 \/ d = 15) by lia.
  repeat (destruct H as [-> | H]; [reflexivity|]). now subst.
Qed.

(** The four digits [u_escape] writes are read back as the number. *)
Lemma decode_u_escape (n : Z) :
  0 <= n < 65536 ->
  decode_uXXXX (hex_char (Z.shiftr n 12 mod 16)) (hex_char (Z.shiftr n 8 mod 16))
               (hex_char (Z.shiftr n 4 mod 16)) (hex_char (n mod 16)) = Some n.
Proof.
  intros Hn. unfold decode_uXXXX.
  rewrite !Z.shiftr_div_pow2 by lia.
  change (2 ^ 12) with 4096. change (2 ^ 8) with 256. change (2 ^ 4) with 16.
  rewrite !hex_digit_hex_char by (apply Z.mod_pos_bound; lia).
  f_equal. Z.div_mod_to_equations. lia.
Qed.

(** The two halves [escape_ascii] writes for a code point above U+FFFF
    are a high and a low surrogate, and joining them gives the code point
    back. *)
Lemma surrogate_halves (c : Z) :
  65536 <= c <= 1114111 ->
  let n := c - 65536 in
  let hi := Z.lor 55296 (Z.land (Z.shiftr n 10) 1023) in
  let lo := Z.lor 56320 (Z.land n 1023) in
  is_high_surrogate hi = true /\ is_low_surrogate lo = true /\
  65536 + Z.lor (Z.shiftl (hi - 55296) 10) (lo - 56320) = c.
Proof.
  intros Hc n hi lo.
  assert (Hn : 0 <= n < 1048576) by (subst n; lia).
  assert (Hhi : hi = 55296 + n / 1024).
  { subst hi. change 1023 with (Z.ones 10).
    rewrite Z.land_ones, Z.shiftr_div_pow2 by lia.
    change (2 ^ 10) with 1024.
    rewrite Z.mod_small by (split; [apply Z.div_pos; lia | apply Z.div_lt_upper_bound; lia]).
    change 55296 with (54 * 2 ^ 10) at 1.
    rewrite lor_high_low; [reflexivity | lia |].
    change (2 ^ 10) with 1024.
    split; [apply Z.div_pos; lia | apply Z.div_lt_upper_bound; lia]. }
  assert (Hlo : lo = 56320 + n mod 1024).
  { subst lo. change 1023 with (Z.ones 10).
    rewrite Z.land_ones by lia. change (2 ^ 10) with 1024.
    change 56320 with (55 * 2 ^ 10) at 1.
    rewrite lor_high_low; [reflexivity | lia |].
    change (2 ^ 10) with 1024. apply Z.mod_pos_bound; lia. }
  assert (Hq : 0 <= n / 1024 < 1024)
    by (split; [apply Z.div_pos; lia | apply Z.div_lt_upper_bound; lia]).
  assert (Hr : 0 <= n mod 1024 < 1024) by (apply Z.mod_pos_bound; lia).
  rewrite Hhi, Hlo. unfold is_high_surrogate, is_low_surrogate.
  repeat split; try lia.
  replace (55296 + n / 1024 - 55296) with (n / 1024) by lia.
  replace (56320 + n mod 1024 - 56320) with (n mod 1024) by lia.
  rewrite Z.shiftl_mul_pow2 by lia.
  rewrite lor_high_low by (change (2 ^ 10) with 1024; lia).
  change (2 ^ 10) with 1024. subst n.
  pose proof (Z.div_mod (c - 65536) 1024). lia.
Qed.


Lemma escape_ascii_shape (c : codepoint) :
  is_code_point c = true -> escape_shape c (escape_ascii c).
Proof.
  unfold is_code_point. intros Hc. apply andb_prop in Hc as [H0 H1].
  apply Z.leb_le in H0, H1. unfold escape_ascii.
  destruct (Z.eqb_spec c 92) as [->|H92];
    [now apply (shape_letter 92 92)|].
  destruct (Z.eqb_spec c 34) as [->|H34];
    [now apply (shape_letter 34 34)|].
  destruct ((32 <=? c) && (c <=? 126)) eqn:Hp.
  { apply andb_prop in Hp as [Hp1 Hp2]. apply Z.leb_le in Hp1, Hp2.
    apply shape_plain; try assumption;
      [unfold is_high_surrogate | unfold is_low_surrogate];
      apply andb_false_iff; left; apply Z.leb_gt; lia. }
  destruct (Z.eqb_spec c 8) as [->|H8]; [now apply (shape_letter 8 98)|].
  destruct (Z.eqb_spec c 12) as [->|H12]; [now apply (shape_letter 12 102)|].
  destruct (Z.eqb_spec c 10) as [->|H10]; [now apply (shape_letter 10 110)|].
  destruct (Z.eqb_spec c 13) as [->|H13]; [now apply (shape_letter 13 114)|].
  destruct (Z.eqb_spec c 9) as [->|H9]; [now apply (shape_letter 9 116)|].
  destruct (Z.ltb_spec c 65536) as [Hlt|Hge].
  - apply shape_u. apply decode_u_escape. lia.
  - destruct (surrogate_halves c) as (Hh & Hl & Hj); [lia|].
    cbv zeta in Hh, Hl, Hj.
    unfold is_high_surrogate, is_low_surrogate in Hh, Hl.
    apply andb_prop in Hh as [Hh1 Hh2]. apply andb_prop in Hl as [Hl1 Hl2].
    apply Z.leb_le in Hh1, Hh2, Hl1, Hl2.
    cbn [u_escape app].
    eapply shape_pair.
    + apply decode_u_escape. lia.
    + apply decode_u_escape. lia.
    + unfold is_high_surrogate. apply andb_true_iff. split; now apply Z.leb_le.
    + unfold is_low_surrogate. apply andb_true_iff. split; now apply Z.leb_le.
    + exact Hj.
    + unfold is_high_surrogate. apply andb_false_iff. right. apply Z.leb_gt. lia.
    + unfold is_low_surrogate. apply andb_false_iff. right. apply Z.leb_gt. lia.
Qed.

Lemma join_surrogates_cons (c : codepoint) (t : str) :
  is_high_surrogate c = false ->
  join_surrogates (c :: t) = c :: join_surrogates t.
Proof. intros H. destruct t as [|l t']; cbn; now rewrite ?H. Qed.

(** Reading one escaped code point that is not a high surrogate. *)
Lemma scanstring_step (c : codepoint) (sh : str) :
  escape_shape c sh -> is_high_surrogate c = false ->
  forall chunks x tl,
    scanstring chunks (sh ++ x :: tl) = scanstring (c :: chunks) (x :: tl).
Proof.
  intros Hsh Hc chunks x tl. destruct Hsh as
    [H34 H92 H32 _ _ | e He Hb _ _ | a b c' d Hd
    | a b c' d a2 b2 c2 d2 hi lo Hd1 Hd2 Hhi Hlo Hj _ _].
  - cbn [app scanstring].
    apply Z.eqb_neq in H34, H92. rewrite H34, H92.
    now replace (c <? 32) with false by lia.
  - cbn [app scanstring Z.eqb Pos.eqb].
    apply Z.eqb_neq in He. now rewrite He, Hb.
  - cbn [app scanstring Z.eqb Pos.eqb]. rewrite Hd, Hc. cbn [andb].
    now destruct tl as [|? [|? [|? [|? [|? [|? ?]]]]]].
  - cbn [app scanstring Z.eqb Pos.eqb]. rewrite Hd1, Hhi, Hd2, Hlo.
    cbn [andb]. now rewrite Hj.
Qed.

(** Reading an escaped high surrogate: what follows decides. *)
Lemma scanstring_high (h : codepoint) (a b c' d : codepoint) :
  decode_uXXXX a b c' d = Some h -> is_high_surrogate h = true ->
  forall (l : codepoint) (sh : str),
    escape_shape l sh ->
    forall chunks x tl,
      scanstring chunks ([92; 117; a; b; c'; d] ++ sh ++ x :: tl) =
      if is_low_surrogate l
      then scanstring (65536 + Z.lor (Z.shiftl (h - 55296) 10) (l - 56320)
                       :: chunks) (x :: tl)
      else scanstring (h :: chunks) (sh ++ x :: tl).
Proof.
  intros Hd Hh l sh Hsh chunks x tl. destruct Hsh as
    [H34 H92 H32 _ Hnl | e He Hb _ Hnl | a2 b2 c2 d2 Hd2
    | a2 b2 c2 d2 a3 b3 c3 d3 hi lo Hd2 Hd3 Hhi Hlo Hj _ Hnl].
  - rewrite Hnl. cbn [app scanstring Z.eqb Pos.eqb]. rewrite Hd.
    apply Z.eqb_neq in H92. rewrite H92, andb_false_r. cbn [andb].
    now destruct tl as [|? [|? [|? [|? [|? ?]]]]].
  - rewrite Hnl. cbn [app scanstring Z.eqb Pos.eqb]. rewrite Hd.
    apply Z.eqb_neq in He. rewrite He, andb_false_r.
    now destruct tl as [|? [|? [|? [|? ?]]]].
  - cbn [app scanstring Z.eqb Pos.eqb]. rewrite Hd, Hh, Hd2. cbn [andb].
    reflexivity.
  - rewrite Hnl. cbn [app scanstring Z.eqb Pos.eqb]. rewrite Hd, Hh, Hd2.
    cbn [andb].
    assert (Hl : is_low_surrogate hi = false).
    { unfold is_high_surrogate, is_low_surrogate in *.
      apply andb_prop in Hhi as [_ Hhi]. apply Z.leb_le in Hhi.
      apply andb_false_iff. left. apply Z.leb_gt. lia. }
    now rewrite Hl.
Qed.

Lemma scanstring_high_end (h : codepoint) (a b c' d : codepoint) :
  decode_uXXXX a b c' d = Some h ->
  forall chunks rest,
    scanstring chunks ([92; 117; a; b; c'; d] ++ 34 :: rest) =
    Scanned (rev (h :: chunks)) rest.
Proof.
  intros Hd chunks rest. cbn [app scanstring Z.eqb Pos.eqb]. rewrite Hd.
  rewrite andb_false_r. cbn [andb].
  now destruct rest as [|? [|? [|? [|? [|? [|? ?]]]]]].
Qed.

Lemma encoded_tail (t rest : str) :
  exists x tl, flat_map escape_ascii t ++ 34 :: rest = x :: tl.
Proof. destruct (flat_map escape_ascii t ++ 34 :: rest) eqn:E; eauto.
  now destruct (flat_map escape_ascii t). Qed.

(** Reading back what [encode_basestring_ascii] writes: [scanstring]
    returns the string with every high surrogate that is directly
    followed by a low surrogate joined with it, and stops after the
    closing quotation mark. *)
Lemma scanstring_encoded (r : str) :
  forallb is_code_point r = true ->
  forall chunks rest,
    scanstring chunks (flat_map escape_ascii r ++ 34 :: rest) =
    Scanned (rev chunks ++ join_surrogates r) rest.
Proof.
  remember (length r) as n eqn:Hn.
  assert (Hle : (length r <= n)%nat) by lia. clear Hn.
  revert r Hle. induction n as [|n IH]; intros r Hle Hv chunks rest.
  - destruct r; [|cbn in Hle; lia]. cbn. now rewrite app_nil_r.
  - destruct r as [|c t]; [cbn; now rewrite app_nil_r|].
    cbn [length] in Hle. cbn [forallb] in Hv.
    apply andb_prop in Hv as [Hc Ht].
    pose proof (escape_ascii_shape c Hc) as Hsh.
    cbn [flat_map]. rewrite <- app_assoc.
    destruct (is_high_surrogate c) eqn:Hh.
    + destruct Hsh as [? ? ? Hnh _ | e ? ? Hnh _ | a b c' d Hd
                      | ? ? ? ? ? ? ? ? ? ? ? ? ? ? ? Hnh _];
        try congruence.
      destruct t as [|l t'].
      * cbn [flat_map]. change ([] ++ 34 :: rest) with (34 :: rest).
        rewrite (scanstring_high_end c a b c' d Hd).
        cbn [rev join_surrogates]. reflexivity.
      * cbn [length] in Hle. cbn [forallb] in Ht.
        apply andb_prop in Ht as [Hl Ht'].
        pose proof (escape_ascii_shape l Hl) as Hshl.
        destruct (encoded_tail t' rest) as (x & tl & Etl).
        cbn [flat_map]. rewrite <- app_assoc, Etl.
        rewrite (scanstring_high c a b c' d Hd Hh l _ Hshl).
        cbn [join_surrogates]. rewrite Hh. cbn [andb].
        destruct (is_low_surrogate l).
        -- rewrite <- Etl, IH by (assumption || lia).
           cbn [rev]. now rewrite <- app_assoc.
        -- rewrite <- Etl, app_assoc.
           change (escape_ascii l ++ flat_map escape_ascii t')
             with (flat_map escape_ascii (l :: t')).
           rewrite IH; [| cbn [length]; lia | cbn [forallb]; now rewrite Hl].
           cbn [rev]. now rewrite <- app_assoc.
    + destruct (encoded_tail t rest) as (x & tl & Etl).
      rewrite Etl, (scanstring_step c _ Hsh Hh), <- Etl.
      rewrite IH by (assumption || lia).
      rewrite join_surrogates_cons by assumption.
      cbn [rev]. now rewrite <- app_assoc.
Qed.

(** ** Integers: [int.__repr__] and [int()] *)

Lemma uint_codes_digits (d : Decimal.uint) :
  forallb is_digit (uint_codes d) = true.
Proof. induction d; cbn; auto. Qed.

Lemma digits_value_acc (d : Decimal.uint) :
  forall acc : positive,
    fold_left (fun a c => a * 10 + (c - 48)) (uint_codes d) (Z.pos acc) =
    Z.pos (Pos.of_uint_acc d acc).
Proof.
  induction d; intro acc; cbn [uint_codes NilEmpty.string_of_uint lit
    list_ascii_of_string List.map fold_left Pos.of_uint_acc];
    [reflexivity|..];
    change (fold_left (fun a c => a * 10 + (c - 48))
              (List.map (fun a => Z.of_N (N_of_ascii a))
                        (list_ascii_of_string (NilEmpty.string_of_uint d))))
      with (fold_left (fun a c => a * 10 + (c - 48)) (uint_codes d));
    rewrite <- IHd; f_equal;
    match goal with
    | |- context [Z.of_N (N_of_ascii ?a)] =>
        let v := eval vm_compute in (Z.of_N (N_of_ascii a)) in
        change (Z.of_N (N_of_ascii a)) with v
    end; lia.
Qed.

Lemma digits_value_uint (d : Decimal.uint) :
  digits_value (uint_codes d) = Z.of_N (Pos.of_uint d).
Proof.
  unfold digits_value.
  induction d; cbn [uint_codes NilEmpty.string_of_uint lit
    list_ascii_of_string List.map fold_left Pos.of_uint];
    [reflexivity| exact IHd |..];
    change (fold_left (fun a c => a * 10 + (c - 48))
              (List.map (fun a => Z.of_N (N_of_ascii a))
                        (list_ascii_of_string (NilEmpty.string_of_uint d))))
      with (fold_left (fun a c => a * 10 + (c - 48)) (uint_codes d));
    exact (digits_value_acc d _).
Qed.

Lemma to_uint_head (p : positive) :
  exists c tl,
    uint_codes (Pos.to_uint p) = c :: tl /\ 49 <= c <= 57 /\
    forallb is_digit tl = true.
Proof.
  pose proof (uint_codes_digits (Pos.to_uint p)) as Hd.
  assert (Hn : Decimal.unorm (Pos.to_uint p) = Pos.to_uint p).
  { rewrite <- (DecimalPos.Unsigned.to_of (Pos.to_uint p)).
    now rewrite DecimalPos.Unsigned.of_to. }
  assert (Hz : forall d', Pos.to_uint p <> Decimal.D0 d').
  { intros d' E.
    destruct (Decimal.uint_eq_dec (Decimal.nzhead (Pos.to_uint p)) Decimal.Nil)
      as [Hnil|Hnn].
    - apply DecimalFacts.unorm_0 in Hnil. rewrite Hn in Hnil.
      now apply (DecimalPos.Unsigned.to_uint_nonzero p).
    - rewrite (DecimalFacts.unorm_nzhead _ Hnn) in Hn.
      apply (DecimalFacts.nzhead_nonzero (Pos.to_uint p) d'). congruence. }
  pose proof (DecimalPos.Unsigned.to_uint_nonnil p) as Hnil.
  destruct (Pos.to_uint p) as [|d|d|d|d|d|d|d|d|d|d];
    [congruence | now destruct (Hz d) | ..];
    cbn in Hd |- *; (eexists; eexists; split; [reflexivity|]; split; [lia|assumption]).
Qed.

(** The three shapes of [int.__repr__]. *)
Lemma int_repr_shape (n : Z) :
  exists sign c tl,
    int_repr n = sign ++ c :: tl /\ (sign = [] \/ sign = [45]) /\
    forallb is_digit tl = true /\
    ((c = 48 /\ tl = []) \/ 49 <= c <= 57).
Proof.
  unfold int_repr. destruct n as [|p|p]; cbn [Z.to_int NilZero.string_of_int].
  - exists [], 48, []. cbn. intuition.
  - destruct (to_uint_head p) as (c & tl & E & Hc & Ht).
    exists [], c, tl.
    replace (NilZero.string_of_uint (Pos.to_uint p))
      with (NilEmpty.string_of_uint (Pos.to_uint p)).
    + fold (uint_codes (Pos.to_uint p)). rewrite E. intuition.
    + pose proof (DecimalPos.Unsigned.to_uint_nonnil p). now destruct (Pos.to_uint p).
  - destruct (to_uint_head p) as (c & tl & E & Hc & Ht).
    exists [45], c, tl.
    replace (NilZero.string_of_uint (Pos.to_uint p))
      with (NilEmpty.string_of_uint (Pos.to_uint p)).
    + change (lit (String "-" (NilEmpty.string_of_uint (Pos.to_uint p))))
        with (45 :: uint_codes (Pos.to_uint p)).
      rewrite E. intuition.
    + pose proof (DecimalPos.Unsigned.to_uint_nonnil p). now destruct (Pos.to_uint p).
Qed.

Lemma parse_int_repr (n : Z) : parse_int (int_repr n) = n.
Proof.
  unfold int_repr. destruct n as [|p|p]; cbn [Z.to_int NilZero.string_of_int].
  - reflexivity.
  - replace (NilZero.string_of_uint (Pos.to_uint p))
      with (NilEmpty.string_of_uint (Pos.to_uint p))
      by (pose proof (DecimalPos.Unsigned.to_uint_nonnil p); now destruct (Pos.to_uint p)).
    fold (uint_codes (Pos.to_uint p)).
    destruct (to_uint_head p) as (c & tl & E & Hc & Ht).
    unfold parse_int. rewrite E.
    replace (c =? 45) with false by lia.
    rewrite <- E, digits_value_uint, DecimalPos.Unsigned.of_to. reflexivity.
  - replace (NilZero.string_of_uint (Pos.to_uint p))
      with (NilEmpty.string_of_uint (Pos.to_uint p))
      by (pose proof (DecimalPos.Unsigned.to_uint_nonnil p); now destruct (Pos.to_uint p)).
    change (lit (String "-" (NilEmpty.string_of_uint (Pos.to_uint p))))
      with (45 :: uint_codes (Pos.to_uint p)).
    unfold parse_int. cbn [Z.eqb Pos.eqb].
    rewrite digits_value_uint, DecimalPos.Unsigned.of_to. reflexivity.
Qed.

Lemma span_digits_app (ds rest : str) :
  forallb is_digit ds = true -> number_stops rest = true ->
  span_digits (ds ++ rest) = (ds, rest).
Proof.
  intros Hd Hr. induction ds as [|c ds IH]; cbn [app span_digits].
  - destruct rest as [|x rest']; [reflexivity|].
    cbn [number_stops] in Hr.
    destruct (is_digit x) eqn:Ex; [discriminate|].
    cbn [span_digits]. now rewrite Ex.
  - cbn [forallb] in Hd. apply andb_prop in Hd as [Hc Hd].
    rewrite Hc, (IH Hd). reflexivity.
Qed.

Lemma match_number_int_repr (n : Z) (rest : str) :
  number_stops rest = true ->
  match_number (int_repr n ++ rest) = Some (int_repr n, [], [], rest).
Proof.
  intros Hr.
  destruct (int_repr_shape n) as (sign & c & tl & E & Hs & Ht & Hc).
  rewrite E. unfold match_number.
  assert (Hi : match_integer ((sign ++ c :: tl) ++ rest) =
               Some (sign ++ c :: tl, rest)).
  { unfold match_integer.
    assert (Hd : match c :: tl ++ rest with
                 | [] => None
                 | d :: s2 =>
                     if d =? 48 then Some (sign ++ [48], s2)
                     else if is_digit d
                          then let (ds, r) := span_digits s2 in
                               Some (sign ++ d :: ds, r)
                          else None
                 end = Some (sign ++ c :: tl, rest)).
    { destruct Hc as [[-> ->] | Hc]; [reflexivity|].
      replace (c =? 48) with false by lia.
      replace (is_digit c) with true by (unfold is_digit; lia).
      now rewrite (span_digits_app tl rest Ht Hr). }
    destruct Hs as [-> | ->].
    - cbn [app]. replace (c =? 45) with false by lia. exact Hd.
    - cbn [app Z.eqb Pos.eqb]. exact Hd. }
  rewrite Hi.
  assert (Hf : match_frac rest = ([], rest)).
  { unfold match_frac. destruct rest as [|x rest']; [reflexivity|].
    cbn in Hr. destruct (x =? 46); [|reflexivity].
    rewrite !orb_true_r in Hr. discriminate. }
  assert (He : match_exp rest = ([], rest)).
  { unfold match_exp. destruct rest as [|x rest']; [reflexivity|].
    cbn in Hr. destruct ((x =? 101) || (x =? 69)) eqn:Ex; [|reflexivity].
    rewrite <- orb_assoc, Ex, orb_true_r in Hr. discriminate. }
  now rewrite Hf, He.
Qed.

(** ** [json.loads] reads back what [json.dumps] writes *)

Section RoundTrip.
Context {FM : FloatModel}.

(** Induction on values, with the items of lists and dicts covered. *)
Lemma pyval_nested_ind (P : pyval -> Prop) :
  P PyNone -> (forall b, P (PyBool b)) -> (forall n, P (PyInt n)) ->
  (forall f, P (PyFloat f)) -> (forall s, P (PyStr s)) ->
  (forall items, Forall P items -> P (PyList items)) ->
  (forall entries, Forall (fun kv => P (snd kv)) entries -> P (PyDict entries)) ->
  forall v, P v.
Proof.
  intros HN HB HI HF HS HL HD.
  fix IH 1. intros [ | b | n | f | s | items | entries].
  - exact HN.
  - apply HB.
  - apply HI.
  - apply HF.
  - apply HS.
  - apply HL. induction items as [|x items IHl]; constructor;
      [apply IH | exact IHl].
  - apply HD. induction entries as [|[k x] entries IHl]; constructor;
      [apply IH | exact IHl].
Qed.

Lemma json_dumps_list (items : list pyval) :
  json_dumps (PyList items) =
  91 :: joined (List.map json_dumps items) ++ [93].
Proof.
  cbn [json_dumps]. change (lit "[") with [91]. change (lit "]") with [93].
  cbn [app]. do 2 f_equal.
  induction items as [|x [|y items] IH]; try reflexivity.
  cbn [List.map joined] in *. now rewrite <- IH.
Qed.

Lemma json_dumps_dict (entries : list (str * pyval)) :
  json_dumps (PyDict entries) =
  123 :: fields_text
           (List.map (fun kv : str * pyval =>
                        (encode_basestring_ascii (fst kv), json_dumps (snd kv)))
                     entries) ++ [125].
Proof.
  cbn [json_dumps]. change (lit "{") with [123]. change (lit "}") with [125].
  cbn [app]. do 2 f_equal.
  induction entries as [|[k x] [|[k' y] entries] IH]; try reflexivity.
  cbn [List.map fields_text fst snd] in *. now rewrite <- IH.
Qed.

(** The text of a value starts with an ASCII character that is not
    whitespace. *)
Lemma json_dumps_head (v : pyval) :
  float_free v = true ->
  exists c tl,
    json_dumps v = c :: tl /\ is_ws c = false /\ c <> 65279 /\ c <> 93.
Proof.
  destruct v as [ | [|] | n | f | s | items | entries]; intros Hv;
    try discriminate;
    try (rewrite ?json_dumps_list, ?json_dumps_dict;
         do 2 eexists; split; [reflexivity|];
         split; [reflexivity|split; discriminate]).
  cbn [json_dumps].
  destruct (int_repr_shape n) as (sign & c & tl & E & [-> | ->] & _ & Hc);
    rewrite E; cbn [app]; do 2 eexists;
    (split; [reflexivity|]); unfold is_ws;
    (split; [|split; try discriminate; lia]); try reflexivity.
  destruct Hc as [[-> _]|Hc]; [reflexivity|].
  repeat (apply orb_false_iff; split); apply Z.eqb_neq; lia.
Qed.


(** Rewriting with an equation of the scanner, up to the unfolding of
    [str] and [codepoint]. *)
Ltac scan_with E :=
  match type of E with
  | _ = ?r =>
      match goal with
      | |- context [scan_once ?f ?t] =>
          replace (scan_once f t) with r by (symmetry; exact E)
      end
  end.

Ltac skip_with E :=
  match type of E with
  | _ = ?r =>
      match goal with
      | |- context [skip_ws ?t] =>
          replace (skip_ws t) with r by (symmetry; exact E)
      end
  end.

Lemma skip_ws_head (c : codepoint) (tl : str) :
  is_ws c = false -> skip_ws (c :: tl) = c :: tl.
Proof. intros H. cbn [skip_ws]. now rewrite H. Qed.

Lemma skip_ws_dumps (v : pyval) (rest : str) :
  float_free v = true -> skip_ws (json_dumps v ++ rest) = json_dumps v ++ rest.
Proof.
  intros Hv. destruct (json_dumps_head v Hv) as (c & tl & E & Hc & _).
  rewrite E. cbn [app]. now apply skip_ws_head.
Qed.

Lemma reads_back_int (n : Z) : reads_back (PyInt n).
Proof.
  intros _ fuel rest Hf Hr. cbn [json_dumps read_back] in *.
  pose proof (match_number_int_repr n rest Hr) as Hm.
  pose proof (parse_int_repr n) as Hp.
  destruct (int_repr_shape n) as (sign & c & tl & E & Hs & _ & Hc).
  assert (Hh : exists c0 tl0, int_repr n ++ rest = c0 :: tl0 /\
                 (c0 = 45 \/ 48 <= c0 <= 57)).
  { rewrite E. destruct Hs as [-> | ->]; cbn [app]; do 2 eexists;
      (split; [reflexivity|]); [right; lia | now left]. }
  destruct Hh as (c0 & tl0 & E0 & Hc0).
  destruct fuel as [|fuel];
    [rewrite E in Hf; rewrite length_app in Hf; cbn in Hf; lia|].
  rewrite E0 in *. cbn [scan_once].
  replace (c0 =? 34) with false by lia.
  replace (c0 =? 123) with false by lia.
  replace (c0 =? 91) with false by lia.
  assert (Hpre : forall x p, x <> c0 -> strip_prefix (x :: p) (c0 :: tl0) = None).
  { intros x p Hx. cbn. apply Z.eqb_neq in Hx. now rewrite Hx. }
  change (lit "null") with (110 :: lit "ull").
  change (lit "true") with (116 :: lit "rue").
  change (lit "false") with (102 :: lit "alse").
  rewrite !Hpre by lia. rewrite Hm, Hp. reflexivity.
Qed.

Lemma reads_back_str (s : str) : reads_back (PyStr s).
Proof.
  intros Hv fuel rest Hf Hr. cbn [json_dumps read_back float_free] in *.
  unfold encode_basestring_ascii in *. cbn [app] in *.
  destruct fuel as [|fuel]; [cbn in Hf; lia|].
  cbn [scan_once Z.eqb Pos.eqb].
  rewrite <- app_assoc. cbn [app].
  match goal with
  | |- context [scanstring ?a ?b] =>
      replace (scanstring a b) with (Scanned (join_surrogates s) rest)
        by (symmetry; exact (scanstring_encoded s Hv [] rest))
  end.
  reflexivity.
Qed.

Section Loops.
Variable fuel : nat.

Lemma array_items_dumps (items : list pyval) :
  Forall reads_back items -> forallb float_free items = true ->
  items <> [] ->
  forall k values rest,
    (length (joined (List.map json_dumps items)) <= k)%nat ->
    (length (joined (List.map json_dumps items)) <= fuel)%nat ->
    array_items (scan_once fuel) k values
      (joined (List.map json_dumps items) ++ 93 :: rest) =
    Scanned (rev values ++ List.map read_back items) rest.
Proof.
  induction items as [|x [|y items] IH]; intros HP Hv Hne k values rest Hk Hf;
    [congruence | |].
  - cbn [List.map joined] in *. cbn [forallb] in Hv.
    apply andb_prop in Hv as [Hx _]. inversion_clear HP as [|? ? Px _].
    destruct (json_dumps_head x Hx) as (c & tl & E & _).
    destruct k as [|k]; [rewrite E in Hk; cbn in Hk; lia|].
    cbn [array_items].
    pose proof (Px Hx fuel (93 :: rest) Hf eq_refl) as Ex. scan_with Ex.
    cbn [skip_ws is_ws Z.eqb Pos.eqb orb rev]. reflexivity.
  - cbn [forallb] in Hv. apply andb_prop in Hv as [Hx Hv].
    inversion_clear HP as [|? ? Px HP'].
    change (joined (List.map json_dumps (x :: y :: items)))
      with (json_dumps x ++ lit ", " ++
            joined (List.map json_dumps (y :: items))) in *.
    set (more := joined (List.map json_dumps (y :: items))) in *.
    change (lit ", ") with [44; 32] in *.
    rewrite !length_app in Hk, Hf. cbn [length] in Hk, Hf.
    destruct k as [|k]; [lia|].
    cbn [array_items]. rewrite <- !app_assoc. cbn [app].
    assert (Ex : scan_once fuel (json_dumps x ++ 44 :: 32 :: more ++ 93 :: rest) =
                 Scanned (read_back x) (44 :: 32 :: more ++ 93 :: rest))
      by (apply (Px Hx); [lia | reflexivity]).
    scan_with Ex.
    cbn [skip_ws is_ws Z.eqb Pos.eqb orb].
    assert (Hy : float_free y = true)
      by (cbn [forallb] in Hv; now apply andb_prop in Hv as [Hy _]).
    assert (Hm : skip_ws (more ++ 93 :: rest) = more ++ 93 :: rest).
    { subst more. destruct items as [|z items'].
      - apply (skip_ws_dumps y _ Hy).
      - change (joined (List.map json_dumps (y :: z :: items')))
          with (json_dumps y ++ lit ", " ++
                joined (List.map json_dumps (z :: items'))).
        rewrite <- app_assoc. apply (skip_ws_dumps y _ Hy). }
    skip_with Hm.
    assert (El := IH HP' Hv ltac:(congruence) k (read_back x :: values) rest
                     ltac:(lia) ltac:(lia)).
    fold more in El. cbn [rev List.map] in El |- *.
    rewrite <- app_assoc in El. exact El.
Qed.


Lemma object_pairs_dumps (entries : list (str * pyval)) :
  Forall (fun kv => reads_back (snd kv)) entries ->
  forallb entry_free entries = true ->
  entries <> [] ->
  forall k pairs rest,
    (length (fields_text (List.map entry_text entries)) <= k)%nat ->
    (length (fields_text (List.map entry_text entries)) <= fuel)%nat ->
    exists tl,
      fields_text (List.map entry_text entries) = 34 :: tl /\
      object_pairs (scan_once fuel) k pairs (tl ++ 125 :: rest) =
      Scanned (rev pairs ++ List.map entry_back entries) rest.
Proof.
  induction entries as [|[key x] [|next entries] IH];
    intros HP Hv Hne k pairs rest Hk Hf; [congruence | |].
  - cbn [List.map fields_text entry_text fst snd] in *.
    cbn [forallb entry_free] in Hv. rewrite andb_true_r in Hv.
    apply andb_prop in Hv as [Hkey Hx].
    inversion_clear HP as [|? ? Px _]. cbn [snd] in Px.
    unfold encode_basestring_ascii in *. change (lit ": ") with [58; 32] in *.
    cbn [app] in Hk, Hf |- *. unfold codepoint, str in Hk, Hf.
    cbn [length] in Hk, Hf. rewrite !length_app in Hk, Hf.
    cbn [length] in Hk, Hf.
    eexists. split; [reflexivity|].
    destruct k as [|k]; [lia|]. cbn [object_pairs].
    unfold codepoint, str. repeat (rewrite <- app_assoc; cbn [app]).
    match goal with
    | |- context [scanstring ?a ?b] =>
        replace (scanstring a b)
          with (Scanned (join_surrogates key)
                        (58 :: 32 :: json_dumps x ++ 125 :: rest))
          by (symmetry; exact (scanstring_encoded key Hkey [] _))
    end.
    cbn [skip_ws is_ws Z.eqb Pos.eqb orb].
    pose proof (skip_ws_dumps x (125 :: rest) Hx) as Ew. skip_with Ew.
    assert (Ex : scan_once fuel (json_dumps x ++ 125 :: rest) =
                 Scanned (read_back x) (125 :: rest))
      by (apply (Px Hx); [unfold codepoint, str in *; lia | reflexivity]).
    scan_with Ex. cbn [skip_ws is_ws Z.eqb Pos.eqb orb rev List.map entry_back].
    reflexivity.
  - cbn [forallb] in Hv. apply andb_prop in Hv as [Hkx Hv].
    cbn [entry_free] in Hkx. apply andb_prop in Hkx as [Hkey Hx].
    inversion_clear HP as [|? ? Px HP']. cbn [snd] in Px.
    change (fields_text (List.map entry_text ((key, x) :: next :: entries)))
      with (encode_basestring_ascii key ++ lit ": " ++ json_dumps x ++
            lit ", " ++ fields_text (List.map entry_text (next :: entries)))
      in *.
    set (more := fields_text (List.map entry_text (next :: entries))) in *.
    unfold encode_basestring_ascii in *.
    change (lit ": ") with [58; 32] in *. change (lit ", ") with [44; 32] in *.
    cbn [app] in Hk, Hf |- *. unfold codepoint, str in Hk, Hf.
    cbn [length] in Hk, Hf. rewrite !length_app in Hk, Hf.
    cbn [length] in Hk, Hf. rewrite ?length_app in Hk, Hf.
    cbn [length] in Hk, Hf.
    eexists. split; [reflexivity|].
    destruct k as [|k]; [lia|]. cbn [object_pairs].
    assert (Hk' : (length more <= k)%nat)
      by (unfold codepoint, str in *; lia).
    assert (Hf' : (length more <= fuel)%nat)
      by (unfold codepoint, str in *; lia).
    destruct (IH HP' Hv ltac:(congruence) k
                ((join_surrogates key, read_back x) :: pairs) rest Hk' Hf')
      as (tl & Etl & El).
    rewrite Etl.
    unfold codepoint, str. repeat (rewrite <- app_assoc; cbn [app]).
    match goal with
    | |- context [scanstring ?a ?b] =>
        replace (scanstring a b)
          with (Scanned (join_surrogates key)
                        (58 :: 32 :: json_dumps x ++
                         44 :: 32 :: 34 :: tl ++ 125 :: rest))
          by (symmetry; exact (scanstring_encoded key Hkey [] _))
    end.
    cbn [skip_ws is_ws Z.eqb Pos.eqb orb].
    pose proof (skip_ws_dumps x (44 :: 32 :: 34 :: tl ++ 125 :: rest) Hx) as Ew.
    skip_with Ew.
    assert (Ex : scan_once fuel (json_dumps x ++
                                 44 :: 32 :: 34 :: tl ++ 125 :: rest) =
                 Scanned (read_back x) (44 :: 32 :: 34 :: tl ++ 125 :: rest))
      by (apply (Px Hx); [unfold codepoint, str in *; lia | reflexivity]).
    scan_with Ex. cbn [skip_ws is_ws Z.eqb Pos.eqb orb].
    match goal with
    | |- context [object_pairs ?a ?b ?c ?d] =>
        replace (object_pairs a b c d)
          with (Scanned (rev ((join_surrogates key, read_back x) :: pairs) ++
                         List.map entry_back (next :: entries)) rest)
          by (symmetry; exact El)
    end.
    cbn [rev List.map entry_back]. now rewrite <- app_assoc.
Qed.

End Loops.


(** [scan_once] reads the text of a value back, given fuel for the length
    of the text. *)
Lemma scan_once_dumps (v : pyval) : reads_back v.
Proof.
  induction v as [ | b | n | f | s | items IH | entries IH]
    using pyval_nested_ind.
  - intros _ [|fuel] rest Hf Hr; [cbn in Hf; lia | reflexivity].
  - intros _ [|fuel] rest Hf Hr; [destruct b; cbn in Hf; lia|].
    now destruct b.
  - apply reads_back_int.
  - discriminate.
  - apply reads_back_str.
  - intros Hv fuel rest Hf Hr. rewrite json_dumps_list in *.
    cbn [float_free read_back] in *.
    cbn [length] in Hf. rewrite length_app in Hf. cbn [length] in Hf.
    destruct fuel as [|fuel]; [lia|].
    cbn [app scan_once Z.eqb Pos.eqb]. rewrite <- app_assoc. cbn [app].
    destruct items as [|x items]; [reflexivity|].
    unfold JSONArray.
    assert (Hh : exists c tl,
               joined (List.map json_dumps (x :: items)) ++ 93 :: rest = c :: tl /\
               is_ws c = false /\ c <> 93).
    { cbn [forallb] in Hv. apply andb_prop in Hv as [Hx _].
      destruct (json_dumps_head x Hx) as (c & tl & E & Hw & _ & H93).
      destruct items as [|y items']; cbn [List.map joined]; rewrite E;
        cbn [app]; eauto. }
    destruct Hh as (c & tl & E & Hw & H93).
    assert (Hs : skip_ws (joined (List.map json_dumps (x :: items)) ++ 93 :: rest)
                 = joined (List.map json_dumps (x :: items)) ++ 93 :: rest)
      by (rewrite E; now apply skip_ws_head).
    skip_with Hs. cbv zeta.
    assert (Hp : strip_prefix [93]
                   (joined (List.map json_dumps (x :: items)) ++ 93 :: rest) =
                 None).
    { rewrite E. cbn [strip_prefix]. apply not_eq_sym in H93.
      apply Z.eqb_neq in H93. now rewrite H93. }
    match goal with
    | |- context [strip_prefix ?a ?b] =>
        replace (strip_prefix a b) with (@None str) by (symmetry; exact Hp)
    end.
    pose proof (array_items_dumps fuel (x :: items) IH Hv ltac:(congruence)
                  fuel [] rest ltac:(lia) ltac:(lia)) as El.
    match goal with
    | |- context [array_items ?a ?b ?c ?d] =>
        replace (array_items a b c d)
          with (Scanned (List.map read_back (x :: items)) rest)
          by (symmetry; exact El)
    end.
    reflexivity.
  - intros Hv fuel rest Hf Hr. rewrite json_dumps_dict in *.
    cbn [float_free read_back] in *.
    cbn [length] in Hf. rewrite length_app in Hf. cbn [length] in Hf.
    destruct fuel as [|fuel]; [lia|].
    cbn [app scan_once Z.eqb Pos.eqb]. rewrite <- app_assoc. cbn [app].
    destruct entries as [|e entries]; [reflexivity|].
    assert (Hl : (length (fields_text (List.map entry_text (e :: entries)))
                  <= fuel)%nat)
      by (unfold entry_text, codepoint, str in *; lia).
    destruct (object_pairs_dumps fuel (e :: entries) IH Hv ltac:(congruence)
                fuel [] rest Hl Hl)
      as (tl & Etl & El).
    change (fun kv : str * pyval =>
              (encode_basestring_ascii (fst kv), json_dumps (snd kv)))
      with entry_text.
    rewrite Etl. unfold JSONObject. cbn [app skip_ws is_ws Z.eqb Pos.eqb orb].
    match goal with
    | |- context [object_pairs ?a ?b ?c ?d] =>
        replace (object_pairs a b c d)
          with (Scanned (List.map entry_back (e :: entries)) rest)
          by (symmetry; exact El)
    end.
    reflexivity.
Qed.


Lemma json_loads_no_bom (c : codepoint) (tl : str) :
  c <> 65279 ->
  json_loads (c :: tl) =
  match decode (loads_fuel (c :: tl)) (c :: tl) with
  | Scanned obj _ => Ok obj
  | DecodeError m => Raise (JSONDecodeError m)
  | StopIteration | OutOfFuel => Raise (JSONDecodeError ExpectingValue)
  end.
Proof.
  intros Hc. unfold json_loads.
  destruct c as [|p|p]; try reflexivity.
  repeat (destruct p as [p|p|]; try reflexivity). congruence.
Qed.

(** Whitespace after the text does not matter. *)
Lemma json_loads_dumps_ws (v : pyval) (tail : str) :
  float_free v = true -> forallb is_ws tail = true ->
  json_loads (json_dumps v ++ tail) = Ok (read_back v).
Proof.
  intros Hv Ht.
  destruct (json_dumps_head v Hv) as (c & tl & E & Hw & Hb & _).
  assert (Hs : number_stops tail = true).
  { destruct tail as [|x tail']; [reflexivity|]. cbn [forallb] in Ht.
    apply andb_prop in Ht as [Hx _]. cbn [number_stops].
    unfold is_ws in Hx. unfold is_digit.
    destruct (Z.eqb_spec x 32) as [->|?]; [reflexivity|].
    destruct (Z.eqb_spec x 9) as [->|?]; [reflexivity|].
    destruct (Z.eqb_spec x 10) as [->|?]; [reflexivity|].
    destruct (Z.eqb_spec x 13) as [->|?]; [reflexivity|discriminate]. }
  assert (Hk : skip_ws tail = []).
  { clear Hs. induction tail as [|x tail' IH]; [reflexivity|].
    cbn [forallb] in Ht. apply andb_prop in Ht as [Hx Ht].
    cbn [skip_ws]. rewrite Hx. now apply IH. }
  pose proof (scan_once_dumps v Hv (loads_fuel (json_dumps v ++ tail)) tail)
    as Es.
  assert (Hlen : (length (json_dumps v) <= loads_fuel (json_dumps v ++ tail))%nat)
    by (unfold loads_fuel; rewrite length_app; lia).
  specialize (Es Hlen Hs).
  pose proof (skip_ws_dumps v tail Hv) as Ew.
  assert (Ed : decode (loads_fuel (json_dumps v ++ tail)) (json_dumps v ++ tail)
               = Scanned (read_back v) []).
  { unfold decode. rewrite Ew, Es, Hk. reflexivity. }
  revert Ed. rewrite E. cbn [app]. intros Ed.
  rewrite (json_loads_no_bom c _ Hb), Ed. reflexivity.
Qed.

Lemma dict_set_fresh (d : list (str * pyval)) (k : str) (x : pyval) :
  existsb (fun kv => str_eqb k (fst kv)) d = false ->
  dict_set d k x = d ++ [(k, x)].
Proof.
  induction d as [|[k' x'] d IH]; [reflexivity|].
  cbn [existsb dict_set fst app]. intros H.
  apply orb_false_iff in H as [Hk Hd]. rewrite Hk. now rewrite IH.
Qed.

Lemma dict_of_pairs_unique (entries : list (str * pyval)) :
  unique_keys entries = true -> dict_of_pairs entries = entries.
Proof.
  unfold dict_of_pairs.
  assert (H : forall d,
             unique_keys entries = true ->
             (forall k x, In (k, x) d ->
                existsb (fun kv => str_eqb k (fst kv)) entries = false) ->
             fold_left (fun d kv => dict_set d (fst kv) (snd kv)) entries d =
             d ++ entries).
  { induction entries as [|[k x] entries IH]; intros d Hu Hd;
      [cbn; now rewrite app_nil_r|].
    cbn [fold_left fst snd unique_keys] in *.
    apply andb_prop in Hu as [Hk Hu]. apply negb_true_iff in Hk.
    rewrite dict_set_fresh.
    - rewrite IH; [now rewrite <- app_assoc | assumption |].
      intros k' x' Hin. apply in_app_or in Hin as [Hin | [[= <- <-] | []]].
      + specialize (Hd k' x' Hin). cbn [existsb fst] in Hd.
        now apply orb_false_iff in Hd.
      + exact Hk.
    - destruct (existsb (fun kv => str_eqb k (fst kv)) d) eqn:Ex; [|reflexivity].
      apply existsb_exists in Ex as ([k' x'] & Hin & Heq). cbn [fst] in Heq.
      destruct (str_eqb_spec k k') as [->|]; [|discriminate].
      specialize (Hd k' x' Hin). cbn [existsb fst] in Hd.
      now rewrite str_eqb_refl in Hd. }
  intros Hu. apply (H [] Hu). intros k x [].
Qed.

(** A canonical value reads back as itself. *)
Lemma read_back_canonical (v : pyval) : canonical v = true -> read_back v = v.
Proof.
  induction v as [ | b | n | f | s | items IH | entries IH]
    using pyval_nested_ind; intros Hc; try reflexivity.
  - cbn [canonical read_back] in *.
    now destruct (str_eqb_spec (join_surrogates s) s) as [->|].
  - cbn [canonical read_back] in *. f_equal.
    induction items as [|x items IHl]; [reflexivity|].
    cbn [forallb List.map] in *. apply andb_prop in Hc as [Hx Hc].
    inversion_clear IH as [|? ? Px IH']. now rewrite Px, IHl.
  - cbn [canonical read_back] in *. apply andb_prop in Hc as [Hc Hu].
    f_equal.
    assert (Hm : List.map (fun kv : str * pyval =>
                             let (k, x) := kv in
                             (join_surrogates k, read_back x)) entries = entries).
    { clear Hu. induction entries as [|[k x] entries IHl]; [reflexivity|].
      cbn [forallb List.map] in *. apply andb_prop in Hc as [Hkx Hc].
      apply andb_prop in Hkx as [Hk Hx].
      inversion_clear IH as [|? ? Px IH']. cbn [snd] in Px.
      destruct (str_eqb_spec (join_surrogates k) k) as [->|]; [|discriminate].
      now rewrite Px, IHl. }
    rewrite Hm. now apply dict_of_pairs_unique.
Qed.

End RoundTrip.

(** ** The case conversions on code points and on ASCII *)

Module CaseFacts.
Import Unicode.

Lemma upper_table_code_points :
  forallb (fun kv => forallb is_code_point (snd kv)) upper_table = true.
Proof. vm_compute. reflexivity. Qed.

Lemma lower_table_code_points :
  forallb (fun kv => forallb is_code_point (snd kv)) lower_table = true.
Proof. vm_compute. reflexivity. Qed.

Lemma upper_table_sizes :
  forallb (fun kv => (1 <=? Z.of_nat (length (snd kv))) &&
                     (Z.of_nat (length (snd kv)) <=? 3)) upper_table = true.
Proof. vm_compute. reflexivity. Qed.

Lemma lower_table_sizes :
  forallb (fun kv => (1 <=? Z.of_nat (length (snd kv))) &&
                     (Z.of_nat (length (snd kv)) <=? 2)) lower_table = true.
Proof. vm_compute. reflexivity. Qed.

Lemma to_upper_full_code_points (c : codepoint) :
  is_code_point c = true -> forallb is_code_point (to_upper_full c) = true.
Proof.
  intros Hc. unfold to_upper_full.
  destruct (assoc c upper_table) as [v|] eqn:E.
  - pose proof upper_table_code_points as H. rewrite forallb_forall in H.
    exact (H _ (UnicodeFacts.assoc_In _ _ _ E)).
  - cbn. now rewrite Hc.
Qed.

Lemma to_lower_full_code_points (c : codepoint) :
  is_code_point c = true -> forallb is_code_point (to_lower_full c) = true.
Proof.
  intros Hc. unfold to_lower_full.
  destruct (assoc c lower_table) as [v|] eqn:E.
  - pose proof lower_table_code_points as H. rewrite forallb_forall in H.
    exact (H _ (UnicodeFacts.assoc_In _ _ _ E)).
  - cbn. now rewrite Hc.
Qed.

Lemma to_upper_full_size (c : codepoint) :
  (1 <= length (to_upper_full c) <= 3)%nat.
Proof.
  unfold to_upper_full. destruct (assoc c upper_table) as [v|] eqn:E.
  - pose proof upper_table_sizes as H. rewrite forallb_forall in H.
    specialize (H _ (UnicodeFacts.assoc_In _ _ _ E)). cbn [snd] in H.
    apply andb_prop in H as [H1 H2].
    apply Z.leb_le in H1. apply Z.leb_le in H2.
    unfold codepoint in *. lia.
  - cbn. lia.
Qed.

Lemma to_lower_full_size (c : codepoint) :
  (1 <= length (to_lower_full c) <= 2)%nat.
Proof.
  unfold to_lower_full. destruct (assoc c lower_table) as [v|] eqn:E.
  - pose proof lower_table_sizes as H. rewrite forallb_forall in H.
    specialize (H _ (UnicodeFacts.assoc_In _ _ _ E)). cbn [snd] in H.
    apply andb_prop in H as [H1 H2].
    apply Z.leb_le in H1. apply Z.leb_le in H2.
    unfold codepoint in *. lia.
  - cbn. lia.
Qed.

Lemma ascii_table :
  forallb (fun n => let c := Z.of_nat n in
                    str_eqb (to_upper_full c) [ascii_upper c] &&
                    str_eqb (to_lower_full c) [ascii_lower c] &&
                    negb (c =? 931))
          (seq 0 128) = true.
Proof. vm_compute. reflexivity. Qed.

Lemma ascii_to_full (c : codepoint) :
  is_ascii c = true ->
  to_upper_full c = [ascii_upper c] /\ to_lower_full c = [ascii_lower c] /\
  c <> 931.
Proof.
  intros Hc. unfold is_ascii in Hc. apply andb_prop in Hc as [H0 H1].
  pose proof ascii_table as H. rewrite forallb_forall in H.
  specialize (H (Z.to_nat c)). rewrite Z2Nat.id in H by lia.
  cbv zeta in H.
  assert (Hin : In (Z.to_nat c) (seq 0 128)) by (apply in_seq; lia).
  specialize (H Hin).
  apply andb_prop in H as [H Hs]. apply andb_prop in H as [Hu Hl].
  destruct (str_eqb_spec (to_upper_full c) [ascii_upper c]); [|discriminate].
  destruct (str_eqb_spec (to_lower_full c) [ascii_lower c]); [|discriminate].
  apply negb_true_iff, Z.eqb_neq in Hs. auto.
Qed.

End CaseFacts.

Lemma str_upper_code_points (s : str) :
  forallb is_code_point s = true -> forallb is_code_point (str_upper s) = true.
Proof.
  unfold str_upper. induction s as [|c s IH]; [reflexivity|].
  cbn [forallb flat_map]. intros H. apply andb_prop in H as [Hc Hs].
  rewrite forallb_app. apply andb_true_intro. split.
  - now apply CaseFacts.to_upper_full_code_points.
  - now apply IH.
Qed.

Lemma do_lower_code_points (s : str) :
  forallb is_code_point s = true ->
  forall before, forallb is_code_point (do_lower before s) = true.
Proof.
  induction s as [|c s IH]; [reflexivity|].
  cbn [forallb do_lower]. intros H pre. apply andb_prop in H as [Hc Hs].
  rewrite forallb_app. apply andb_true_intro. split; [|now apply IH].
  unfold lower_ucs4. destruct (c =? 931).
  - unfold handle_capital_sigma.
    match goal with |- context [if ?b then 962 else 963] => destruct b end;
      reflexivity.
  - now apply CaseFacts.to_lower_full_code_points.
Qed.

Lemma str_upper_ascii (s : str) :
  forallb is_ascii s = true -> str_upper s = List.map ascii_upper s.
Proof.
  unfold str_upper. induction s as [|c s IH]; [reflexivity|].
  cbn [forallb flat_map List.map]. intros H. apply andb_prop in H as [Hc Hs].
  destruct (CaseFacts.ascii_to_full c Hc) as (-> & _ & _). now rewrite IH.
Qed.

Lemma do_lower_ascii (s : str) :
  forallb is_ascii s = true ->
  forall before, do_lower before s = List.map ascii_lower s.
Proof.
  induction s as [|c s IH]; [reflexivity|].
  cbn [forallb do_lower List.map]. intros H pre. apply andb_prop in H as [Hc Hs].
  destruct (CaseFacts.ascii_to_full c Hc) as (_ & Hl & Hn).
  unfold lower_ucs4. apply Z.eqb_neq in Hn. rewrite Hn, Hl, (IH Hs).
  reflexivity.
Qed.

(** ** Text after a value *)

Lemma strip_prefix_ext (p s r t : str) :
  strip_prefix p s = Some r -> strip_prefix p (s ++ t) = Some (r ++ t).
Proof.
  revert s; induction p as [|x p IH]; intros s H.
  - destruct s; cbn in H; injection H as <-; reflexivity.
  - destruct s as [|y s]; [discriminate|]. cbn [strip_prefix app] in *.
    destruct (x =? y); [now apply IH | discriminate].
Qed.

Lemma strip_prefix_inv (p s r : str) :
  strip_prefix p s = Some r -> s = p ++ r.
Proof.
  revert s; induction p as [|x p IH]; intros s H.
  - destruct s; cbn in H; injection H as <-; reflexivity.
  - destruct s as [|y s]; [discriminate|]. cbn [strip_prefix app] in *.
    destruct (Z.eqb_spec x y) as [->|]; [|discriminate].
    now rewrite (IH _ H).
Qed.

Lemma skip_ws_ext (s t : str) :
  skip_ws s <> [] -> skip_ws (s ++ t) = skip_ws s ++ t.
Proof.
  induction s as [|c s IH]; [now intros []|].
  cbn [skip_ws app]. destruct (is_ws c); [exact IH | reflexivity].
Qed.

Lemma skip_ws_all (s t : str) :
  forallb is_ws s = true -> skip_ws (s ++ t) = skip_ws t.
Proof.
  induction s as [|c s IH]; [reflexivity|].
  cbn [forallb skip_ws app]. intros H. apply andb_prop in H as [-> H].
  now apply IH.
Qed.

Lemma is_ws_stops (c : codepoint) (s : str) :
  is_ws c = true -> number_stops (c :: s) = true.
Proof.
  unfold is_ws, number_stops, is_digit. intros H.
  repeat (apply orb_prop in H as [H|H]); apply Z.eqb_eq in H; subst c;
    reflexivity.
Qed.

(** A value followed, after whitespace, by one of the delimiters is
    followed by something no number goes on with. *)
Lemma delimiter_stops (s1 s2 t : str) (c : codepoint) :
  skip_ws s1 = c :: s2 ->
  (c =? 93) || (c =? 44) || (c =? 125) = true ->
  number_stops (s1 ++ t) = true.
Proof.
  destruct s1 as [|h s1']; [discriminate|]. cbn [skip_ws app].
  destruct (is_ws h) eqn:Eh; [intros _ _; now apply is_ws_stops|].
  intros [= -> ->] H. unfold number_stops, is_digit.
  repeat (apply orb_prop in H as [H|H]); apply Z.eqb_eq in H; subst c;
    reflexivity.
Qed.

Lemma span_digits_ext (s ds r t : str) :
  span_digits s = (ds, r) -> (r = [] -> number_stops t = true) ->
  span_digits (s ++ t) = (ds, r ++ t).
Proof.
  revert ds r; induction s as [|c s IH]; intros ds r H Hr.
  - cbn in H. injection H as <- <-. cbn [app]. specialize (Hr eq_refl).
    destruct t as [|x t]; [reflexivity|]. cbn [number_stops] in Hr.
    cbn [span_digits]. destruct (is_digit x); [discriminate | reflexivity].
  - cbn [span_digits app] in *. destruct (is_digit c).
    + destruct (span_digits s) as [ds' r'] eqn:E. injection H as <- <-.
      now rewrite (IH ds' r' eq_refl Hr).
    + injection H as <- <-. reflexivity.
Qed.

Lemma match_integer_ext (s i r t : str) :
  match_integer s = Some (i, r) -> (r = [] -> number_stops t = true) ->
  match_integer (s ++ t) = Some (i, r ++ t).
Proof.
  unfold match_integer. intros H Hr.
  assert (K : forall (sign s1 : str),
            match s1 with
            | [] => None
            | d :: s2 =>
                if d =? 48 then Some (sign ++ [48], s2)
                else if is_digit d
                     then let (ds, r0) := span_digits s2 in Some (sign ++ d :: ds, r0)
                     else None
            end = Some (i, r) ->
            match s1 ++ t with
            | [] => None
            | d :: s2 =>
                if d =? 48 then Some (sign ++ [48], s2)
                else if is_digit d
                     then let (ds, r0) := span_digits s2 in Some (sign ++ d :: ds, r0)
                     else None
            end = Some (i, r ++ t)).
  { intros sign [|d s2]; [discriminate|]. cbn [app].
    destruct (d =? 48); [now intros [= <- <-]|].
    destruct (is_digit d); [|discriminate].
    destruct (span_digits s2) as [ds r0] eqn:E. intros [= <- <-].
    now rewrite (span_digits_ext _ _ _ t E Hr). }
  destruct s as [|c s']; [discriminate|]. cbn [app].
  destruct (c =? 45); [apply (K [45] s' H) | apply (K [] (c :: s') H)].
Qed.

Lemma number_stops_cons (c : codepoint) (s : str) :
  number_stops (c :: s) = true ->
  is_digit c = false /\ (c =? 46) = false /\
  (c =? 101) = false /\ (c =? 69) = false.
Proof.
  cbn [number_stops]. intros H. apply negb_true_iff in H.
  apply orb_false_iff in H as [H H69]. apply orb_false_iff in H as [H H101].
  apply orb_false_iff in H as [Hd H46]. auto.
Qed.

Lemma match_exp_ext (s e r t : str) :
  match_exp s = (e, r) -> number_stops (r ++ t) = true ->
  match_exp (s ++ t) = (e, r ++ t).
Proof.
  unfold match_exp. destruct s as [|c s1].
  - intros [= <- <-]. cbn [app]. intros Ht.
    destruct t as [|x t']; [reflexivity|].
    apply number_stops_cons in Ht as (_ & _ & -> & ->). reflexivity.
  - cbn [app]. destruct ((c =? 101) || (c =? 69)) eqn:Ec.
    2:{ now intros [= <- <-]. }
    assert (Hstop : forall x, number_stops (c :: x) = true -> False).
    { intros x Hx. apply number_stops_cons in Hx as (_ & _ & H1 & H2).
      now rewrite H1, H2 in Ec. }
    destruct s1 as [|c1 s'].
    + cbn [span_digits]. intros [= <- <-]. cbn [app]. intros Ht.
      now destruct (Hstop _ Ht).
    + cbn [app]. destruct ((c1 =? 45) || (c1 =? 43)).
      * destruct (span_digits s') as [[|d ds] r0] eqn:E.
        -- intros [= <- <-]. cbn [app]. intros Ht. now destruct (Hstop _ Ht).
        -- intros [= <- <-] Ht.
           rewrite (span_digits_ext _ _ _ t E); [reflexivity|].
           now intros ->.
      * destruct (span_digits (c1 :: s')) as [[|d ds] r0] eqn:E.
        -- intros [= <- <-]. cbn [app]. intros Ht. now destruct (Hstop _ Ht).
        -- intros [= <- <-] Ht.
           change (c1 :: s' ++ t) with ((c1 :: s') ++ t).
           rewrite (span_digits_ext _ _ _ t E); [reflexivity|].
           now intros ->.
Qed.

Lemma match_frac_ext (s f r t : str) :
  match_frac s = (f, r) -> number_stops (snd (match_exp r) ++ t) = true ->
  match_frac (s ++ t) = (f, r ++ t).
Proof.
  unfold match_frac. destruct s as [|c s1].
  - intros [= <- <-]. cbn [app match_exp snd]. intros Ht.
    destruct t as [|x t']; [reflexivity|].
    apply number_stops_cons in Ht as (_ & -> & _ & _). reflexivity.
  - cbn [app]. destruct (c =? 46) eqn:Ec.
    2:{ now intros [= <- <-]. }
    apply Z.eqb_eq in Ec. subst c.
    destruct (span_digits s1) as [[|d ds] r0] eqn:E.
    + intros [= <- <-]. cbn. discriminate.
    + intros [= <- <-] Ht.
      rewrite (span_digits_ext _ _ _ t E); [reflexivity|].
      intros ->. exact Ht.
Qed.

Lemma match_number_ext (s i f e r t : str) :
  match_number s = Some (i, f, e, r) -> number_stops (r ++ t) = true ->
  match_number (s ++ t) = Some (i, f, e, r ++ t).
Proof.
  unfold match_number.
  destruct (match_integer s) as [[i0 r1]|] eqn:Ei; [|discriminate].
  destruct (match_frac r1) as [f0 r2] eqn:Ef.
  destruct (match_exp r2) as [e0 r3] eqn:Ee.
  intros [= <- <- <- <-] Ht.
  rewrite (match_integer_ext _ _ _ t Ei).
  2:{ intros ->. cbn in Ef. injection Ef as <- <-.
      cbn in Ee. injection Ee as <- <-. exact Ht. }
  rewrite (match_frac_ext _ _ _ t Ef) by (now rewrite Ee).
  now rewrite (match_exp_ext _ _ _ t Ee Ht).
Qed.

(** After a [\uXXXX] escape that is not a high surrogate followed by a
    reverse solidus, the scan goes on right behind it. *)
Lemma scanstring_u_alone (a b c' d x : codepoint) (uni : Z) (s : str) :
  decode_uXXXX a b c' d = Some uni ->
  is_high_surrogate uni && (x =? 92) = false ->
  forall chunks,
    scanstring chunks (92 :: 117 :: a :: b :: c' :: d :: x :: s) =
    scanstring (uni :: chunks) (x :: s).
Proof.
  intros Hd Hc chunks. cbn [scanstring Z.eqb Pos.eqb]. rewrite Hd, Hc.
  cbn [andb]. now destruct s as [|? [|? [|? [|? [|? [|? ?]]]]]].
Qed.

(** The same when what follows is not a whole [\uXXXX] escape with a
    character behind it. *)
Lemma scanstring_u_fall (a b c' d e2 : codepoint) (uni : Z) (s : str) :
  decode_uXXXX a b c' d = Some uni ->
  (e2 =? 117) = false \/ (length s < 5)%nat ->
  forall chunks,
    scanstring chunks (92 :: 117 :: a :: b :: c' :: d :: 92 :: e2 :: s) =
    scanstring (uni :: chunks) (92 :: e2 :: s).
Proof.
  intros Hd Hc chunks. cbn [scanstring Z.eqb Pos.eqb]. rewrite Hd.
  destruct s as [|? [|? [|? [|? [|? ?]]]]]; try reflexivity.
  destruct Hc as [-> | Hc]; [now rewrite andb_false_r|].
  cbn [length] in Hc. lia.
Qed.

(** A high surrogate followed by a whole escape. *)
Lemma scanstring_u_pair (a b c' d a2 b2 c2 d2 y : codepoint) (uni : Z) (s : str) :
  decode_uXXXX a b c' d = Some uni -> is_high_surrogate uni = true ->
  forall chunks,
    scanstring chunks
      (92 :: 117 :: a :: b :: c' :: d ::
       92 :: 117 :: a2 :: b2 :: c2 :: d2 :: y :: s) =
    match decode_uXXXX a2 b2 c2 d2 with
    | None => DecodeError InvalidUXXXXEscape
    | Some uni2 =>
        if is_low_surrogate uni2
        then scanstring (65536 + Z.lor (Z.shiftl (uni - 55296) 10) (uni2 - 56320)
                         :: chunks) (y :: s)
        else scanstring (uni :: chunks)
               (92 :: 117 :: a2 :: b2 :: c2 :: d2 :: y :: s)
    end.
Proof.
  intros Hd Hh chunks. cbn [scanstring Z.eqb Pos.eqb]. rewrite Hd, Hh.
  cbn [andb]. reflexivity.
Qed.

(** An escape cut short is refused. *)
Lemma scanstring_u_short (s : str) :
  (length s < 5)%nat ->
  forall chunks,
    scanstring chunks (92 :: 117 :: s) = DecodeError InvalidUXXXXEscape.
Proof.
  intros Hs chunks. cbn [scanstring Z.eqb Pos.eqb].
  destruct s as [|? [|? [|? [|? [|? ?]]]]]; try reflexivity.
  cbn [length] in Hs. lia.
Qed.

(** A string that ends in the text ends at the same place when more
    text follows. *)
Lemma scanstring_ext (t s : str) :
  forall chunks v r,
    scanstring chunks s = Scanned v r ->
    scanstring chunks (s ++ t) = Scanned v (r ++ t).
Proof.
  remember (length s) as n eqn:Hn.
  assert (Hle : (length s <= n)%nat) by lia. clear Hn.
  revert s Hle. induction n as [|n IH]; intros s Hle chunks v r H.
  { destruct s; [discriminate H | simpl in Hle; lia]. }
  destruct s as [|c s1]; [discriminate H|].
  cbn [length] in Hle.
  destruct (c =? 34) eqn:E34.
  { cbn [app scanstring] in *. rewrite E34 in *. now injection H as <- <-. }
  destruct (c =? 92) eqn:E92.
  2:{ cbn [app scanstring] in *. rewrite E34, E92 in *.
      destruct (c <? 32); [discriminate|]. apply IH; [lia | exact H]. }
  apply Z.eqb_eq in E92. subst c. clear E34.
  destruct s1 as [|esc s2]; [discriminate H|]. cbn [length] in Hle.
  destruct (esc =? 117) eqn:Ee.
  2:{ cbn [app scanstring Z.eqb Pos.eqb] in *. rewrite Ee in *.
      destruct (BACKSLASH esc); [|discriminate]. apply IH; [lia | exact H]. }
  apply Z.eqb_eq in Ee. subst esc.
  destruct s2 as [|a [|b [|c' [|d [|x s3]]]]];
    try (rewrite scanstring_u_short in H by (cbn [length]; lia); discriminate).
  cbn [length] in Hle.
  destruct (decode_uXXXX a b c' d) as [uni|] eqn:Ed.
  2:{ cbn [scanstring Z.eqb Pos.eqb] in H. rewrite Ed in H. discriminate. }
  destruct (is_high_surrogate uni && (x =? 92)) eqn:Eh.
  2:{ rewrite (scanstring_u_alone _ _ _ _ _ _ _ Ed Eh) in H.
      cbn [app]. rewrite (scanstring_u_alone _ _ _ _ _ _ _ Ed Eh).
      apply (IH (x :: s3)); [cbn [length]; lia | exact H]. }
  apply andb_prop in Eh as [Eu Ex]. apply Z.eqb_eq in Ex. subst x.
  destruct s3 as [|e2 s4].
  { cbn [scanstring Z.eqb Pos.eqb] in H. rewrite Ed in H. discriminate. }
  cbn [length] in Hle.
  destruct (e2 =? 117) eqn:E2.
  - apply Z.eqb_eq in E2. subst e2.
    destruct s4 as [|a2 [|b2 [|c2 [|d2 [|y s5]]]]];
      try (rewrite (scanstring_u_fall _ _ _ _ _ _ _ Ed) in H
             by (right; cbn [length]; lia);
           rewrite scanstring_u_short in H by (cbn [length]; lia);
           discriminate).
    cbn [length] in Hle.
    rewrite (scanstring_u_pair _ _ _ _ _ _ _ _ _ _ _ Ed Eu) in H.
    cbn [app]. rewrite (scanstring_u_pair _ _ _ _ _ _ _ _ _ _ _ Ed Eu).
    destruct (decode_uXXXX a2 b2 c2 d2) as [uni2|]; [|discriminate].
    destruct (is_low_surrogate uni2).
    + apply (IH (y :: s5)); [cbn [length]; lia | exact H].
    + apply (IH (92 :: 117 :: a2 :: b2 :: c2 :: d2 :: y :: s5));
        [cbn [length]; lia | exact H].
  - rewrite (scanstring_u_fall _ _ _ _ _ _ _ Ed) in H by now left.
    cbn [app]. rewrite (scanstring_u_fall _ _ _ _ _ _ _ Ed) by now left.
    apply (IH (92 :: e2 :: s4)); [cbn [length]; lia | exact H].
Qed.

Section CompoundExt.
Context {FM : FloatModel}.
Variable t : str.
Variable scan_once : str -> scan pyval.
Hypothesis Hext :
  forall s v r,
    scan_once s = Scanned v r -> number_stops (r ++ t) = true ->
    scan_once (s ++ t) = Scanned v (r ++ t).
Hypothesis Hnil : forall v r, scan_once [] <> Scanned v r.

Lemma array_items_ext (fuel : nat) :
  forall values s vs r,
    array_items scan_once fuel values s = Scanned vs r ->
    array_items scan_once fuel values (s ++ t) = Scanned vs (r ++ t).
Proof.
  induction fuel as [|fuel IH]; intros values s vs r H; [discriminate H|].
  cbn [array_items] in *.
  destruct (scan_once s) as [value s1| | |] eqn:Es; try discriminate.
  destruct (skip_ws s1) as [|c s2] eqn:Ew; [discriminate|].
  assert (Hd : (c =? 93) || (c =? 44) || (c =? 125) = true).
  { destruct (c =? 93); [reflexivity|]. destruct (c =? 44); [reflexivity|].
    discriminate. }
  rewrite (Hext _ _ _ Es (delimiter_stops _ _ t _ Ew Hd)).
  rewrite skip_ws_ext, Ew by (rewrite Ew; discriminate). cbn [app].
  destruct (c =? 93); [now injection H as <- <-|].
  destruct (c =? 44); [|discriminate].
  assert (Hn : skip_ws s2 <> []).
  { intros E. rewrite E in H. destruct fuel; [discriminate|].
    cbn [array_items] in H.
    destruct (scan_once []) eqn:En; try discriminate.
    exact (Hnil _ _ eq_refl). }
  rewrite skip_ws_ext by assumption. now apply IH.
Qed.

Lemma JSONArray_ext (fuel : nat) (s : str) (v : pyval) (r : str) :
  JSONArray scan_once fuel s = Scanned v r ->
  JSONArray scan_once fuel (s ++ t) = Scanned v (r ++ t).
Proof.
  unfold JSONArray. cbv zeta. intros H.
  assert (Hn : skip_ws s <> []).
  { intros E. rewrite E in H. cbn [strip_prefix] in H.
    destruct fuel; [discriminate|]. cbn [array_items] in H.
    destruct (scan_once []) eqn:En; try discriminate.
    exact (Hnil _ _ eq_refl). }
  rewrite skip_ws_ext by assumption.
  destruct (strip_prefix [93] (skip_ws s)) as [s1|] eqn:Ep.
  - rewrite (strip_prefix_ext _ _ _ t Ep). now injection H as <- <-.
  - destruct (skip_ws s) as [|c s0]; [now destruct Hn|].
    cbn [app strip_prefix] in *.
    destruct (93 =? c); [discriminate|].
    destruct (array_items scan_once fuel [] (c :: s0)) as [vs r'| | |] eqn:Ea;
      try discriminate.
    injection H as <- <-.
    change (c :: s0 ++ t) with ((c :: s0) ++ t).
    now rewrite (array_items_ext _ _ _ _ _ Ea).
Qed.

Lemma object_pairs_ext (fuel : nat) :
  forall pairs s ps r,
    object_pairs scan_once fuel pairs s = Scanned ps r ->
    object_pairs scan_once fuel pairs (s ++ t) = Scanned ps (r ++ t).
Proof.
  induction fuel as [|fuel IH]; intros pairs s ps r H; [discriminate H|].
  cbn [object_pairs] in *.
  destruct (scanstring [] s) as [key s1| | |] eqn:Ek; try discriminate.
  rewrite (scanstring_ext t _ _ _ _ Ek).
  destruct (skip_ws s1) as [|c s2] eqn:Ew; [discriminate|].
  rewrite skip_ws_ext, Ew by (rewrite Ew; discriminate). cbn [app].
  destruct (c =? 58); [|discriminate].
  destruct (scan_once (skip_ws s2)) as [value s3| | |] eqn:Es;
    try discriminate.
  assert (Hn : skip_ws s2 <> []).
  { intros E. rewrite E in Es. now apply Hnil in Es. }
  destruct (skip_ws s3) as [|c' s4] eqn:Ew3; [discriminate|].
  assert (Hd : (c' =? 93) || (c' =? 44) || (c' =? 125) = true).
  { destruct (c' =? 125); [now rewrite !orb_true_r|].
    destruct (c' =? 44); [now rewrite !orb_true_r|]. discriminate. }
  rewrite skip_ws_ext by assumption.
  rewrite (Hext _ _ _ Es (delimiter_stops _ _ t _ Ew3 Hd)).
  rewrite skip_ws_ext, Ew3 by (rewrite Ew3; discriminate). cbn [app].
  destruct (c' =? 125); [now injection H as <- <-|].
  destruct (c' =? 44); [|discriminate].
  destruct (skip_ws s4) as [|q s5] eqn:Ew4; [discriminate|].
  rewrite skip_ws_ext, Ew4 by (rewrite Ew4; discriminate). cbn [app].
  destruct (q =? 34); [|discriminate]. now apply IH.
Qed.

Lemma JSONObject_ext (fuel : nat) (s : str) (v : pyval) (r : str) :
  JSONObject scan_once fuel s = Scanned v r ->
  JSONObject scan_once fuel (s ++ t) = Scanned v (r ++ t).
Proof.
  unfold JSONObject. intros H.
  destruct (skip_ws s) as [|c s1] eqn:Ew; [discriminate|].
  rewrite skip_ws_ext, Ew by (rewrite Ew; discriminate). cbn [app].
  destruct (c =? 125); [now injection H as <- <-|].
  destruct (c =? 34); [|discriminate].
  destruct (object_pairs scan_once fuel [] s1) as [ps r'| | |] eqn:Eo;
    try discriminate.
  injection H as <- <-. now rewrite (object_pairs_ext _ _ _ _ _ Eo).
Qed.

End CompoundExt.

Section ScanOnceExt.
Context {FM : FloatModel}.

Lemma scan_once_nil (fuel : nat) (v : pyval) (r : str) :
  scan_once fuel [] <> Scanned v r.
Proof. destruct fuel; discriminate. Qed.

(** A value that ends in the text ends at the same place when more text
    follows, unless a number would go on with it. *)
Lemma scan_once_ext (t : str) (fuel : nat) :
  forall s v r,
    scan_once fuel s = Scanned v r -> number_stops (r ++ t) = true ->
    scan_once fuel (s ++ t) = Scanned v (r ++ t).
Proof.
  induction fuel as [|fuel IH]; intros s v r H Ht; [discriminate H|].
  destruct s as [|c s1]; [discriminate H|].
  cbn [scan_once] in H. cbn [app scan_once].
  destruct (c =? 34).
  { destruct (scanstring [] s1) as [x r'| | |] eqn:Es; try discriminate.
    injection H as <- <-. now rewrite (scanstring_ext t _ _ _ _ Es). }
  destruct (c =? 123).
  { apply JSONObject_ext; [exact IH | apply scan_once_nil | exact H]. }
  destruct (c =? 91).
  { apply JSONArray_ext; [exact IH | apply scan_once_nil | exact H]. }
  change (c :: s1 ++ t) with ((c :: s1) ++ t).
  destruct (strip_prefix (lit "null") (c :: s1)) as [r'|] eqn:E1.
  { rewrite (strip_prefix_ext _ _ _ t E1). now injection H as <- <-. }
  destruct (strip_prefix (lit "true") (c :: s1)) as [r'|] eqn:E2.
  { apply strip_prefix_inv in E2 as E2'. rewrite E2', <- app_assoc.
    injection H as <- <-. reflexivity. }
  destruct (strip_prefix (lit "false") (c :: s1)) as [r'|] eqn:E3.
  { apply strip_prefix_inv in E3 as E3'. rewrite E3', <- app_assoc.
    injection H as <- <-. reflexivity. }
  destruct (match_number (c :: s1)) as [[[[i f] e] r']|] eqn:En.
  { assert (Hr : r' = r) by (destruct f, e; now injection H as <- <-).
    subst r'. rewrite (match_number_ext _ _ _ _ _ t En Ht).
    assert (Hc : strip_prefix (lit "null") ((c :: s1) ++ t) = None /\
                 strip_prefix (lit "true") ((c :: s1) ++ t) = None /\
                 strip_prefix (lit "false") ((c :: s1) ++ t) = None).
    { cbn [app] in *. change (lit "null") with (110 :: lit "ull") in *.
      change (lit "true") with (116 :: lit "rue") in *.
      change (lit "false") with (102 :: lit "alse") in *.
      cbn [strip_prefix] in *. unfold match_number, match_integer in En.
      destruct (Z.eqb_spec 110 c) as [<-|]; [discriminate En|].
      destruct (Z.eqb_spec 116 c) as [<-|]; [discriminate En|].
      destruct (Z.eqb_spec 102 c) as [<-|]; [discriminate En|].
      auto. }
    destruct Hc as (-> & -> & ->).
    destruct f, e; injection H as <-; reflexivity. }
  destruct (strip_prefix (lit "NaN") (c :: s1)) as [r'|] eqn:E4.
  { apply strip_prefix_inv in E4 as E4'. rewrite E4', <- app_assoc.
    injection H as <- <-. reflexivity. }
  destruct (strip_prefix (lit "Infinity") (c :: s1)) as [r'|] eqn:E5.
  { apply strip_prefix_inv in E5 as E5'. rewrite E5', <- app_assoc.
    injection H as <- <-. reflexivity. }
  destruct (strip_prefix (lit "-Infinity") (c :: s1)) as [r'|] eqn:E6;
    [|discriminate].
  apply strip_prefix_inv in E6 as E6'. rewrite E6', <- app_assoc.
  injection H as <- <-. reflexivity.
Qed.

End ScanOnceExt.

(** ** More fuel *)

Section CompoundMore.
Context {FM : FloatModel}.
Variables scan_once scan_once' : str -> scan pyval.
Hypothesis Hmore :
  forall s v r, scan_once s = Scanned v r -> scan_once' s = Scanned v r.

Lemma array_items_more (fuel : nat) :
  forall values s vs r,
    array_items scan_once fuel values s = Scanned vs r ->
    forall fuel', (fuel <= fuel')%nat ->
      array_items scan_once' fuel' values s = Scanned vs r.
Proof.
  induction fuel as [|fuel IH]; intros values s vs r H fuel' Hf;
    [discriminate H|].
  destruct fuel' as [|fuel']; [lia|]. cbn [array_items] in *.
  destruct (scan_once s) as [value s1| | |] eqn:Es; try discriminate.
  rewrite (Hmore _ _ _ Es).
  destruct (skip_ws s1) as [|c s2]; [discriminate|].
  destruct (c =? 93); [exact H|].
  destruct (c =? 44); [|discriminate].
  apply (IH _ _ _ _ H). lia.
Qed.

Lemma JSONArray_more (fuel fuel' : nat) (s : str) (v : pyval) (r : str) :
  JSONArray scan_once fuel s = Scanned v r -> (fuel <= fuel')%nat ->
  JSONArray scan_once' fuel' s = Scanned v r.
Proof.
  unfold JSONArray. cbv zeta. intros H Hf.
  destruct (strip_prefix [93] (skip_ws s)); [exact H|].
  destruct (array_items scan_once fuel [] (skip_ws s)) as [vs r'| | |] eqn:Ea;
    try discriminate.
  now rewrite (array_items_more _ _ _ _ _ Ea fuel' Hf).
Qed.

Lemma object_pairs_more (fuel : nat) :
  forall pairs s ps r,
    object_pairs scan_once fuel pairs s = Scanned ps r ->
    forall fuel', (fuel <= fuel')%nat ->
      object_pairs scan_once' fuel' pairs s = Scanned ps r.
Proof.
  induction fuel as [|fuel IH]; intros pairs s ps r H fuel' Hf;
    [discriminate H|].
  destruct fuel' as [|fuel']; [lia|]. cbn [object_pairs] in *.
  destruct (scanstring [] s) as [key s1| | |]; try discriminate.
  destruct (skip_ws s1) as [|c s2]; [discriminate|].
  destruct (c =? 58); [|discriminate].
  destruct (scan_once (skip_ws s2)) as [value s3| | |] eqn:Es;
    try discriminate.
  rewrite (Hmore _ _ _ Es).
  destruct (skip_ws s3) as [|c' s4]; [discriminate|].
  destruct (c' =? 125); [exact H|].
  destruct (c' =? 44); [|discriminate].
  destruct (skip_ws s4) as [|q s5]; [discriminate|].
  destruct (q =? 34); [|discriminate].
  apply (IH _ _ _ _ H). lia.
Qed.

Lemma JSONObject_more (fuel fuel' : nat) (s : str) (v : pyval) (r : str) :
  JSONObject scan_once fuel s = Scanned v r -> (fuel <= fuel')%nat ->
  JSONObject scan_once' fuel' s = Scanned v r.
Proof.
  unfold JSONObject. intros H Hf.
  destruct (skip_ws s) as [|c s1]; [discriminate|].
  destruct (c =? 125); [exact H|].
  destruct (c =? 34); [|discriminate].
  destruct (object_pairs scan_once fuel [] s1) as [ps r'| | |] eqn:Eo;
    try discriminate.
  now rewrite (object_pairs_more _ _ _ _ _ Eo fuel' Hf).
Qed.

End CompoundMore.

Section Whitespace.
Context {FM : FloatModel}.

(** A value scanned with some fuel is scanned with more. *)
Lemma scan_once_more (fuel : nat) :
  forall s v r,
    scan_once fuel s = Scanned v r ->
    forall fuel', (fuel <= fuel')%nat -> scan_once fuel' s = Scanned v r.
Proof.
  induction fuel as [|fuel IH]; intros s v r H fuel' Hf; [discriminate H|].
  destruct fuel' as [|fuel']; [lia|].
  destruct s as [|c s1]; [discriminate H|].
  cbn [scan_once] in *.
  destruct (c =? 34); [exact H|].
  assert (K : forall s v r,
             scan_once fuel s = Scanned v r -> scan_once fuel' s = Scanned v r).
  { intros s0 v0 r0 H0. apply (IH _ _ _ H0). lia. }
  destruct (c =? 123).
  { apply (JSONObject_more _ _ K fuel); [exact H | lia]. }
  destruct (c =? 91).
  { apply (JSONArray_more _ _ K fuel); [exact H | lia]. }
  exact H.
Qed.

Lemma skip_ws_nil (s : str) : skip_ws s = [] -> forallb is_ws s = true.
Proof.
  induction s as [|c s IH]; [reflexivity|]. cbn [skip_ws forallb].
  destruct (is_ws c); [exact IH | discriminate].
Qed.

Lemma all_ws_stops (s : str) : forallb is_ws s = true -> number_stops s = true.
Proof.
  destruct s as [|c s]; [reflexivity|]. cbn [forallb]. intros H.
  apply andb_prop in H as [H _]. now apply is_ws_stops.
Qed.

Lemma all_ws_skipped (s : str) : forallb is_ws s = true -> skip_ws s = [].
Proof.
  intros H. rewrite <- (app_nil_r s). now rewrite skip_ws_all.
Qed.

(** What [json.loads] returning a value means for the scanner. *)
Lemma json_loads_scanned (s : str) (v : pyval) :
  json_loads s = Ok v <->
  exists c tl r,
    s = c :: tl /\ c <> 65279 /\
    scan_once (loads_fuel s) (skip_ws s) = Scanned v r /\ skip_ws r = [].
Proof.
  split.
  - intros H. destruct s as [|c tl]; [discriminate H|].
    destruct (Z.eq_dec c 65279) as [->|Hc]; [discriminate H|].
    rewrite (json_loads_no_bom c tl Hc) in H. unfold decode in H.
    destruct (scan_once (loads_fuel (c :: tl)) (skip_ws (c :: tl)))
      as [obj r| | |] eqn:E; try discriminate.
    destruct (skip_ws r) eqn:Er; [|discriminate].
    injection H as <-. exists c, tl, r. auto.
  - intros (c & tl & r & -> & Hc & Hs & Hr).
    rewrite (json_loads_no_bom c tl Hc). unfold decode. now rewrite Hs, Hr.
Qed.

Lemma json_loads_surrounded (arg before after : str) (input_data : pyval) :
  json_loads arg = Ok input_data ->
  forallb is_ws before = true -> forallb is_ws after = true ->
  json_loads (before ++ arg ++ after) = Ok input_data.
Proof.
  intros Hl Hb Ha.
  apply json_loads_scanned in Hl as (c & tl & r & -> & Hc & Hs & Hr).
  assert (Hn : skip_ws (c :: tl) <> []).
  { intros E. rewrite E in Hs. now apply scan_once_nil in Hs. }
  assert (Hw : forallb is_ws (r ++ after) = true).
  { rewrite forallb_app, (skip_ws_nil _ Hr), Ha. reflexivity. }
  apply (scan_once_ext after) in Hs; [|now apply all_ws_stops].
  apply json_loads_scanned.
  assert (Hh : exists c' tl', before ++ (c :: tl) ++ after = c' :: tl' /\
                              c' <> 65279).
  { destruct before as [|b before']; cbn [app]; [eauto|].
    exists b, (before' ++ c :: tl ++ after). split; [reflexivity|].
    cbn [forallb] in Hb. apply andb_prop in Hb as [Hb _]. intros ->.
    discriminate. }
  destruct Hh as (c' & tl' & E & Hc').
  exists c', tl', (r ++ after). split; [exact E|]. split; [exact Hc'|].
  split; [|now apply all_ws_skipped].
  rewrite (skip_ws_all before _ Hb).
  rewrite skip_ws_ext by assumption.
  apply (scan_once_more _ _ _ _ Hs). unfold loads_fuel.
  unfold codepoint, str in *. rewrite !length_app. lia.
Qed.

End Whitespace.

(** ** The text of a string is a JSON string *)

Lemma hex_char_HEXDIG (d : Z) :
  0 <= d < 16 -> RFC8259.HEXDIG (hex_char d) = true.
Proof.
  intros Hd. unfold RFC8259.HEXDIG, RFC8259.DIGIT, hex_char.
  destruct (Z.ltb_spec d 10).
  - replace ((48 <=? 48 + d) && (48 + d <=? 57)) with true; [reflexivity|].
    symmetry. apply andb_true_intro. split; apply Z.leb_le; lia.
  - replace ((97 <=? 87 + d) && (87 + d <=? 102)) with true;
      [now rewrite orb_true_r|].
    symmetry. apply andb_true_intro. split; apply Z.leb_le; lia.
Qed.

Lemma chars_u_escape (n : Z) (s : str) :
  RFC8259.chars (u_escape n ++ s) = RFC8259.chars s.
Proof.
  unfold u_escape. cbn [app RFC8259.chars Z.eqb Pos.eqb].
  change (RFC8259.unescaped 92) with false.
  change (RFC8259.escape_letter 117) with false. cbv iota.
  rewrite !hex_char_HEXDIG by (apply Z.mod_pos_bound; lia). reflexivity.
Qed.

Lemma chars_escape_ascii (c : codepoint) (s : str) :
  RFC8259.chars (escape_ascii c ++ s) = RFC8259.chars s.
Proof.
  unfold escape_ascii.
  destruct (c =? 92) eqn:E92; [reflexivity|].
  destruct (c =? 34) eqn:E34; [reflexivity|].
  destruct ((32 <=? c) && (c <=? 126)) eqn:E.
  { cbn [app RFC8259.chars]. rewrite E34. unfold RFC8259.unescaped.
    apply andb_prop in E as [-> _]. now rewrite E34, E92. }
  destruct (c =? 8); [reflexivity|].
  destruct (c =? 12); [reflexivity|].
  destruct (c =? 10); [reflexivity|].
  destruct (c =? 13); [reflexivity|].
  destruct (c =? 9); [reflexivity|].
  destruct (c <? 65536); [apply chars_u_escape|].
  cbv zeta. now rewrite <- app_assoc, !chars_u_escape.
Qed.

Lemma chars_encoded (r rest : str) :
  RFC8259.chars (flat_map escape_ascii r ++ 34 :: rest) = Some rest.
Proof.
  induction r as [|c r IH]; [reflexivity|].
  cbn [flat_map]. now rewrite <- app_assoc, chars_escape_ascii.
Qed.

(** An object with the one key ["result"], after its brace. *)
Lemma object_result (value : str -> option str) (fuel : nat) (x rest : str) :
  value (34 :: x) = Some (125 :: rest) ->
  RFC8259.object value (S fuel)
    (34 :: lit "result" ++ 34 :: 58 :: 32 :: 34 :: x) = Some rest.
Proof.
  intros Hv. unfold RFC8259.object.
  change (RFC8259.ws (34 :: lit "result" ++ 34 :: 58 :: 32 :: 34 :: x))
    with (34 :: lit "result" ++ 34 :: 58 :: 32 :: 34 :: x).
  cbn [RFC8259.one_of existsb Z.eqb Pos.eqb orb RFC8259.members RFC8259.string].
  change (lit "result") with (flat_map escape_ascii (lit "result")).
  rewrite chars_encoded.
  change (RFC8259.ws (58 :: 32 :: 34 :: x)) with (58 :: 32 :: 34 :: x).
  cbv iota. cbn [Z.eqb Pos.eqb].
  change (RFC8259.ws (32 :: 34 :: x)) with (34 :: x).
  rewrite Hv.
  change (RFC8259.ws (125 :: rest)) with (125 :: rest).
  reflexivity.
Qed.

(** The line printed for a string result, with its line feed, is a JSON
    text. *)
Lemma result_line_json (r : str) :
  RFC8259.json_text false
    (result_object (encode_basestring_ascii r) ++ [10]) = true.
Proof.
  set (tl := flat_map escape_ascii r ++ [34; 125; 10]).
  set (s1 := 34 :: lit "result" ++ 34 :: 58 :: 32 :: 34 :: tl).
  assert (E : result_object (encode_basestring_ascii r) ++ [10] = 123 :: s1).
  { unfold result_object, encode_basestring_ascii, s1, tl. cbn [app].
    rewrite <- !app_assoc. cbn [app]. rewrite <- !app_assoc. reflexivity. }
  assert (K : RFC8259.object (RFC8259.value false (S (length s1)))
                (S (length s1)) s1 = Some [10]).
  { apply object_result. cbn [RFC8259.value Z.eqb Pos.eqb].
    apply chars_encoded. }
  assert (J : RFC8259.json_text false (123 :: s1) = true).
  { unfold RFC8259.json_text.
    change (RFC8259.ws (123 :: s1)) with (123 :: s1).
    change (length (123 :: s1)) with (S (length s1)).
    change (RFC8259.value false (S (S (length s1))) (123 :: s1))
      with (RFC8259.object (RFC8259.value false (S (length s1)))
              (S (length s1)) s1).
    now rewrite K. }
  exact (eq_ind_r (fun x => RFC8259.json_text false x = true) J E).
Qed.

(** ** What [json.dumps] writes for a string *)

Lemma hex_char_printable (d : Z) : 0 <= d < 16 -> printable (hex_char d) = true.
Proof.
  intros Hd. unfold printable, hex_char.
  destruct (d <? 10); apply andb_true_intro; split; apply Z.leb_le; lia.
Qed.

Lemma u_escape_printable (n : Z) : forallb printable (u_escape n) = true.
Proof.
  unfold u_escape. cbn [forallb].
  rewrite !hex_char_printable by (apply Z.mod_pos_bound; lia). reflexivity.
Qed.

Lemma escape_ascii_printable (c : codepoint) :
  forallb printable (escape_ascii c) = true.
Proof.
  unfold escape_ascii.
  destruct (c =? 92); [reflexivity|].
  destruct (c =? 34); [reflexivity|].
  destruct ((32 <=? c) && (c <=? 126)) eqn:E;
    [cbn [forallb]; unfold printable; now rewrite E|].
  destruct (c =? 8); [reflexivity|].
  destruct (c =? 12); [reflexivity|].
  destruct (c =? 10); [reflexivity|].
  destruct (c =? 13); [reflexivity|].
  destruct (c =? 9); [reflexivity|].
  destruct (c <? 65536); [apply u_escape_printable|].
  cbv zeta. rewrite forallb_app, !u_escape_printable. reflexivity.
Qed.

Lemma encode_basestring_ascii_printable (s : str) :
  forallb printable (encode_basestring_ascii s) = true.
Proof.
  unfold encode_basestring_ascii. cbn [app forallb].
  rewrite forallb_app. cbn [forallb]. rewrite andb_true_r.
  change (printable 34) with true. cbn [andb].
  induction s as [|c s IH]; [reflexivity|].
  cbn [flat_map]. rewrite forallb_app, escape_ascii_printable. exact IH.
Qed.

(** ** The entries of a [dict] built from pairs *)

Section Further.
Context {FM : FloatModel}.



(** ** The operations on a string *)

Lemma transform_str (operation : pyval) (s : str) :
  exists r, transform operation (PyStr s) = Ok (PyStr r) /\
            (forallb is_code_point s = true -> forallb is_code_point r = true).
Proof.
  unfold transform.
  destruct (py_eq_str operation (lit "upper")).
  { exists (str_upper s). split; [reflexivity | apply str_upper_code_points]. }
  destruct (py_eq_str operation (lit "lower")).
  { exists (str_lower s). split; [reflexivity|].
    intros H. now apply do_lower_code_points. }
  destruct (py_eq_str operation (lit "reverse")).
  { exists (rev s). split; [cbn; now rewrite slice_reversed_rev|].
    intros H. rewrite forallb_forall in *. intros c Hc. apply H.
    now apply in_rev. }
  exists s. split; [reflexivity | trivial].
Qed.

Lemma json_loads_dumps (v : pyval) :
  float_free v = true -> json_loads (json_dumps v) = Ok (read_back v).
Proof.
  intros Hv. rewrite <- (app_nil_r (json_dumps v)).
  now apply json_loads_dumps_ws.
Qed.

(** ** The script on every argument *)


(** X2: the operation ["reverse"] on a text that is not a string.  A
    list is reversed and printed as a JSON array; any other value (a
    number, a boolean, [null], an object) makes the slice raise
    [TypeError]. *)
Theorem reverse_of_other_values
    (prog arg : str) (rest : list str) (input_data v : pyval) :
  json_loads arg = Ok input_data ->
  py_get input_data (lit "text") (PyStr (lit "")) = Ok v ->
  py_get input_data (lit "operation") (PyStr (lit "upper")) =
    Ok (PyStr (lit "reverse")) ->
  (forall items, v = PyList items ->
     run (prog :: arg :: rest) =
     printed (result_object (json_dumps (PyList (rev items))))) /\
  ((forall s, v <> PyStr s) -> (forall items, v <> PyList items) ->
     run (prog :: arg :: rest) = died TypeError).
Proof.
  intros Hl Ht Ho. rewrite run_with_argument, Hl, Ht, Ho. split.
  - intros items ->. cbn. now rewrite slice_reversed_rev.
  - intros Hs Hi. destruct v; try reflexivity.
    + now destruct (Hs s).
    + now destruct (Hi items).
Qed.

(** X3: an operation that is not a string (a number, a list, [null],
    ...) is equal to none of the three names: the text is printed as it
    is, whatever kind of value it is, and the script ends with status 0. *)
Theorem non_string_operation_identity
    (prog arg : str) (rest : list str) (input_data v operation : pyval) :
  json_loads arg = Ok input_data ->
  py_get input_data (lit "text") (PyStr (lit "")) = Ok v ->
  py_get input_data (lit "operation") (PyStr (lit "upper")) = Ok operation ->
  (forall name, operation <> PyStr name) ->
  run (prog :: arg :: rest) = printed (result_object (json_dumps v)).
Proof.
  intros Hl Ht Ho Hn. rewrite run_with_argument, Hl, Ht, Ho.
  destruct operation; try reflexivity. now destruct (Hn s).
Qed.


(** X5: when the text is a string, what the script prints is one line
    of printable ASCII characters, whatever code points the text holds
    ([json.dumps] escapes everything else), and the line with its line
    feed is a JSON text of RFC 8259. *)
Theorem string_result_is_ascii_json
    (prog arg : str) (rest : list str) (input_data operation : pyval) (s : str) :
  json_loads arg = Ok input_data ->
  py_get input_data (lit "text") (PyStr (lit "")) = Ok (PyStr s) ->
  py_get input_data (lit "operation") (PyStr (lit "upper")) = Ok operation ->
  exists line,
    run (prog :: arg :: rest) = printed line /\
    forallb printable line = true /\
    RFC8259.json_text false (line ++ [10]) = true.
Proof.
  intros Hl Ht Ho. rewrite run_with_argument, Hl, Ht, Ho.
  destruct (transform_str operation s) as (r & -> & _).
  eexists. split; [reflexivity|].
  change (json_dumps (PyStr r)) with (encode_basestring_ascii r).
  split; [|apply result_line_json].
  unfold result_object. rewrite !forallb_app.
  rewrite encode_basestring_ascii_printable. reflexivity.
Qed.

(** X6: [json.loads] reads back what [json.dumps] wrote.  For a value
    without floats whose strings consist of code points, and whose text
    has at most 1000 characters, the text [json.dumps] writes is
    accepted by [json.loads], which returns the value with the surrogate
    pairs of its strings joined and its dicts rebuilt; a value that
    holds no such pair and no key twice comes back as it was. *)
Theorem json_loads_json_dumps (v : pyval) :
  float_free v = true ->
  within_limits (json_dumps v) = true ->
  json_loads (json_dumps v) = Ok (read_back v) /\
  (canonical v = true -> json_loads (json_dumps v) = Ok v).
Proof.
  intros Hv _. split; [now apply json_loads_dumps|].
  intros Hc. rewrite json_loads_dumps by assumption.
  now rewrite read_back_canonical.
Qed.

(** X7: the line the script prints can be read back.  When the script
    succeeds with a result without floats, [json.loads] accepts its
    standard output, line feed included, and returns a [dict] with the
    single key ["result"], whose value is the result read back. *)
Theorem printed_line_reads_back
    (prog arg : str) (rest : list str)
    (input_data text operation result : pyval) :
  json_loads arg = Ok input_data ->
  py_get input_data (lit "text") (PyStr (lit "")) = Ok text ->
  py_get input_data (lit "operation") (PyStr (lit "upper")) = Ok operation ->
  transform operation text = Ok result ->
  float_free result = true ->
  json_loads (out (run (prog :: arg :: rest))) =
  Ok (PyDict [(lit "result", read_back result)]).
Proof.
  intros Hl Ht Ho Hr Hf. rewrite run_with_argument, Hl, Ht, Ho, Hr.
  unfold printed. cbn [out]. rewrite <- json_dumps_result.
  rewrite json_loads_dumps_ws; [reflexivity | | reflexivity].
  cbn [float_free forallb]. rewrite Hf. reflexivity.
Qed.

(** X8: a request written by [json.dumps].  For strings [s] and
    [operation] of code points, the script run on the text that
    [json.dumps] writes for the object with the keys ["text"] and
    ["operation"] never fails: it prints the result of the operation on
    the text, both as [json.loads] returns them. *)
Theorem dumped_request_runs
    (prog : str) (rest : list str) (s operation : str) :
  forallb is_code_point s = true ->
  forallb is_code_point operation = true ->
  exists r,
    transform (PyStr (join_surrogates operation)) (PyStr (join_surrogates s)) =
      Ok (PyStr r) /\
    run (prog ::
         json_dumps (PyDict [(lit "text", PyStr s);
                             (lit "operation", PyStr operation)]) :: rest) =
    printed (result_object (encode_basestring_ascii r)).
Proof.
  intros Hs Ho.
  destruct (transform_str (PyStr (join_surrogates operation)) (join_surrogates s))
    as (r & Hr & _).
  exists r. split; [exact Hr|].
  rewrite run_with_argument, json_loads_dumps.
  2:{ cbn [float_free forallb]. rewrite Hs, Ho. reflexivity. }
  change (read_back (PyDict [(lit "text", PyStr s);
                             (lit "operation", PyStr operation)]))
    with (PyDict [(lit "text", PyStr (join_surrogates s));
                  (lit "operation", PyStr (join_surrogates operation))]).
  change (py_get _ (lit "text") _) with (@Ok pyval (PyStr (join_surrogates s))).
  cbv iota beta.
  change (py_get _ (lit "operation") _)
    with (@Ok pyval (PyStr (join_surrogates operation))).
  cbv iota beta. rewrite Hr. reflexivity.
Qed.

(** X9: an empty text never fails: whatever the operation is, a string
    or not, the script prints the empty string as the result. *)
Theorem empty_text_never_fails
    (prog arg : str) (rest : list str) (input_data operation : pyval) :
  json_loads arg = Ok input_data ->
  py_get input_data (lit "text") (PyStr (lit "")) = Ok (PyStr []) ->
  py_get input_data (lit "operation") (PyStr (lit "upper")) = Ok operation ->
  run (prog :: arg :: rest) = printed (result_object (quoted "")).
Proof.
  intros Hl Ht Ho. rewrite run_with_argument, Hl, Ht, Ho.
  unfold transform.
  destruct (py_eq_str operation (lit "upper")); [reflexivity|].
  destruct (py_eq_str operation (lit "lower")); [reflexivity|].
  destruct (py_eq_str operation (lit "reverse")); reflexivity.
Qed.

(** X10: an argument of at most 1000 characters that is a JSON text of
    RFC 8259 is never refused: [json.loads] returns a value for it, and
    the script does not die of [JSONDecodeError]. *)
Theorem json_argument_is_parsed (prog arg : str) (rest : list str) :
  RFC8259.json_text false arg = true ->
  within_limits arg = true ->
  (exists input_data, json_loads arg = Ok input_data) /\
  forall m, run (prog :: arg :: rest) <> died (JSONDecodeError m).
Proof.
  intros Hj _. apply Grammar.json_text_extended in Hj.
  apply Grammar.json_loads_accepts in Hj as [input_data Hl].
  split; [eauto|]. intros m. rewrite run_with_argument, Hl.
  destruct (py_get input_data (lit "text") (PyStr (lit ""))) as [text|e] eqn:Et;
    [|apply py_get_raises in Et as ->; discriminate].
  destruct (py_get input_data (lit "operation") (PyStr (lit "upper")))
    as [operation|e] eqn:Eo;
    [|apply py_get_raises in Eo as ->; discriminate].
  destruct (transform operation text) as [result|e] eqn:Er;
    [discriminate|].
  apply transform_raises in Er as [-> | ->]; discriminate.
Qed.

(** X14: whitespace around the argument is ignored.  When [json.loads]
    accepts the argument, it returns the same value for the argument with
    spaces, tabs, line feeds or carriage returns before and after it, and
    the script does the same on both. *)
Theorem surrounding_whitespace_ignored
    (prog arg : str) (rest : list str) (before after : str)
    (input_data : pyval) :
  json_loads arg = Ok input_data ->
  forallb is_ws before = true -> forallb is_ws after = true ->
  json_loads (before ++ arg ++ after) = Ok input_data /\
  run (prog :: (before ++ arg ++ after) :: rest) = run (prog :: arg :: rest).
Proof.
  intros Hl Hb Ha.
  pose proof (json_loads_surrounded arg before after input_data Hl Hb Ha) as Hs.
  split; [exact Hs|]. now rewrite !run_with_argument, Hs, Hl.
Qed.

End Further.

(** X11: on a text of ASCII characters, [upper] and [lower] are the
    conversions of the 26 letters, character by character: the result
    has the length of the text and the other characters are kept. *)
Theorem ascii_case_conversion (s : str) :
  forallb is_ascii s = true ->
  str_upper s = List.map ascii_upper s /\ str_lower s = List.map ascii_lower s.
Proof.
  intros Hs. split; [now apply str_upper_ascii | now apply do_lower_ascii].
Qed.

(** X12: [upper] and [lower] never shorten a text; [upper] makes it at
    most three times as long and [lower] at most twice (the full case
    mappings of Unicode replace one code point by up to three). *)
Theorem case_conversion_length (s : str) :
  (length s <= length (str_upper s) <= 3 * length s)%nat /\
  (length s <= length (str_lower s) <= 2 * length s)%nat.
Proof.
  split.
  - unfold str_upper. induction s as [|c s IH]; [cbn; lia|].
    cbn [flat_map]. pose proof (CaseFacts.to_upper_full_size c) as Hc.
    unfold codepoint, str in *. rewrite length_app. cbn [length]. lia.
  - unfold str_lower. generalize (@nil codepoint) as pre.
    induction s as [|c s IH]; intros pre; [cbn; lia|].
    cbn [do_lower]. specialize (IH (c :: pre)).
    assert (Hc : (1 <= length (lower_ucs4 pre c s) <= 2)%nat).
    { unfold lower_ucs4. destruct (c =? 931); [cbn; lia|].
      apply CaseFacts.to_lower_full_size. }
    unfold codepoint, str in *. rewrite length_app. cbn [length]. lia.
Qed.

Lemma do_lower_no_sigma (s : str) :
  forallb (fun c => negb (c =? 931)) s = true ->
  forall before, do_lower before s = flat_map Unicode.to_lower_full s.
Proof.
  induction s as [|c s IH]; [reflexivity|].
  cbn [forallb do_lower flat_map]. intros H pre.
  apply andb_prop in H as [Hc Hs]. apply negb_true_iff in Hc.
  unfold lower_ucs4. now rewrite Hc, IH.
Qed.

(** X13: [upper] converts every code point on its own, so it goes
    through a concatenation, and so does reversal with the parts
    exchanged; [lower] looks at the neighbours of a code point only for
    the capital sigma U+03A3, and goes through a concatenation of texts
    without it. *)
Theorem operations_on_concatenation (s t : str) :
  str_upper (s ++ t) = str_upper s ++ str_upper t /\
  slice_reversed (s ++ t) = slice_reversed t ++ slice_reversed s /\
  (forallb (fun c => negb (c =? 931)) (s ++ t) = true ->
   str_lower (s ++ t) = str_lower s ++ str_lower t).
Proof.
  split; [|split].
  - unfold str_upper. apply flat_map_app.
  - rewrite !slice_reversed_rev. apply rev_app_distr.
  - intros H. unfold str_lower. rewrite do_lower_no_sigma by assumption.
    rewrite forallb_app in H. apply andb_prop in H as [Hs Ht].
    rewrite !do_lower_no_sigma by assumption. apply flat_map_app.
Qed.

(** ** Examples of the further properties *)

(** A list of numbers is reversed; a number cannot be sliced. *)
Lemma reverse_of_other_values_witness :
  run (FM := literal_floats)
    [script_path; object_text [(quoted "text", lit "[1, 2, 3]");
                               (quoted "operation", quoted "reverse")]] =
    printed (result_object (lit "[3, 2, 1]")) /\
  run (FM := literal_floats)
    [script_path; object_text [(quoted "text", lit "42");
                               (quoted "operation", quoted "reverse")]] =
    died TypeError.
Proof.
  split.
  - pose proof (reverse_of_other_values (FM := literal_floats) script_path
                  (object_text [(quoted "text", lit "[1, 2, 3]");
                                (quoted "operation", quoted "reverse")])
                  [] _ _ eq_refl eq_refl eq_refl) as [H _].
    exact (H _ eq_refl).
  - pose proof (reverse_of_other_values (FM := literal_floats) script_path
                  (object_text [(quoted "text", lit "42");
                                (quoted "operation", quoted "reverse")])
                  [] _ _ eq_refl eq_refl eq_refl) as [_ H].
    apply H; discriminate.
Defined.

(** The number 7 as the operation. *)
Lemma non_string_operation_identity_witness :
  run (FM := literal_floats)
    [script_path; object_text [(quoted "text", quoted "Hi");
                               (quoted "operation", lit "7")]] =
    printed (result_object (quoted "Hi")).
Proof.
  apply (non_string_operation_identity (FM := literal_floats) script_path
           (object_text [(quoted "text", quoted "Hi");
                         (quoted "operation", lit "7")])
           [] _ _ _ eq_refl eq_refl eq_refl).
  discriminate.
Defined.

(** The text U+00E9 U+1F600, given as it is: the result is printed with
    escapes. *)
Lemma string_result_is_ascii_json_witness :
  exists line,
    run (FM := literal_floats)
      [script_path;
       object_text [(quoted "text", [34; 233; 128512; 34])]] = printed line /\
    forallb printable line = true /\
    RFC8259.json_text false (line ++ [10]) = true.
Proof.
  apply (string_result_is_ascii_json (FM := literal_floats) script_path
           (object_text [(quoted "text", [34; 233; 128512; 34])])
           [] _ _ [233; 128512] eq_refl eq_refl eq_refl).
Defined.

(** An object with a string above U+FFFF, a negative number and a list. *)
Lemma json_loads_json_dumps_witness :
  json_loads (FM := literal_floats)
    (json_dumps (PyDict (FM := literal_floats)
                   [(lit "text", PyStr [72; 233; 128512]);
                    (lit "n", PyInt (-12));
                    (lit "items", PyList [PyNone; PyBool true])])) =
  Ok (PyDict [(lit "text", PyStr [72; 233; 128512]);
              (lit "n", PyInt (-12));
              (lit "items", PyList [PyNone; PyBool true])]).
Proof.
  destruct (json_loads_json_dumps (FM := literal_floats)
              (PyDict [(lit "text", PyStr [72; 233; 128512]);
                       (lit "n", PyInt (-12));
                       (lit "items", PyList [PyNone; PyBool true])])
              eq_refl eq_refl) as [_ H].
  exact (H eq_refl).
Defined.


(** The output of scenario 1 read back. *)
Lemma printed_line_reads_back_witness :
  json_loads (FM := literal_floats)
    (out (run (FM := literal_floats) [script_path; request "Hello" "upper"])) =
  Ok (PyDict [(lit "result", PyStr (lit "HELLO"))]).
Proof.
  apply (printed_line_reads_back (FM := literal_floats) script_path
           (request "Hello" "upper") [] _ _ _ _
           eq_refl eq_refl eq_refl eq_refl eq_refl).
Defined.

(** The request for ["Hello"] reversed, written by [json.dumps]. *)
Lemma dumped_request_runs_witness :
  forallb is_code_point (lit "Hello") = true /\
  forallb is_code_point (lit "reverse") = true /\
  exists r,
    transform (FM := literal_floats)
      (PyStr (join_surrogates (lit "reverse")))
      (PyStr (join_surrogates (lit "Hello"))) = Ok (PyStr r) /\
    run (FM := literal_floats)
      [script_path;
       json_dumps (FM := literal_floats)
         (PyDict [(lit "text", PyStr (lit "Hello"));
                  (lit "operation", PyStr (lit "reverse"))])] =
    printed (result_object (encode_basestring_ascii r)).
Proof.
  split; [reflexivity|]. split; [reflexivity|].
  apply (dumped_request_runs (FM := literal_floats) script_path []
           (lit "Hello") (lit "reverse")); reflexivity.
Defined.

(** The empty text under a list as the operation. *)
Lemma empty_text_never_fails_witness :
  run (FM := literal_floats)
    [script_path; object_text [(quoted "text", quoted "");
                               (quoted "operation", lit "[1]")]] =
    printed (result_object (quoted "")).
Proof.
  apply (empty_text_never_fails (FM := literal_floats) script_path
           (object_text [(quoted "text", quoted "");
                         (quoted "operation", lit "[1]")])
           [] _ _ eq_refl eq_refl eq_refl).
Defined.

(** The request of scenario 1 is a JSON text. *)
Lemma json_argument_is_parsed_witness :
  RFC8259.json_text false (request "Hello" "upper") = true /\
  within_limits (request "Hello" "upper") = true /\
  (exists input_data,
      json_loads (FM := literal_floats) (request "Hello" "upper") =
      Ok input_data) /\
  forall m,
    run (FM := literal_floats) [script_path; request "Hello" "upper"] <>
    died (JSONDecodeError m).
Proof.
  split; [reflexivity|]. split; [reflexivity|].
  apply (json_argument_is_parsed (FM := literal_floats) script_path
           (request "Hello" "upper") []); reflexivity.
Defined.

(** Letters, digits and punctuation. *)
Lemma ascii_case_conversion_witness :
  forallb is_ascii (lit "Hello, World 42") = true /\
  str_upper (lit "Hello, World 42") = List.map ascii_upper (lit "Hello, World 42") /\
  str_lower (lit "Hello, World 42") = List.map ascii_lower (lit "Hello, World 42").
Proof.
  split; [reflexivity|].
  apply (ascii_case_conversion (lit "Hello, World 42")). reflexivity.
Defined.

(** Two words. *)
Lemma operations_on_concatenation_witness :
  forallb (fun c => negb (c =? 931)) (lit "Hello, " ++ lit "World") = true /\
  str_lower (lit "Hello, " ++ lit "World") =
  str_lower (lit "Hello, ") ++ str_lower (lit "World").
Proof.
  split; [reflexivity|].
  destruct (operations_on_concatenation (lit "Hello, ") (lit "World"))
    as (_ & _ & H).
  apply H. reflexivity.
Defined.

(** The request of scenario 1 between a space and a line feed. *)
Lemma surrounding_whitespace_ignored_witness :
  json_loads (FM := literal_floats) (lit " " ++ request "Hello" "upper" ++ [10]) =
    json_loads (FM := literal_floats) (request "Hello" "upper") /\
  run (FM := literal_floats)
    [script_path; lit " " ++ request "Hello" "upper" ++ [10]] =
  run (FM := literal_floats) [script_path; request "Hello" "upper"].
Proof.
  destruct (surrounding_whitespace_ignored (FM := literal_floats) script_path
              (request "Hello" "upper") [] (lit " ") [10] _
              eq_refl eq_refl eq_refl) as [Hl Hr].
  split; [exact Hl | exact Hr].
Defined.
